(** * CORE daemon: the TLV request handler

    A shallow embedding of [daemon/core/api/tlv/corehandlers.py]
    (class [CoreHandler]) and the properties of its message handlers.

    The handler is Python code that mutates the handler object, the
    session objects it refers to and the sockets of the attached clients,
    and that raises exceptions.  The embedding is an explicit state and
    exception monad over a [World]:

    - the fields of the handler ([self.session], [self.master],
      [self.node_status_request], [self.message_queue]) and the session
      objects (kept in a heap, since [self.session] and the entries of
      [coreemu.sessions] alias) are state;
    - every call that leaves the file (logging, [time.sleep], socket
      writes, methods of the session and of its managers) is appended
      to a chronological [trace]; the value such a call returns is
      given by an oracle that may depend on the whole history, so the
      theorems hold for every behaviour of the collaborators; a
      collaborator returns normally, except where the handler itself
      provides for its exception: [session.get_node] (KeyError) and
      the socket reads and writes (IOError);
    - the bytes arriving on the handler's own socket are a list of
      chunks consumed by [recv]. *)

From Stdlib Require Import ZArith Lia Ascii String.
From stdpp Require Import base option list gmap strings.

Local Open Scope string_scope.
Local Open Scope list_scope.
Local Open Scope Z_scope.

(** ** Python values *)

Abbreviation bytes := (list Byte.byte).

(** The values a TLV can carry once decoded: integers, strings, floats
    (kept by their textual form) and tuples of integers. *)
Inductive value :=
| VInt (z : Z)
| VStr (s : string)
| VFloat (repr : string)
| VTuple (items : list Z).

Definition len {A} (l : list A) : Z := Z.of_nat (length l).

(** Python truth value of [x] where [x] is a TLV value or [None]. *)
Definition truthy (x : option value) : bool :=
  match x with
  | None => false
  | Some (VInt z) => negb (z =? 0)
  | Some (VStr s) => negb (String.eqb s EmptyString)
  | Some (VFloat _) => true
  | Some (VTuple l) => match l with [] => false | _ => true end
  end.

(** [s.split(sep)] for a one-character separator. *)
Fixpoint split (sep : Ascii.ascii) (s : string) : list string :=
  match s with
  | EmptyString => [EmptyString]
  | String c rest =>
      if Ascii.eqb c sep then EmptyString :: split sep rest
      else match split sep rest with
           | h :: t => String c h :: t
           | [] => [String c EmptyString]
           end
  end.

(** [x is None] *)
Definition is_none {A} (x : option A) : bool :=
  match x with None => true | Some _ => false end.

(** [x == s] for a string literal [s]. *)
Definition eq_str (x : option value) (s : string) : bool :=
  match x with Some (VStr s') => String.eqb s' s | _ => false end.

(** [sep.join(l)] *)
Fixpoint join (sep : string) (l : list string) : string :=
  match l with
  | [] => EmptyString
  | [x] => x
  | x :: l' => x +:+ sep +:+ join sep l'
  end.

Definition startswith (s p : string) : bool := String.prefix p s.

(** ** Exceptions and results *)

Inductive exn_class :=
| EOFError | IOError | KeyError | ValueError | TypeError | IndexError
| AttributeError | NotImplementedError | Exception.

Record exn := Exn { exn_class_of : exn_class; exn_message : string }.

(** [OutOfFuel] stands for a loop that has not finished within the
    given number of iterations; no handler catches it. *)
Inductive result (A : Type) :=
| Ok (a : A)
| Raise (e : exn)
| OutOfFuel.
Arguments Ok {A} a.
Arguments Raise {A} e.
Arguments OutOfFuel {A}.

Definition exn_class_eqb (a b : exn_class) : bool :=
  match a, b with
  | EOFError, EOFError | IOError, IOError | KeyError, KeyError
  | ValueError, ValueError | TypeError, TypeError | IndexError, IndexError
  | AttributeError, AttributeError
  | NotImplementedError, NotImplementedError | Exception, Exception => true
  | _, _ => false
  end.

(** ** Enumerations of [core.emulator.enumerations] *)

Module MessageFlags.
Inductive t := NONE | ADD | DELETE | LOCAL | STRING | TEXT | TTY.
End MessageFlags.

Module MessageTypes.
Inductive t :=
  | NODE | LINK | EXECUTE | REGISTER | CONFIG | FILE | INTERFACE | EVENT
  | SESSION | EXCEPTION.
End MessageTypes.

Module EventTypes.
Inductive t :=
  | DEFINITION_STATE | CONFIGURATION_STATE | INSTANTIATION_STATE
  | RUNTIME_STATE | DATACOLLECT_STATE | SHUTDOWN_STATE
  | START | STOP | PAUSE | RESTART | FILE_OPEN | FILE_SAVE | SCHEDULED
  | RECONFIGURE.
End EventTypes.

Module ConfigFlags.
Inductive t := NONE | REQUEST | UPDATE | RESET.
End ConfigFlags.

Module ConfigDataTypes.
Inductive t := STRING | BOOL.
End ConfigDataTypes.

(** ** TLV tags *)

Module NodeTlvs.
Inductive t :=
  | NUMBER | TYPE | NAME | MODEL | X_POSITION | Y_POSITION | LATITUDE
  | LONGITUDE | ALTITUDE | ICON | CANVAS | OPAQUE | SERVICES | EMULATION_ID.
End NodeTlvs.

Module ExecuteTlvs.
Inductive t := NODE | NUMBER | TIME | COMMAND | RESULT | STATUS.
End ExecuteTlvs.

Module ConfigTlvs.
Inductive t :=
  | NODE | OBJECT | TYPE | DATA_TYPES | VALUES | CAPTIONS | BITMAP
  | POSSIBLE_VALUES | GROUPS | SESSION | INTERFACE_NUMBER | NETWORK_ID
  | OPAQUE.
End ConfigTlvs.

Module EventTlvs.
Inductive t := NODE | TYPE | NAME | DATA | TIME | SESSION.
End EventTlvs.

Module SessionTlvs.
Inductive t := NUMBER | NAME | FILE | NODE_COUNT | DATE | THUMB | USER.
End SessionTlvs.

(** A message keeps its TLVs in a dictionary keyed by the tag of its own
    message class. *)
Inductive Tlv :=
| NodeTlv (t : NodeTlvs.t)
| ExecuteTlv (t : ExecuteTlvs.t)
| ConfigTlv (t : ConfigTlvs.t)
| EventTlv (t : EventTlvs.t)
| SessionTlv (t : SessionTlvs.t).
Global Instance NodeTlvs_eq_dec : EqDecision NodeTlvs.t.
Proof. solve_decision. Defined.
Global Instance ExecuteTlvs_eq_dec : EqDecision ExecuteTlvs.t.
Proof. solve_decision. Defined.
Global Instance ConfigTlvs_eq_dec : EqDecision ConfigTlvs.t.
Proof. solve_decision. Defined.
Global Instance EventTlvs_eq_dec : EqDecision EventTlvs.t.
Proof. solve_decision. Defined.
Global Instance SessionTlvs_eq_dec : EqDecision SessionTlvs.t.
Proof. solve_decision. Defined.
Global Instance Tlv_eq_dec : EqDecision Tlv.
Proof. solve_decision. Defined.
Coercion NodeTlv : NodeTlvs.t >-> Tlv.
Coercion ExecuteTlv : ExecuteTlvs.t >-> Tlv.
Coercion ConfigTlv : ConfigTlvs.t >-> Tlv.
Coercion EventTlv : EventTlvs.t >-> Tlv.
Coercion SessionTlv : SessionTlvs.t >-> Tlv.

(** ** Messages and data objects *)

(** [coreapi.CoreMessage]: type and flags of the header, the decoded
    TLVs, the bytes as received, and the re-queue counter the receive
    loop stamps. *)
Record CoreMessage := {
  message_type : Z;
  flags : Z;
  tlv_data : Tlv → option value;
  raw_message : bytes;
  queuedtimes : option Z
}.

Definition get_tlv (message : CoreMessage) (tlv_type : Tlv) : option value :=
  tlv_data message tlv_type.

Definition set_queuedtimes (n : Z) (message : CoreMessage) : CoreMessage :=
  {| message_type := message_type message; flags := flags message;
     tlv_data := tlv_data message; raw_message := raw_message message;
     queuedtimes := Some n |}.

(** [core.emulator.data.ConfigData] *)
Module ConfigData.
Record t := {
    message_type : option Z;
    node : option value;
    object : option value;
    type : option value;
    data_types : option value;
    data_values : option value;
    captions : option value;
    bitmap : option value;
    possible_values : option value;
    groups : option value;
    session : option value;
    interface_number : option value;
    network_id : option value;
    opaque : option value
  }.
End ConfigData.

(** [core.emulator.data.EventData] *)
Module EventData.
Record t := {
    node : option value;
    event_type : option value;
    name : option value;
    data : option value;
    time : option value;
    session : option value
  }.
End EventData.

(** [core.emulator.emudata.NodeOptions], as [handle_node_message] fills
    it in. *)
Module NodeOptions.
Record t := {
    name : option value;
    model : option value;
    x : option value;
    y : option value;
    lat : option value;
    lon : option value;
    alt : option value;
    icon : option value;
    canvas : option value;
    opaque : option value;
    services : option (list string)
  }.
End NodeOptions.

(** A node object of the session, as far as the handler looks at it:
    its [id] and the class [nodeutils.is_node] tests. *)
Module Node.
Record t := { id : Z; class : Z }.
End Node.

(** A configuration dictionary (keys in iteration order). *)
Abbreviation config := (list (string * string)).

(** ** Sessions, handlers and the calls that leave the file *)

(** Identity of a session object and of a [CoreHandler] (one per
    client connection). *)
Abbreviation loc := nat.
Abbreviation conn := nat.

(** The attributes of a session object the handler reads or assigns
    itself.  [session_clients] is [session.broker.session_clients]; the
    [*_name] fields are the [name] attributes of the configurable
    managers; [mobility_models] and [emane_models] are the [models]
    dictionaries (model name to model class). *)
Module Session.
Record t := {
    id : Z;
    name : option value;
    file_name : option value;
    master : bool;
    session_clients : list conn;
    options_name : string;
    location_name : string;
    metadata_name : string;
    broker_name : string;
    services_name : string;
    mobility_name : string;
    emane_name : string;
    mobility_models : gmap string string;
    emane_models : gmap string string
  }.

Definition set_name (v : option value) (s : t) : t :=
    {| id := id s; name := v; file_name := file_name s; master := master s;
       session_clients := session_clients s; options_name := options_name s;
       location_name := location_name s; metadata_name := metadata_name s;
       broker_name := broker_name s; services_name := services_name s;
       mobility_name := mobility_name s; emane_name := emane_name s;
       mobility_models := mobility_models s; emane_models := emane_models s |}.

Definition set_file_name (v : option value) (s : t) : t :=
    {| id := id s; name := name s; file_name := v; master := master s;
       session_clients := session_clients s; options_name := options_name s;
       location_name := location_name s; metadata_name := metadata_name s;
       broker_name := broker_name s; services_name := services_name s;
       mobility_name := mobility_name s; emane_name := emane_name s;
       mobility_models := mobility_models s; emane_models := emane_models s |}.

Definition set_master (b : bool) (s : t) : t :=
    {| id := id s; name := name s; file_name := file_name s; master := b;
       session_clients := session_clients s; options_name := options_name s;
       location_name := location_name s; metadata_name := metadata_name s;
       broker_name := broker_name s; services_name := services_name s;
       mobility_name := mobility_name s; emane_name := emane_name s;
       mobility_models := mobility_models s; emane_models := emane_models s |}.

Definition set_session_clients (l : list conn) (s : t) : t :=
    {| id := id s; name := name s; file_name := file_name s; master := master s;
       session_clients := l; options_name := options_name s;
       location_name := location_name s; metadata_name := metadata_name s;
       broker_name := broker_name s; services_name := services_name s;
       mobility_name := mobility_name s; emane_name := emane_name s;
       mobility_models := mobility_models s; emane_models := emane_models s |}.
End Session.

Inductive level := DEBUG | INFO | WARNING | ERROR | EXCEPTION_LEVEL.

(** The two managers that keep per-model configuration. *)
Inductive manager := Mobility | Emane.

(** The configurable objects with [get_configs] / [set_config]. *)
Inductive configurable := Options | Metadata | EmaneConfig.

(** What [session.get_node] does: return a node, return [None], or
    raise [KeyError]. *)
Inductive get_node_result := GotNode (n : Node.t) | GotNone | NoSuchNode.

(** Arguments of the calls that are recorded without further structure. *)
Inductive arg :=
| AV (v : option value)
| AS (s : string)
| AZ (z : Z)
| AL (l : list string)
| AC (c : config)
| AN (n : get_node_result)
| AD (d : EventData.t).

(** Every call that leaves the file.  The comment gives what the call
    returns when that is not nothing. *)
Inductive Call :=
| Log (lvl : level) (fmt : string)
| Sleep (milliseconds : Z)
(* [client.request.sendall(data)]: [false] when it raises IOError *)
| Sendall (client : conn) (data : bytes)
(* [self.request.getpeername()[1]] *)
| Getpeername
(* [coreemu.create_session(port, master=False)]: the new session *)
| CreateSession (port : option Z)
| DeleteSession (session_id : Z)
(* [session.is_active()] *)
| IsActive (s : loc)
(* [session.add_node(node_type, node_id, node_options)]: node or None *)
| AddNode (s : loc) (node_type : option Z) (node_id : option value)
          (node_options : NodeOptions.t)
(* [session.delete_node(node_id)]: truth value of the result *)
| DeleteNode (s : loc) (node_id : option value)
| UpdateNode (s : loc) (node_id : option value) (node_options : NodeOptions.t)
| GetNode (s : loc) (node_id : option value)
(* [session.state] *)
| SessionState (s : loc)
(* the keys of [session.nodes] *)
| SessionNodes (s : loc)
| SetState (s : loc) (event_type : Z)
| StartMobility (s : loc) (node_ids : list Z)
| AddEvent (s : loc) (time : value) (node name data : option value)
(* [get_model_config(node_id, model_name)] of a manager: a config *)
| GetModelConfig (m : manager) (s : loc) (node_id : option value)
                 (model_name : option value)
| SetModelConfig (m : manager) (s : loc) (node_id : option value)
                 (model_name : option value) (c : config)
(* [get_configs()] of a configurable: a config *)
| GetConfigs (c : configurable) (s : loc)
| SetConfig (c : configurable) (s : loc) (key value : string)
(* the reply fields [handle_config_services] computes from
   [ServiceManager.services]: data_types, captions, possible_values,
   values, groups *)
| ServiceListing
(* [utils.cmd_output] / [node.cmd_output]: status and output *)
| CmdOutput (node : option get_node_result) (command : option value)
(* [self.session_message()]: the SESSION message, or None *)
| SessionMessage
(* any other method whose result, if any, is a single object *)
| Ask (s : option loc) (method : string) (args : list arg)
(* any other method called for its effect *)
| Invoke (s : option loc) (method : string) (args : list arg).

Definition ans (c : Call) : Type :=
  match c with
  | Sendall _ _ => bool
  | Getpeername => Z
  | CreateSession _ => loc
  | IsActive _ => bool
  | AddNode _ _ _ _ => option Node.t
  | DeleteNode _ _ => bool
  | GetNode _ _ => get_node_result
  | SessionState _ => Z
  | SessionNodes _ => list Z
  | GetModelConfig _ _ _ _ => config
  | GetConfigs _ _ => config
  | ServiceListing =>
      option value * option value * option value * option value * option value
  | CmdOutput _ _ => Z * string
  | SessionMessage => option bytes
  | Ask _ _ _ => option value
  | _ => unit
  end.

(** The socket writes among the calls [t], in order: which handler's
    socket, and the bytes. *)
Definition sent (t : list Call) : list (conn * bytes) :=
  omap (λ c, match c with Sendall client data => Some (client, data) | _ => None end) t.

(** What arrives on the handler's socket: chunks of bytes, or an error
    of the socket.  After the last chunk the peer has closed the
    connection. *)
Inductive chunk := Chunk (b : bytes) | SockError.

(** The handler object [self], the objects it reaches, and the
    history of its calls.  The identity of [self] and the oracle that
    answers the calls do not change and are not part of the state. *)
Record World := {
  trace : list Call;
  heap : loc → Session.t;
  coreemu_sessions : gmap Z loc;
  self_master : bool;
  self_session : option loc;
  node_status_request : gmap Z bool;
  message_queue : list CoreMessage;
  handler_threads : Z;
  rfile : list chunk
}.

Definition set_trace (t : list Call) (w : World) : World :=
  {| trace := t; heap := heap w;
     coreemu_sessions := coreemu_sessions w;
     self_master := self_master w; self_session := self_session w;
     node_status_request := node_status_request w;
     message_queue := message_queue w; handler_threads := handler_threads w;
     rfile := rfile w |}.

Definition set_heap (h : loc → Session.t) (w : World) : World :=
  {| trace := trace w; heap := h;
     coreemu_sessions := coreemu_sessions w;
     self_master := self_master w; self_session := self_session w;
     node_status_request := node_status_request w;
     message_queue := message_queue w; handler_threads := handler_threads w;
     rfile := rfile w |}.

Definition set_coreemu_sessions (m : gmap Z loc) (w : World) : World :=
  {| trace := trace w; heap := heap w;
     coreemu_sessions := m;
     self_master := self_master w; self_session := self_session w;
     node_status_request := node_status_request w;
     message_queue := message_queue w; handler_threads := handler_threads w;
     rfile := rfile w |}.

Definition set_self_master (b : bool) (w : World) : World :=
  {| trace := trace w; heap := heap w;
     coreemu_sessions := coreemu_sessions w;
     self_master := b; self_session := self_session w;
     node_status_request := node_status_request w;
     message_queue := message_queue w; handler_threads := handler_threads w;
     rfile := rfile w |}.

Definition set_self_session (s : option loc) (w : World) : World :=
  {| trace := trace w; heap := heap w;
     coreemu_sessions := coreemu_sessions w;
     self_master := self_master w; self_session := s;
     node_status_request := node_status_request w;
     message_queue := message_queue w; handler_threads := handler_threads w;
     rfile := rfile w |}.

Definition set_node_status_request (m : gmap Z bool) (w : World) : World :=
  {| trace := trace w; heap := heap w;
     coreemu_sessions := coreemu_sessions w;
     self_master := self_master w; self_session := self_session w;
     node_status_request := m;
     message_queue := message_queue w; handler_threads := handler_threads w;
     rfile := rfile w |}.

Definition set_message_queue (q : list CoreMessage) (w : World) : World :=
  {| trace := trace w; heap := heap w;
     coreemu_sessions := coreemu_sessions w;
     self_master := self_master w; self_session := self_session w;
     node_status_request := node_status_request w;
     message_queue := q; handler_threads := handler_threads w;
     rfile := rfile w |}.

Definition set_rfile (r : list chunk) (w : World) : World :=
  {| trace := trace w; heap := heap w;
     coreemu_sessions := coreemu_sessions w;
     self_master := self_master w; self_session := self_session w;
     node_status_request := node_status_request w;
     message_queue := message_queue w; handler_threads := handler_threads w;
     rfile := r |}.

(** Assignment to an attribute of the session object at [l]. *)
Definition heap_update (l : loc) (f : Session.t → Session.t)
    (h : loc → Session.t) : loc → Session.t :=
  λ l', if Nat.eqb l' l then f (h l') else h l'.

(** ** The monad *)

Definition M (A : Type) : Type := World → result A * World.

Global Instance M_ret : MRet M := λ A a w, (Ok a, w).

Global Instance M_bind : MBind M := λ A B f m w,
  match m w with
  | (Ok a, w') => f a w'
  | (Raise e, w') => (Raise e, w')
  | (OutOfFuel, w') => (OutOfFuel, w')
  end.

Global Instance M_fmap : FMap M := λ A B f m w,
  match m w with
  | (Ok a, w') => (Ok (f a), w')
  | (Raise e, w') => (Raise e, w')
  | (OutOfFuel, w') => (OutOfFuel, w')
  end.

Definition raise {A} (c : exn_class) (msg : string) : M A :=
  λ w, (Raise (Exn c msg), w).

Definition out_of_fuel {A} : M A := λ w, (OutOfFuel, w).

(** [try: m except classes: h] *)
Definition try_except {A} (m : M A) (classes : list exn_class)
    (h : exn → M A) : M A :=
  λ w, match m w with
       | (Raise e, w') =>
           if existsb (exn_class_eqb (exn_class_of e)) classes
           then h e w' else (Raise e, w')
       | r => r
       end.

Definition gets {A} (f : World → A) : M A := λ w, (Ok (f w), w).
Definition modify (f : World → World) : M unit := λ w, (Ok tt, f w).


(** A call made for its effect only: it is recorded. *)
Definition effect (c : Call) : M unit :=
  λ w, (Ok tt, set_trace (trace w ++ [c]) w).

Definition log (lvl : level) (fmt : string) : M unit := effect (Log lvl fmt).
Definition sleep (milliseconds : Z) : M unit := effect (Sleep milliseconds).

Definition when (b : bool) (m : M unit) : M unit := if b then m else mret tt.

(** [for x in l: body x] *)
Fixpoint for_each {A} (l : list A) (body : A → M unit) : M unit :=
  match l with
  | [] => mret tt
  | x :: l' => body x;; for_each l' body
  end.

(** [for index, x in enumerate(l): body index x], counting from [start] *)
Fixpoint for_enumerate {A} (start : nat) (l : list A)
    (body : nat → A → M unit) : M unit :=
  match l with
  | [] => mret tt
  | x :: l' => body start x;; for_enumerate (S start) l' body
  end.

(** [self.session], an AttributeError being raised by the first
    attribute access when it is [None]. *)
Definition the_session : M loc :=
  λ w, match self_session w with
       | Some l => (Ok l, w)
       | None => (Raise (Exn AttributeError "'NoneType' object has no attribute"), w)
       end.

Definition session_attr {A} (l : loc) (f : Session.t → A) : M A :=
  gets (λ w, f (heap w l)).

Definition session_assign (l : loc) (f : Session.t → Session.t) : M unit :=
  modify (λ w, set_heap (heap_update l f (heap w)) w).

(** ** What the handler imports

    The modules [core.emulator.enumerations], [core.api.tlv.coreapi],
    [core.api.tlv.dataconversion], [core.config], [core.services] and
    [core.nodes.nodeutils] are not part of the sources at hand.  The
    handler only needs the numeric values of the enumeration members,
    the codec functions and a few pure helpers; they are parameters,
    and every theorem holds for all of them.  The members listed above
    are those the handler or the specification names; an enumeration
    may have others.  Two members of an enumeration with the same
    value are the same member in Python, so members are represented by
    their values. *)
Class CoreApi := {
  MessageFlags_value : MessageFlags.t → Z;
  MessageTypes_value : MessageTypes.t → Z;
  EventTypes_value : EventTypes.t → Z;
  ConfigFlags_value : ConfigFlags.t → Z;
  (* the values of the members the handler does not name *)
  MessageTypes_other : Z → bool;
  EventTypes_other : Z → bool;
  ConfigDataTypes_value : ConfigDataTypes.t → Z;
  is_NodeTypes : Z → bool;
  NodeTypes_WIRELESS_LAN : Z;
  (* [nodeutils.is_node(node, node_type)] on a node object *)
  is_node : Node.t → Z → bool;
  (* [coreapi.CoreMessage.header_len] and [unpack_header] *)
  header_len : Z;
  unpack_header : bytes → Z * Z * Z;
  (* [coreapi.CLASS_MAP[message_type](flags, header, data)]: the TLVs,
     or [None] when this raises KeyError *)
  CLASS_MAP_unpack : Z → Z → bytes → bytes → option (Tlv → option value);
  CoreNodeTlv_pack : NodeTlvs.t → option value → bytes;
  CoreNodeMessage_pack : Z → bytes → bytes;
  CoreExecuteTlv_pack : ExecuteTlvs.t → option value → bytes;
  CoreExecMessage_pack : Z → bytes → bytes;
  (* [dataconversion.convert_config] *)
  convert_config : ConfigData.t → bytes;
  (* [ConfigShim.config_data(flags, node_id, type_flags, configurable, config)] *)
  ConfigShim_config_data : Z → option value → Z → string → config → ConfigData.t;
  ConfigShim_str_to_dict : string → config;
  (* [coreapi.str_to_list] *)
  str_to_list : option value → option (list string);
  (* [ServiceShim.servicesfromopaque] and [len(ServiceShim.keys)] *)
  ServiceShim_servicesfromopaque : option value → list string;
  ServiceShim_keys_len : Z;
  (* the builtins [int] and [float] on a string: [None] for ValueError *)
  py_int : string → option Z;
  py_float : string → option string
}.

Section CoreHandler.
Context {api : CoreApi}.
(** What every call returns, given the calls made before it. *)
Context (oracle : list Call → ∀ c : Call, ans c).
(** The handler this is the code of. *)
Context (self : conn).

(** A call that leaves the file: it is recorded, and the oracle says
    what it returns after the history so far. *)
Definition call (c : Call) : M (ans c) :=
  λ w, (Ok (oracle (trace w) c), set_trace (trace w ++ [c]) w).

Definition flag (f : MessageFlags.t) : Z := MessageFlags_value f.

(** [message.flags & MessageFlags.F.value] as a truth value. *)
Definition has_flag (message : CoreMessage) (f : MessageFlags.t) : bool :=
  negb (Z.land (flags message) (flag f) =? 0).

Definition is_MessageTypes (z : Z) : bool :=
  existsb (λ m, MessageTypes_value m =? z)
    [MessageTypes.NODE; MessageTypes.LINK; MessageTypes.EXECUTE;
     MessageTypes.REGISTER; MessageTypes.CONFIG; MessageTypes.FILE;
     MessageTypes.INTERFACE; MessageTypes.EVENT; MessageTypes.SESSION;
     MessageTypes.EXCEPTION]
  || MessageTypes_other z.

Definition is_EventTypes (z : Z) : bool :=
  existsb (λ m, EventTypes_value m =? z)
    [EventTypes.DEFINITION_STATE; EventTypes.CONFIGURATION_STATE;
     EventTypes.INSTANTIATION_STATE; EventTypes.RUNTIME_STATE;
     EventTypes.DATACOLLECT_STATE; EventTypes.SHUTDOWN_STATE;
     EventTypes.START; EventTypes.STOP; EventTypes.PAUSE; EventTypes.RESTART;
     EventTypes.FILE_OPEN; EventTypes.FILE_SAVE; EventTypes.SCHEDULED;
     EventTypes.RECONFIGURE]
  || EventTypes_other z.

Definition is_ConfigFlags (z : Z) : bool :=
  existsb (λ m, ConfigFlags_value m =? z)
    [ConfigFlags.NONE; ConfigFlags.REQUEST; ConfigFlags.UPDATE; ConfigFlags.RESET].

(** [MessageTypes(v)], [EventTypes(v)], [ConfigFlags(v)], [NodeTypes(v)]:
    the member with value [v], or ValueError. *)
Definition enum_of (is_member : Z → bool) (what : string)
    (v : option value) : M Z :=
  match v with
  | Some (VInt z) => if is_member z then mret z else raise ValueError what
  | _ => raise ValueError what
  end.

Definition MessageTypes_of := enum_of is_MessageTypes "is not a valid MessageTypes".
Definition EventTypes_of := enum_of is_EventTypes "is not a valid EventTypes".
Definition ConfigFlags_of := enum_of is_ConfigFlags "is not a valid ConfigFlags".
Definition NodeTypes_of := enum_of is_NodeTypes "is not a valid NodeTypes".

(** ** Sockets *)

(** [client.sendall(data)] on the handler [client]. *)
Definition sendall_on (client : conn) (data : bytes) : M unit :=
  ok ← call (Sendall client data);
  if ok : bool then mret tt else raise IOError "sendall".

(** [self.sendall(data)] *)
Definition sendall (data : bytes) : M unit := sendall_on self data.

(** [self.request.recv(bufsize)]: at most [bufsize] bytes of the next
    chunk; the empty bytes object once the peer has closed. *)
Definition recv (bufsize : Z) : M bytes :=
  λ w, match rfile w with
       | [] => (Ok [], w)
       | SockError :: rest => (Raise (Exn IOError "recv"), set_rfile rest w)
       | Chunk b :: rest =>
           if len b <=? bufsize then (Ok b, set_rfile rest w)
           else (Ok (take (Z.to_nat bufsize) b),
                 set_rfile (Chunk (drop (Z.to_nat bufsize) b) :: rest) w)
       end.

(** ** [receive_message] *)

(** The loop [while len(data) < message_len: ...]. *)
Fixpoint receive_body (fuel : nat) (message_len : Z) (data : bytes) : M bytes :=
  if len data <? message_len then
    match fuel with
    | O => out_of_fuel
    | S fuel' =>
        received ← recv (message_len - len data);
        let data := data ++ received in
        if message_len <? len data then
          log ERROR "received message length does not match received data (%s != %s)";;
          raise IOError "received message length does not match received data (%s != %s)"
        else receive_body fuel' message_len data
    end
  else mret data.

Definition receive_message (fuel : nat) : M CoreMessage :=
  header ← try_except (recv header_len) [IOError]
              (λ e, raise IOError "error receiving header (%s)");
  if negb (len header =? header_len) then
    if len header =? 0 then raise EOFError "client disconnected"
    else raise IOError "invalid message header size"
  else
    let '(message_type, message_flags, message_len) := unpack_header header in
    when (message_len =? 0) (log WARNING "received message with no data");;
    data ← receive_body fuel message_len [];
    match CLASS_MAP_unpack message_type message_flags header data with
    | Some tlvs =>
        mret {| message_type := message_type; flags := message_flags;
                tlv_data := tlvs; raw_message := header ++ data;
                queuedtimes := None |}
    | None =>
        log EXCEPTION_LEVEL "unimplemented core message type: %s";;
        mret {| message_type := message_type; flags := message_flags;
                tlv_data := λ _, None; raw_message := header ++ data;
                queuedtimes := None |}
    end.

(** ** [queue_message] and the receive loop of [handle] *)

Definition queue_message (message : CoreMessage) : M unit :=
  (* the arguments of the debug record are evaluated first *)
  _ ← MessageTypes_of (Some (VInt (message_type message)));
  log DEBUG "queueing msg (queuedtimes = %s): type %s";;
  modify (λ w, set_message_queue (message_queue w ++ [message]) w).

Inductive loop_control := Continue | Break.

(** One turn of [while True:] in [handle]. *)
Definition handle_iteration (fuel : nat) : M loop_control :=
  received ← try_except (Some <$> receive_message fuel) [EOFError; IOError]
      (λ e, match exn_class_of e with
            | EOFError => log INFO "client disconnected";; mret None
            | _ => log EXCEPTION_LEVEL "error receiving message";; mret None
            end);
  match received with
  | None => mret Break
  | Some message =>
      let message := set_queuedtimes 0 message in
      queue_message message;;
      (* delay is required for brief connections, allow session joining *)
      when (message_type message =? MessageTypes_value MessageTypes.SESSION)
           (sleep 125);;
      (* broadcast node/link messages to other connected clients *)
      if negb ((message_type message =? MessageTypes_value MessageTypes.NODE)
               || (message_type message =? MessageTypes_value MessageTypes.LINK))
      then mret Continue
      else
        s ← the_session;
        clients ← session_attr s Session.session_clients;
        for_each clients (λ client,
          if Nat.eqb client self then mret tt
          else
            log DEBUG "BROADCAST TO OTHER CLIENT: %s";;
            sendall_on client (raw_message message));;
        mret Continue
  end.

Fixpoint handle_loop (turns fuel : nat) : M unit :=
  match turns with
  | O => out_of_fuel
  | S turns' =>
      c ← handle_iteration fuel;
      match c with
      | Break => mret tt
      | Continue => handle_loop turns' fuel
      end
  end.

Definition handle (turns fuel : nat) : M unit :=
  (* use port as session id *)
  port ← call Getpeername;
  s ← call (CreateSession (Some port));
  modify (set_self_session (Some s));;
  log DEBUG "created new session for client: %s";;
  is_master ← gets self_master;
  when is_master
    (log DEBUG "session set to master";;
     session_assign s (Session.set_master true));;
  session_assign s (λ x, Session.set_session_clients (Session.session_clients x ++ [self]) x);;
  effect (Invoke None "add_session_handlers" []);;
  effect (SetState s (EventTypes_value EventTypes.DEFINITION_STATE));;
  handle_loop turns fuel.

(** ** [send_node_emulation_id] *)

Definition send_node_emulation_id (node_id : Z) : M unit :=
  pending ← gets node_status_request;
  if decide (is_Some (pending !! node_id)) then
    let tlv_data :=
      CoreNodeTlv_pack NodeTlvs.NUMBER (Some (VInt node_id))
      ++ CoreNodeTlv_pack NodeTlvs.EMULATION_ID (Some (VInt node_id)) in
    let reply :=
      CoreNodeMessage_pack
        (Z.lor (flag MessageFlags.ADD) (flag MessageFlags.LOCAL)) tlv_data in
    try_except (sendall reply) [IOError]
      (λ _, log EXCEPTION_LEVEL "error sending node emulation id message: %s");;
    modify (λ w, set_node_status_request (delete node_id (node_status_request w)) w)
  else mret tt.

(** ** [handle_node_message] *)

(** [float(x)] when [x] is not [None]. *)
Definition optional_float (x : option value) : M (option value) :=
  match x with
  | None => mret None
  | Some (VStr s) =>
      match py_float s with
      | Some r => mret (Some (VFloat r))
      | None => raise ValueError "could not convert string to float"
      end
  | Some (VInt z) => mret (Some (VInt z))
  | Some (VFloat r) => mret (Some (VFloat r))
  | Some (VTuple _) => raise TypeError "float() argument must be a string or a number"
  end.

Definition handle_node_message (message : CoreMessage) : M (list bytes) :=
  if has_flag message MessageFlags.ADD && has_flag message MessageFlags.DELETE then
    log WARNING "ignoring invalid message: add and delete flag both set";;
    mret []
  else
    node_type ← match get_tlv message NodeTlvs.TYPE with
                | None => mret None
                | Some v => Some <$> NodeTypes_of (Some v)
                end;
    let node_id := get_tlv message NodeTlvs.NUMBER in
    lat ← optional_float (get_tlv message NodeTlvs.LATITUDE);
    lon ← optional_float (get_tlv message NodeTlvs.LONGITUDE);
    alt ← optional_float (get_tlv message NodeTlvs.ALTITUDE);
    let services := get_tlv message NodeTlvs.SERVICES in
    services_list ←
      (if truthy services then
         match services with
         | Some (VStr s) => mret (Some (split "|"%char s))
         | _ => raise AttributeError "object has no attribute 'split'"
         end
       else mret None);
    let node_options :=
      {| NodeOptions.name := get_tlv message NodeTlvs.NAME;
         NodeOptions.model := get_tlv message NodeTlvs.MODEL;
         NodeOptions.x := get_tlv message NodeTlvs.X_POSITION;
         NodeOptions.y := get_tlv message NodeTlvs.Y_POSITION;
         NodeOptions.lat := lat; NodeOptions.lon := lon; NodeOptions.alt := alt;
         NodeOptions.icon := get_tlv message NodeTlvs.ICON;
         NodeOptions.canvas := get_tlv message NodeTlvs.CANVAS;
         NodeOptions.opaque := get_tlv message NodeTlvs.OPAQUE;
         NodeOptions.services := services_list |} in
    s ← the_session;
    if has_flag message MessageFlags.ADD then
      node ← call (AddNode s node_type node_id node_options);
      match node with
      | Some node =>
          when (has_flag message MessageFlags.STRING)
            (modify (λ w, set_node_status_request
                            (<[Node.id node := true]> (node_status_request w)) w));;
          state ← call (SessionState s);
          when (state =? EventTypes_value EventTypes.RUNTIME_STATE)
            (send_node_emulation_id (Node.id node))
      | None => mret tt
      end;;
      mret []
    else if has_flag message MessageFlags.DELETE then
      result ← call (DeleteNode s node_id);
      (* if we deleted a node broadcast out its removal *)
      if (result : bool) && has_flag message MessageFlags.STRING then
        let tlvdata := CoreNodeTlv_pack NodeTlvs.NUMBER node_id in
        let flags := Z.lor (flag MessageFlags.DELETE) (flag MessageFlags.LOCAL) in
        mret [CoreNodeMessage_pack flags tlvdata]
      else mret []
    else
      (* node update *)
      effect (UpdateNode s node_id node_options);;
      mret [].

(** ** [handle_execute_message] *)

Definition get_node (s : loc) (node_id : option value) : M get_node_result :=
  r ← call (GetNode s node_id);
  match r with
  | NoSuchNode => raise KeyError "unknown node id"
  | r => mret r
  end.

(** A method called on the object [session.get_node] returned. *)
Definition node_method (node : get_node_result) (method : string)
    (args : list arg) : M unit :=
  match node with
  | GotNode _ => effect (Invoke None method (AN node :: args))
  | _ => raise AttributeError "'NoneType' object has no attribute"
  end.

Definition handle_execute_message (message : CoreMessage) : M (list bytes) :=
  let node_num := get_tlv message ExecuteTlvs.NODE in
  let execute_num := get_tlv message ExecuteTlvs.NUMBER in
  let execute_time := get_tlv message ExecuteTlvs.TIME in
  let command := get_tlv message ExecuteTlvs.COMMAND in
  (* local flag indicates command executed locally, not on a node *)
  if is_none node_num && negb (has_flag message MessageFlags.LOCAL) then
    raise ValueError "Execute Message is missing node number."
  else if is_none execute_num then
    raise ValueError "Execute Message is missing execution number."
  else
    match execute_time with
    | Some t =>
        s ← the_session;
        effect (AddEvent s t node_num None command);;
        mret []
    | None =>
        try_except
          (s ← the_session;
           node ← get_node s node_num;
           (* build common TLV items for reply *)
           let tlv_data :=
             (match node_num with
              | Some _ => CoreExecuteTlv_pack ExecuteTlvs.NODE node_num
              | None => []
              end)
             ++ CoreExecuteTlv_pack ExecuteTlvs.NUMBER execute_num
             ++ CoreExecuteTlv_pack ExecuteTlvs.COMMAND command in
           if has_flag message MessageFlags.TTY then
             if is_none node_num then raise NotImplementedError EmptyString
             else
               (* echo back exec message with cmd for spawning interactive terminal *)
               let command :=
                 if eq_str command "bash"
                 then Some (VStr "/bin/bash") else command in
               res ← match node with
                     | GotNode _ => call (Ask None "termcmdstring" [AN node; AV command])
                     | _ => raise AttributeError "'NoneType' object has no attribute"
                     end;
               let tlv_data := tlv_data ++ CoreExecuteTlv_pack ExecuteTlvs.RESULT res in
               mret [CoreExecMessage_pack (flag MessageFlags.TTY) tlv_data]
           else
             log INFO "execute message with cmd=%s";;
             (* execute command and send a response *)
             if has_flag message MessageFlags.STRING || has_flag message MessageFlags.TEXT then
               out ← (if has_flag message MessageFlags.LOCAL
                      then call (CmdOutput None command)
                      else match node with
                           | GotNode _ => call (CmdOutput (Some node) command)
                           | _ => raise AttributeError "'NoneType' object has no attribute"
                           end);
               let '(status, res) := out in
               log INFO "done exec cmd=%s with status=%d res=(%d bytes)";;
               let tlv_data :=
                 tlv_data
                 ++ (if has_flag message MessageFlags.TEXT
                     then CoreExecuteTlv_pack ExecuteTlvs.RESULT (Some (VStr res)) else [])
                 ++ (if has_flag message MessageFlags.STRING
                     then CoreExecuteTlv_pack ExecuteTlvs.STATUS (Some (VInt status)) else []) in
               mret [CoreExecMessage_pack 0 tlv_data]
             else
               (* execute the command with no response *)
               (if has_flag message MessageFlags.LOCAL
                then effect (Invoke None "utils.mute_detach" [AV command])
                else node_method node "cmd" [AV command]);;
               mret [])
          [KeyError]
          (λ _,
             log EXCEPTION_LEVEL "error getting object: %s";;
             (* XXX wait and queue this message to try again later *)
             when (negb (has_flag message MessageFlags.LOCAL))
               (sleep 125;; queue_message message);;
             mret [])
    end.

(** ** The CONFIG handlers *)

Definition handle_broadcast_config (config_data : ConfigData.t) : M unit :=
  log DEBUG "handling broadcast config: %s";;
  let message := convert_config config_data in
  try_except (sendall message) [IOError]
    (λ _, log EXCEPTION_LEVEL "error sending config message").

Definition is_flag (message_type : Z) (f : ConfigFlags.t) : bool :=
  message_type =? ConfigFlags_value f.

(** A string method called on [x]. *)
Definition as_str (x : option value) : M string :=
  match x with
  | Some (VStr s) => mret s
  | _ => raise AttributeError "object has no attribute"
  end.

(** [l[i]] *)
Definition subscript {A} (l : list A) (i : nat) : M A :=
  match l !! i with
  | Some x => mret x
  | None => raise IndexError "list index out of range"
  end.

(** [int(s)] *)
Definition int_of (s : string) : M Z :=
  match py_int s with
  | Some z => mret z
  | None => raise ValueError "invalid literal for int() with base 10"
  end.

Definition float_of (s : string) : M string :=
  match py_float s with
  | Some r => mret r
  | None => raise ValueError "could not convert string to float"
  end.

Definition handle_config_all (message_type : Z) (config_data : ConfigData.t)
    : M (option (list ConfigData.t)) :=
  if is_flag message_type ConfigFlags.RESET then
    let node_id := ConfigData.node config_data in
    s ← the_session;
    effect (Invoke (Some s) "location.reset" []);;
    effect (Invoke (Some s) "services.reset" []);;
    effect (Invoke (Some s) "mobility.config_reset" [AV node_id]);;
    effect (Invoke (Some s) "emane.config_reset" [AV node_id]);;
    mret (Some [])
  else raise Exception "cant handle config all: %s".

(** The part shared by [handle_config_session] and
    [handle_config_metadata]: apply the key=value pairs. *)
Definition set_configs_from (c : configurable) (s : loc)
    (data_values : option value) : M unit :=
  text ← as_str data_values;
  let values := ConfigShim_str_to_dict text in
  for_each values (λ kv, effect (SetConfig c s kv.1 kv.2)).

Definition handle_config_session (message_type : Z) (config_data : ConfigData.t)
    : M (option (list ConfigData.t)) :=
  if is_flag message_type ConfigFlags.REQUEST then
    let type_flags := ConfigFlags_value ConfigFlags.NONE in
    s ← the_session;
    config ← call (GetConfigs Options s);
    let config_response :=
      ConfigShim_config_data 0 None type_flags "session.options" config in
    mret (Some [config_response])
  else if negb (is_flag message_type ConfigFlags.RESET)
          && truthy (ConfigData.data_values config_data) then
    s ← the_session;
    set_configs_from Options s (ConfigData.data_values config_data);;
    mret (Some [])
  else mret (Some []).

Definition handle_config_location (message_type : Z) (config_data : ConfigData.t)
    : M unit :=
  s ← the_session;
  if is_flag message_type ConfigFlags.RESET then
    effect (Invoke (Some s) "location.reset" [])
  else if negb (truthy (ConfigData.data_values config_data)) then
    log WARNING "location data missing"
  else
    text ← as_str (ConfigData.data_values config_data);
    values ← mapM float_of (split "|"%char text);
    (* Cartesian coordinate reference point *)
    refx ← subscript values 0%nat;
    refy ← subscript values 1%nat;
    lat ← subscript values 2%nat;
    lon ← subscript values 3%nat;
    alt ← subscript values 4%nat;
    (* xyz point *)
    effect (Invoke (Some s) "location.refxyz =" [AS refx; AS refy; AS "0.0"]);;
    (* geographic reference point *)
    effect (Invoke (Some s) "location.setrefgeo" [AS lat; AS lon; AS alt]);;
    refscale ← subscript values 5%nat;
    effect (Invoke (Some s) "location.refscale =" [AS refscale]);;
    log INFO "location configured: %s = %s scale=%s";;
    log INFO "location configured: UTM%s".

Definition handle_config_metadata (message_type : Z) (config_data : ConfigData.t)
    : M (option (list ConfigData.t)) :=
  if is_flag message_type ConfigFlags.REQUEST then
    let node_id := ConfigData.node config_data in
    s ← the_session;
    metadata_configs ← call (GetConfigs Metadata s);
    let data_values :=
      join "|" (map (λ kv : string * string, kv.1 +:+ "=" +:+ kv.2) metadata_configs) in
    again ← call (GetConfigs Metadata s);
    let data_types :=
      map (λ _ : string * string, ConfigDataTypes_value ConfigDataTypes.STRING) again in
    name ← session_attr s Session.metadata_name;
    let config_response :=
      {| ConfigData.message_type := Some 0; ConfigData.node := node_id;
         ConfigData.object := Some (VStr name);
         ConfigData.type := Some (VInt (ConfigFlags_value ConfigFlags.NONE));
         ConfigData.data_types := Some (VTuple data_types);
         ConfigData.data_values := Some (VStr data_values);
         ConfigData.captions := None; ConfigData.bitmap := None;
         ConfigData.possible_values := None; ConfigData.groups := None;
         ConfigData.session := None; ConfigData.interface_number := None;
         ConfigData.network_id := None; ConfigData.opaque := None |} in
    mret (Some [config_response])
  else if negb (is_flag message_type ConfigFlags.RESET)
          && truthy (ConfigData.data_values config_data) then
    s ← the_session;
    set_configs_from Metadata s (ConfigData.data_values config_data);;
    mret (Some [])
  else mret (Some []).

Definition handle_config_broker (message_type : Z) (config_data : ConfigData.t)
    : M unit :=
  if negb (is_flag message_type ConfigFlags.REQUEST
           || is_flag message_type ConfigFlags.RESET) then
    let session_id := ConfigData.session config_data in
    if negb (truthy (ConfigData.data_values config_data)) then
      log INFO "emulation server data missing"
    else
      text ← as_str (ConfigData.data_values config_data);
      (* string of "server:ip:port,server:ip:port,..." *)
      server_strings ← subscript (split "|"%char text) 0%nat;
      let server_list := split ","%char server_strings in
      for_each server_list (λ server,
        match take 3 (split ":"%char server) with
        | [name; host; port] =>
            port ← (if String.eqb port EmptyString then mret None else Some <$> int_of port);
            let host := if String.eqb host EmptyString then None else Some (VStr host) in
            s ← the_session;
            '(host, port) ←
              match session_id with
              | Some _ =>
                  (* receive session ID and my IP from master *)
                  text ← as_str session_id;
                  first ← subscript (split "|"%char text) 0%nat;
                  master_id ← int_of first;
                  effect (Invoke (Some s) "broker.session_id_master =" [AZ master_id]);;
                  effect (Invoke (Some s) "broker.myip =" [AV host]);;
                  mret (None, None)
              | None => mret (host, port)
              end;
            effect (Invoke (Some s) "broker.addserver"
                    [AS name; AV host; AV (VInt <$> port)]);;
            effect (Invoke (Some s) "broker.setupserver" [AS name])
        | _ => raise ValueError "not enough values to unpack (expected 3)"
        end)
  else mret tt.

Definition handle_config_services (message_type : Z) (config_data : ConfigData.t)
    : M (option (list ConfigData.t)) :=
  let node_id := ConfigData.node config_data in
  let opaque := ConfigData.opaque config_data in
  if is_flag message_type ConfigFlags.REQUEST then
    let session_id := ConfigData.session config_data in
    log DEBUG "configuration request: node(%s) session(%s) opaque(%s)";;
    s ← the_session;
    name ← session_attr s Session.services_name;
    let respond type_flag data_types values captions possible_values groups :=
      {| ConfigData.message_type := Some 0; ConfigData.node := node_id;
         ConfigData.object := Some (VStr name);
         ConfigData.type := Some (VInt type_flag);
         ConfigData.data_types := data_types;
         ConfigData.data_values := values;
         ConfigData.captions := captions; ConfigData.bitmap := None;
         ConfigData.possible_values := possible_values;
         ConfigData.groups := groups;
         ConfigData.session := session_id; ConfigData.interface_number := None;
         ConfigData.network_id := None; ConfigData.opaque := opaque |} in
    match opaque with
    | None =>
        (* send back a list of available services *)
        listing ← call ServiceListing;
        let '(data_types, captions, possible_values, values, groups) := listing in
        log INFO "sorted groups: %s";;
        mret (Some [respond (ConfigFlags_value ConfigFlags.NONE)
                      data_types values captions possible_values groups])
    | Some _ =>
        (* send back the properties for this service *)
        if negb (truthy node_id) then mret (Some [])
        else
          node ← get_node s node_id;
          match node with
          | GotNone =>
              log WARNING "request to configure service for unknown node %s";;
              mret (Some [])
          | _ =>
              let services := ServiceShim_servicesfromopaque opaque in
              match services with
              | [] => mret (Some [])
              | service_name :: _ =>
                  text ← as_str opaque;
                  let servicesstring := split ":"%char text in
                  if len servicesstring =? 3 then
                    (* a file request: e.g. "service:zebra:quagga.conf" *)
                    file_name ← subscript servicesstring 2%nat;
                    file_data ← call (Ask (Some s) "services.get_service_file"
                                        [AN node; AS service_name; AS file_name]);
                    effect (Invoke (Some s) "broadcast_file" [AV file_data]);;
                    (* short circuit this request early to avoid returning response below *)
                    mret (Some [])
                  else
                    let data_types :=
                      replicate (Z.to_nat ServiceShim_keys_len)
                        (ConfigDataTypes_value ConfigDataTypes.STRING) in
                    service ← call (Ask (Some s) "services.get_service"
                                      [AV node_id; AS service_name; AS "default_service=True"]);
                    values ← call (Ask None "ServiceShim.tovaluelist" [AN node; AV service]);
                    mret (Some [respond (ConfigFlags_value ConfigFlags.UPDATE)
                                  (Some (VTuple data_types)) values None None None])
              end
          end
    end
  else if is_flag message_type ConfigFlags.RESET then
    s ← the_session;
    effect (Invoke (Some s) "services.reset" []);;
    mret (Some [])
  else
    let data_types := ConfigData.data_types config_data in
    let values := ConfigData.data_values config_data in
    match values with
    | None =>
        log ERROR "services config message that I don't know how to handle";;
        mret (Some [])
    | Some _ =>
        match opaque with
        | None =>
            text ← as_str values;
            let values := split "|"%char text in
            (* store default services for a node type in self.defaultservices[] *)
            first_type ←
              match data_types with
              | None => mret None
              | Some (VTuple l) => Some <$> subscript l 0%nat
              | Some _ => raise TypeError "object is not subscriptable"
              end;
            if match first_type with
               | None => true
               | Some t => negb (t =? ConfigDataTypes_value ConfigDataTypes.STRING)
               end
            then
              log INFO "services config message that I don't know how to handle";;
              mret None
            else
              s ← the_session;
              effect (Invoke (Some s) "services.default_services[key] ="
                      [AL (take 1 values); AL (drop 1 values)]);;
              log DEBUG "default services for type %s set to %s";;
              mret (Some [])
        | Some _ =>
            if truthy node_id then
              match ServiceShim_servicesfromopaque opaque with
              | [] => mret (Some [])
              | service_name :: _ =>
                  s ← the_session;
                  (* set custom service for node *)
                  effect (Invoke (Some s) "services.set_service" [AV node_id; AS service_name]);;
                  (* set custom values for custom service *)
                  service ← call (Ask (Some s) "services.get_service"
                                    [AV node_id; AS service_name]);
                  if negb (truthy service) then
                    raise ValueError "custom service(%s) for node(%s) does not exist"
                  else
                    text ← as_str values;
                    for_each (ConfigShim_str_to_dict text) (λ kv,
                      effect (Invoke None "ServiceShim.setvalue"
                              [AV service; AS kv.1; AS kv.2]));;
                    mret (Some [])
              end
            else mret (Some [])
        end
    end.

Definition handle_config_mobility (message_type : Z) (_ : ConfigData.t) : M unit :=
  if is_flag message_type ConfigFlags.RESET then
    s ← the_session;
    effect (Invoke (Some s) "mobility.reset" [])
  else mret tt.

(** [node_id * 1000 + interface_id].  The codec decodes both TLVs as
    integers; on any other operand the expression is no node id and is
    taken to raise TypeError, as it does for [None]. *)
Definition interface_node_id (node_id interface_id : option value) : M (option value) :=
  match interface_id with
  | None => mret node_id
  | Some i =>
      match node_id, i with
      | Some (VInt n), VInt i => mret (Some (VInt (n * 1000 + i)))
      | _, _ => raise TypeError "unsupported operand type(s)"
      end
  end.

Definition models_of (m : manager) (s : Session.t) : gmap string string :=
  match m with
  | Mobility => Session.mobility_models s
  | Emane => Session.emane_models s
  end.

(** [models.get(object_name)] *)
Definition models_get (models : gmap string string) (object_name : option value)
    : option string :=
  match object_name with
  | Some (VStr name) => models !! name
  | _ => None
  end.

(** [handle_config_mobility_models] and [handle_config_emane_models]
    have the same text, the one on [self.session.mobility], the other
    on [self.session.emane]. *)
Definition handle_config_models (m : manager) (message_type : Z)
    (config_data : ConfigData.t) : M (option (list ConfigData.t)) :=
  let node_id := ConfigData.node config_data in
  let object_name := ConfigData.object config_data in
  let interface_id := ConfigData.interface_number config_data in
  let values_str := ConfigData.data_values config_data in
  node_id ← interface_node_id node_id interface_id;
  log DEBUG "received configure message for %s nodenum: %s";;
  if is_flag message_type ConfigFlags.REQUEST then
    log INFO "replying to configure request for model: %s";;
    let typeflags := ConfigFlags_value ConfigFlags.NONE in
    s ← the_session;
    models ← session_attr s (models_of m);
    match models_get models object_name with
    | None =>
        log WARNING "model class does not exist: %s";;
        mret (Some [])
    | Some model_class =>
        config ← call (GetModelConfig m s node_id object_name);
        let config_response :=
          ConfigShim_config_data 0 node_id typeflags model_class config in
        mret (Some [config_response])
    end
  else if negb (is_flag message_type ConfigFlags.RESET) then
    (* store the configuration values for later use, when the node *)
    if negb (truthy object_name) then
      log WARNING "no configuration object for node: %s";;
      mret (Some [])
    else
      parsed_config ←
        (if truthy values_str
         then ConfigShim_str_to_dict <$> as_str values_str
         else mret []);
      s ← the_session;
      effect (SetModelConfig m s node_id object_name parsed_config);;
      mret (Some [])
  else mret (Some []).

Definition handle_config_mobility_models := handle_config_models Mobility.
Definition handle_config_emane_models := handle_config_models Emane.

Definition handle_config_emane (message_type : Z) (config_data : ConfigData.t)
    : M (option (list ConfigData.t)) :=
  let node_id := ConfigData.node config_data in
  let object_name := ConfigData.object config_data in
  let interface_id := ConfigData.interface_number config_data in
  let values_str := ConfigData.data_values config_data in
  node_id ← interface_node_id node_id interface_id;
  log DEBUG "received configure message for %s nodenum: %s";;
  let finish (replies : list ConfigData.t) : M (option (list ConfigData.t)) :=
    (* extra logic to start slave Emane object after nemid has been
       configured from the master *)
    s ← the_session;
    is_master ← session_attr s Session.master;
    when (is_flag message_type ConfigFlags.UPDATE && negb is_master)
      (effect (Invoke (Some s) "instantiate" []));;
    mret (Some replies) in
  if is_flag message_type ConfigFlags.REQUEST then
    log INFO "replying to configure request for %s model";;
    let typeflags := ConfigFlags_value ConfigFlags.NONE in
    s ← the_session;
    config ← call (GetConfigs EmaneConfig s);
    let config_response :=
      ConfigShim_config_data 0 node_id typeflags "emane.emane_config" config in
    finish [config_response]
  else if negb (is_flag message_type ConfigFlags.RESET) then
    if negb (truthy object_name) then
      log INFO "no configuration object for node %s";;
      mret (Some [])
    else
      (if truthy values_str then
         text ← as_str values_str;
         s ← the_session;
         effect (Invoke (Some s) "emane.set_configs" [AC (ConfigShim_str_to_dict text)])
       else mret tt);;
      finish []
  else finish [].

(** [x in models] *)
Definition in_models (models : gmap string string) (x : option value) : bool :=
  match x with
  | Some (VStr name) => bool_decide (is_Some (models !! name))
  | _ => false
  end.

(** The chain [if config_data.object == ...: replies = ...] of
    [handle_config_message]; [None] is a handler that returned [None]. *)
Definition config_dispatch (message_type : Z) (config_data : ConfigData.t)
    : M (option (list ConfigData.t)) :=
  let object := ConfigData.object config_data in
  (* handle session configuration *)
  if eq_str object "all" then handle_config_all message_type config_data
  else
    s ← the_session;
    session ← session_attr s (λ x, x);
    if eq_str object (Session.options_name session) then
      handle_config_session message_type config_data
    else if eq_str object (Session.location_name session) then
      handle_config_location message_type config_data;; mret (Some [])
    else if eq_str object (Session.metadata_name session) then
      handle_config_metadata message_type config_data
    else if eq_str object (Session.broker_name session) then
      handle_config_broker message_type config_data;; mret (Some [])
    else if eq_str object (Session.services_name session) then
      handle_config_services message_type config_data
    else if eq_str object (Session.mobility_name session) then
      handle_config_mobility message_type config_data;; mret (Some [])
    else if in_models (Session.mobility_models session) object then
      handle_config_mobility_models message_type config_data
    else if eq_str object (Session.emane_name session) then
      handle_config_emane message_type config_data
    else if in_models (Session.emane_models session) object then
      handle_config_emane_models message_type config_data
    else raise Exception "no handler for configuration: %s".

(** The [ConfigData] object [handle_config_message] makes of the message. *)
Definition config_data_of (message : CoreMessage) : ConfigData.t :=
    {| ConfigData.message_type := None;
       ConfigData.node := get_tlv message ConfigTlvs.NODE;
       ConfigData.object := get_tlv message ConfigTlvs.OBJECT;
       ConfigData.type := get_tlv message ConfigTlvs.TYPE;
       ConfigData.data_types := get_tlv message ConfigTlvs.DATA_TYPES;
       ConfigData.data_values := get_tlv message ConfigTlvs.VALUES;
       ConfigData.captions := get_tlv message ConfigTlvs.CAPTIONS;
       ConfigData.bitmap := get_tlv message ConfigTlvs.BITMAP;
       ConfigData.possible_values := get_tlv message ConfigTlvs.POSSIBLE_VALUES;
       ConfigData.groups := get_tlv message ConfigTlvs.GROUPS;
       ConfigData.session := get_tlv message ConfigTlvs.SESSION;
       ConfigData.interface_number := get_tlv message ConfigTlvs.INTERFACE_NUMBER;
       ConfigData.network_id := get_tlv message ConfigTlvs.NETWORK_ID;
       ConfigData.opaque := get_tlv message ConfigTlvs.OPAQUE |}.

Definition handle_config_message (message : CoreMessage) : M (list bytes) :=
  (* convert config message to standard config data object *)
  let config_data := config_data_of message in
  log DEBUG "configuration message for %s node %s";;
  message_type ← ConfigFlags_of (ConfigData.type config_data);
  replies ← config_dispatch message_type config_data;
  match replies with
  | None => raise TypeError "'NoneType' object is not iterable"
  | Some replies =>
      for_each replies handle_broadcast_config;;
      mret []
  end.

(** ** [handle_event_message]

    The methods [self.handle_service_event] and [self.send_objects] of
    the handler, like the method [session.broadcast_file] of the
    session, are recorded as calls: what they do in turn (among it,
    handing data to the broadcast callbacks of every handler attached
    to the session, which write to the sockets of those handlers) is
    no part of the handlers below, and no statement about these
    handlers is a statement about it. *)

Definition is_node_result (node : get_node_result) (node_type : Z) : bool :=
  match node with
  | GotNode n => is_node n node_type
  | _ => false
  end.

Definition handle_event_message (message : CoreMessage) : M (list bytes) :=
  let event_data :=
    {| EventData.node := get_tlv message EventTlvs.NODE;
       EventData.event_type := get_tlv message EventTlvs.TYPE;
       EventData.name := get_tlv message EventTlvs.NAME;
       EventData.data := get_tlv message EventTlvs.DATA;
       EventData.time := get_tlv message EventTlvs.TIME;
       EventData.session := get_tlv message EventTlvs.SESSION |} in
  if is_none (EventData.event_type event_data) then
    raise NotImplementedError "Event message missing event type"
  else
    event_type ← EventTypes_of (EventData.event_type event_data);
    let node_id := EventData.node event_data in
    let is_event (e : EventTypes.t) := event_type =? EventTypes_value e in
    log DEBUG "handling event %s at %s";;
    (* the first [if]: [true] when the handler has returned inside it *)
    returned ←
      (if event_type <=? EventTypes_value EventTypes.SHUTDOWN_STATE then
         match node_id with
         | Some _ =>
             s ← the_session;
             node ← try_except (get_node s node_id) [KeyError]
                      (λ _, raise KeyError "Event message for unknown node %d");
             (* configure mobility models for WLAN added during runtime *)
             match node with
             | GotNode n =>
                 if is_event EventTypes.INSTANTIATION_STATE
                    && is_node n NodeTypes_WIRELESS_LAN then
                   effect (StartMobility s [Node.id n]);;
                   mret true
                 else
                   log WARNING "dropping unhandled Event message with node number";;
                   mret true
             | _ =>
                 log WARNING "dropping unhandled Event message with node number";;
                 mret true
             end
         | None =>
             s ← the_session;
             effect (SetState s event_type);;
             mret false
         end
       else mret false);
    if returned : bool then mret []
    else if is_event EventTypes.DEFINITION_STATE then
      (* clear all session objects in order to receive new definitions *)
      s ← the_session;
      effect (Invoke (Some s) "clear" []);;
      mret []
    else if is_event EventTypes.INSTANTIATION_STATE then
      threads ← gets handler_threads;
      when (1 <? threads) (sleep 2000);;
      (* done receiving node/link configuration, ready to instantiate *)
      s ← the_session;
      effect (Invoke (Some s) "instantiate" []);;
      (* after booting nodes attempt to send emulation id for nodes
         waiting on status *)
      ids ← call (SessionNodes s);
      for_each ids send_node_emulation_id;;
      mret []
    else if is_event EventTypes.RUNTIME_STATE then
      s ← the_session;
      is_master ← session_attr s Session.master;
      (if is_master : bool then
         log WARNING "Unexpected event message: RUNTIME state received at session master"
       else
         (* master event queue is started in session.checkruntime() *)
         effect (Invoke (Some s) "start_events" []));;
      mret []
    else if is_event EventTypes.DATACOLLECT_STATE then
      s ← the_session;
      effect (Invoke (Some s) "data_collect" []);;
      mret []
    else if is_event EventTypes.SHUTDOWN_STATE then
      s ← the_session;
      is_master ← session_attr s Session.master;
      when is_master
        (log WARNING "Unexpected event message: SHUTDOWN state received at session master");;
      mret []
    else if is_event EventTypes.START || is_event EventTypes.STOP
            || is_event EventTypes.RESTART || is_event EventTypes.PAUSE
            || is_event EventTypes.RECONFIGURE then
      let name := EventData.name event_data in
      handled ←
        (if truthy name then
           text ← as_str name;
           if startswith text "service:" then
             effect (Invoke None "self.handle_service_event" [AD event_data]);;
             mret true
           else if startswith text "mobility:" then
             s ← the_session;
             effect (Invoke (Some s) "mobility_event" [AD event_data]);;
             mret true
           else mret false
         else mret false);
      when (negb handled) (log WARNING "Unhandled event message: event type %s ");;
      mret []
    else if is_event EventTypes.FILE_OPEN then
      let filename := EventData.name event_data in
      s ← the_session;
      effect (Invoke (Some s) "open_xml" [AV filename; AS "start=False"]);;
      effect (Invoke None "self.send_objects" []);;
      mret []
    else if is_event EventTypes.FILE_SAVE then
      let filename := EventData.name event_data in
      s ← the_session;
      effect (Invoke (Some s) "save_xml" [AV filename]);;
      mret []
    else if is_event EventTypes.SCHEDULED then
      let etime := EventData.time event_data in
      match etime with
      | None =>
          log WARNING "Event message scheduled event missing start time";;
          mret []
      | Some _ =>
          if has_flag message MessageFlags.ADD then
            time ← optional_float etime;
            s ← the_session;
            match time with
            | Some t =>
                effect (AddEvent s t (EventData.node event_data)
                        (EventData.name event_data) (EventData.data event_data))
            | None => mret tt
            end;;
            mret []
          else raise NotImplementedError EmptyString
      end
    else
      log WARNING "unhandled event message: event type %s";;
      mret [].

(** ** [handle_session_message] *)

(** [l.remove(x)]: drops the first occurrence, ValueError without one. *)
Fixpoint list_remove (x : conn) (l : list conn) : option (list conn) :=
  match l with
  | [] => None
  | y :: l' => if Nat.eqb y x then Some l' else (y ::.) <$> list_remove x l'
  end.

(** The body of the loop of the branch [message.flags == 0]: modify
    the session listed at [index]. *)
Definition session_modify (names files : option (list string))
    (thumb user : option value) (index : nat) (session_id : string) : M unit :=
  session_id ← int_of session_id;
  session ←
    (if session_id =? 0 then gets self_session
     else gets (λ w, coreemu_sessions w !! session_id));
  match session with
  | None => log WARNING "session %s not found"
  | Some session =>
      log INFO "request to modify to session: %s";;
      match names with
      | Some names =>
          v ← subscript names index;
          session_assign session (Session.set_name (Some (VStr v)))
      | None => mret tt
      end;;
      match files with
      | Some files =>
          v ← subscript files index;
          session_assign session (Session.set_file_name (Some (VStr v)))
      | None => mret tt
      end;;
      when (truthy thumb) (effect (Invoke (Some session) "set_thumbnail" [AV thumb]));;
      when (truthy user) (effect (Invoke (Some session) "set_user" [AV user]))
  end.

(** The body of the loop of the last branch: join or delete the
    listed session. *)
Definition session_join_or_delete (message : CoreMessage) (user : option value)
    (session_id : string) : M unit :=
  session_id ← int_of session_id;
  session ← gets (λ w, coreemu_sessions w !! session_id);
  match session with
  | None => log INFO "session %s not found (flags=0x%x)"
  | Some session =>
      if has_flag message MessageFlags.ADD then
        (* connect to the first session that exists *)
        log INFO "request to connect to session %s";;
        (* remove client from session broker and shutdown if needed *)
        effect (Invoke None "self.remove_session_handlers" []);;
        old ← the_session;
        clients ← session_attr old Session.session_clients;
        match list_remove self clients with
        | None => raise ValueError "list.remove(x): x not in list"
        | Some clients =>
            session_assign old (Session.set_session_clients clients);;
            match clients with
            | [] =>
                active ← call (IsActive old);
                if active : bool then mret tt
                else
                  old_id ← session_attr old Session.id;
                  effect (DeleteSession old_id);;
                  modify (λ w, set_coreemu_sessions (delete old_id (coreemu_sessions w)) w)
            | _ => mret tt
            end
        end;;
        (* set session to join *)
        modify (set_self_session (Some session));;
        (* add client to session broker and set master if needed *)
        is_master ← gets self_master;
        when is_master (session_assign session (Session.set_master true));;
        session_assign session
          (λ x, Session.set_session_clients (Session.session_clients x ++ [self]) x);;
        (* add broadcast handlers *)
        log INFO "adding session broadcast handlers";;
        effect (Invoke None "self.add_session_handlers" []);;
        when (truthy user) (effect (Invoke (Some session) "set_user" [AV user]));;
        when (has_flag message MessageFlags.STRING)
          (effect (Invoke None "self.send_objects" []))
      else if has_flag message MessageFlags.DELETE then
        (* shut down the specified session(s) *)
        log INFO "request to terminate session %s";;
        effect (DeleteSession session_id);;
        modify (λ w, set_coreemu_sessions (delete session_id (coreemu_sessions w)) w)
      else log WARNING "unhandled session flags for session %s"
  end.

(** [for x in session_ids], which raises TypeError on [None]. *)
Definition iterable {A} (l : option (list A)) : M (list A) :=
  match l with
  | Some l => mret l
  | None => raise TypeError "'NoneType' object is not iterable"
  end.

Definition handle_session_message (message : CoreMessage) : M (list (option bytes)) :=
  let session_id_str := get_tlv message SessionTlvs.NUMBER in
  let session_ids := str_to_list session_id_str in
  let name_str := get_tlv message SessionTlvs.NAME in
  let names := str_to_list name_str in
  let file_str := get_tlv message SessionTlvs.FILE in
  let files := str_to_list file_str in
  let thumb := get_tlv message SessionTlvs.THUMB in
  let user := get_tlv message SessionTlvs.USER in
  log DEBUG "SESSION message flags=0x%x sessions=%s";;
  if flags message =? 0 then
    session_ids ← iterable session_ids;
    for_enumerate 0 session_ids (session_modify names files thumb user);;
    mret []
  else if has_flag message MessageFlags.STRING
          && negb (has_flag message MessageFlags.ADD) then
    (* status request flag: send list of sessions *)
    reply ← call SessionMessage;
    mret [reply]
  else
    (* handle ADD or DEL flags *)
    session_ids ← iterable session_ids;
    for_each session_ids (session_join_or_delete message user);;
    mret [].

(** ** [dispatch_replies] and [handle_message] *)

(** A reply is a bytes object; [handle_session_message] and
    [handle_register_message] can also return [None] for one, the
    value of [session_message()] when there is no session.
    [unpack_header(None)] is taken to raise TypeError, as slicing
    [None] does. *)
Definition dispatch_replies (replies : list (option bytes)) (message : CoreMessage)
    : M unit :=
  log DEBUG "dispatching replies: %s";;
  for_each replies (λ reply,
    match reply with
    | None => raise TypeError "'NoneType' object is not subscriptable"
    | Some reply =>
        let '(message_type, message_flags, message_length) := unpack_header reply in
        (* the parsed reply, or the text made of the header when the
           parser raises KeyError, is only logged *)
        let reply_message :=
          CLASS_MAP_unpack message_type message_flags
            (take (Z.to_nat header_len) reply) (drop (Z.to_nat header_len) reply) in
        log DEBUG "dispatch reply: %s";;
        try_except (sendall reply) [IOError]
          (λ _, log EXCEPTION_LEVEL "error dispatching reply")
    end).

(** [try: m except: h], which catches every exception. *)
Definition try_except_all {A} (m : M A) (h : exn → M A) : M A :=
  λ w, match m w with
       | (Raise e, w') => h e w'
       | r => r
       end.

(** [message_handlers] is the attribute [self.message_handlers]: the
    handler of each message type, which returns its replies, each a
    bytes object or [None].  [broker_handle_message] is
    [session.broker.handle_message], a method of the broker of the
    session. *)
Definition handle_message
    (message_handlers : gmap Z (CoreMessage → M (list (option bytes))))
    (broker_handle_message : loc → CoreMessage → M bool)
    (message : CoreMessage) : M unit :=
  session ← gets self_session;
  handled ← match session with
            | Some s => broker_handle_message s message
            | None => mret false
            end;
  if handled : bool then log DEBUG "message not being handled locally"
  else
    log DEBUG "%s handling message: %s";;
    match message_handlers !! message_type message with
    | None => log ERROR "no handler for message type: %s"
    | Some message_handler =>
        try_except_all
          (replies ← message_handler message;
           dispatch_replies replies message)
          (λ _, log EXCEPTION_LEVEL "%s: exception while handling message: %s")
    end.

(** ** [finish] *)

(** The loop [while not self.message_queue.empty():] of [finish], with
    [timeout = 10].  The handler threads take messages from the queue
    meanwhile: what [empty()] finds at each turn is an answer of the
    oracle. *)
Fixpoint wait_for_queue (turns : nat) (wait : Z) : M unit :=
  match turns with
  | O => out_of_fuel
  | S turns' =>
      empty ← call (Ask None "message_queue.empty" []);
      if truthy empty then mret tt
      else
        log DEBUG "waiting for message queue to empty: %s seconds";;
        sleep 1000;;
        let wait := wait + 1 in
        if wait =? 10 then
          log WARNING "queue failed to be empty, finishing request handler"
        else wait_for_queue turns' wait
  end.

Definition finish (turns : nat) : M unit :=
  log DEBUG "finishing request handler";;
  log DEBUG "remaining message queue size: %s";;
  (* give some time for message queue to deplete *)
  wait_for_queue turns 0;;
  log INFO "client disconnected: notifying threads";;
  (* [self.done = True], which the handler threads read *)
  effect (Invoke None "self.done = True" []);;
  threads ← gets handler_threads;
  for_each (seqZ 0 threads) (λ thread,
    log INFO "waiting for thread: %s";;
    effect (Invoke None "thread.join" [AZ thread; AZ 10]);;
    alive ← call (Ask None "thread.isAlive" [AZ thread]);
    when (truthy alive)
      (log WARNING "joining %s failed: still alive after %s sec"));;
  log INFO "connection closed: %s";;
  session ← gets self_session;
  match session with
  | Some s =>
      (* remove client from session broker and shutdown if there are no clients *)
      effect (Invoke None "self.remove_session_handlers" []);;
      clients ← session_attr s Session.session_clients;
      match list_remove self clients with
      | None => raise ValueError "list.remove(x): x not in list"
      | Some clients =>
          session_assign s (Session.set_session_clients clients);;
          match clients with
          | [] =>
              active ← call (IsActive s);
              if active : bool then mret tt
              else
                log INFO "no session clients left and not active, initiating shutdown";;
                session_id ← session_attr s Session.id;
                effect (DeleteSession session_id);;
                modify (λ w, set_coreemu_sessions
                               (delete session_id (coreemu_sessions w)) w)
          | _ => mret tt
          end
      end
  | None => mret tt
  end;;
  effect (Invoke None "BaseRequestHandler.finish" []).

(** ** Definitions used to state the properties *)

(** The reply [send_node_emulation_id] builds for [node_id]: a NODE
    message with the flags ADD and LOCAL carrying the node number and
    the emulation id. *)
Definition emulation_id_reply (node_id : Z) : bytes :=
  CoreNodeMessage_pack
    (Z.lor (flag MessageFlags.ADD) (flag MessageFlags.LOCAL))
    (CoreNodeTlv_pack NodeTlvs.NUMBER (Some (VInt node_id))
     ++ CoreNodeTlv_pack NodeTlvs.EMULATION_ID (Some (VInt node_id))).

(** The session a listed id stands for: 0 is the current session of
    the handling connection, any other id is looked up in
    [coreemu.sessions]. *)
Definition listed_session (w : World) (session_id : Z) : option loc :=
  if session_id =? 0 then self_session w else coreemu_sessions w !! session_id.

(** The list [l], when the message has it, has an entry at [index]. *)
Definition covers (l : option (list string)) (index : nat) : Prop :=
  match l with
  | None => True
  | Some l => is_Some (l !! index)
  end.

(** What handling the id listed at [index] amounts to: an id that
    stands for no session leaves a warning and nothing else; otherwise
    the session gets the name and the file name listed at the same
    index, and the thumbnail and the user of the message. *)
Definition session_modified (names files : option (list string))
    (thumb user : option value) (index : nat) (session_id : Z) (w : World) : World :=
  match listed_session w session_id with
  | None => set_trace (trace w ++ [Log WARNING "session %s not found"]) w
  | Some session =>
      let w := set_trace (trace w ++ [Log INFO "request to modify to session: %s"]) w in
      let w :=
        match names ≫= (.!! index) with
        | Some v =>
            set_heap (heap_update session (Session.set_name (Some (VStr v))) (heap w)) w
        | None => w
        end in
      let w :=
        match files ≫= (.!! index) with
        | Some v =>
            set_heap (heap_update session (Session.set_file_name (Some (VStr v))) (heap w)) w
        | None => w
        end in
      let w :=
        if truthy thumb
        then set_trace (trace w ++ [Invoke (Some session) "set_thumbnail" [AV thumb]]) w
        else w in
      if truthy user
      then set_trace (trace w ++ [Invoke (Some session) "set_user" [AV user]]) w
      else w
  end.

(** The listed ids handled one after the other, the first one being at
    [start]. *)
Fixpoint sessions_modified (names files : option (list string))
    (thumb user : option value) (start : nat) (session_ids : list Z)
    (w : World) : World :=
  match session_ids with
  | [] => w
  | session_id :: rest =>
      sessions_modified names files thumb user (S start) rest
        (session_modified names files thumb user start session_id w)
  end.

(** The message [receive_message] makes of a header and the bytes of
    a body. *)
Definition received_message (header data : bytes) : CoreMessage :=
  let '(message_type, message_flags, _) := unpack_header header in
  {| message_type := message_type; flags := message_flags;
     tlv_data :=
       match CLASS_MAP_unpack message_type message_flags header data with
       | Some tlvs => tlvs
       | None => λ _, None
       end;
     raw_message := header ++ data; queuedtimes := None |}.

(** [emits P m]: whatever [m] does, the calls it adds to the trace all
    satisfy [P]. *)
Definition emits {A} (P : Call → Prop) (m : M A) : Prop :=
  ∀ w r w', m w = (r, w') → ∃ added, trace w' = trace w ++ added ∧ Forall P added.

(** A call that is neither a write to the socket of another handler nor
    [session.set_state]. *)
Definition own_socket_no_state (c : Call) : Prop :=
  match c with
  | Sendall client _ => client = self
  | SetState _ _ => False
  | _ => True
  end.

(** A call that is not [session.set_state]. *)
Definition no_set_state (c : Call) : Prop :=
  match c with
  | SetState _ _ => False
  | _ => True
  end.

(** The [NodeOptions] of a NODE message that carries no node type, no
    geographic position and no services. *)
Definition plain_node_options (message : CoreMessage) : NodeOptions.t :=
  {| NodeOptions.name := get_tlv message NodeTlvs.NAME;
     NodeOptions.model := get_tlv message NodeTlvs.MODEL;
     NodeOptions.x := get_tlv message NodeTlvs.X_POSITION;
     NodeOptions.y := get_tlv message NodeTlvs.Y_POSITION;
     NodeOptions.lat := None; NodeOptions.lon := None; NodeOptions.alt := None;
     NodeOptions.icon := get_tlv message NodeTlvs.ICON;
     NodeOptions.canvas := get_tlv message NodeTlvs.CANVAS;
     NodeOptions.opaque := get_tlv message NodeTlvs.OPAQUE;
     NodeOptions.services := None |}.

Definition plain_node_message (message : CoreMessage) : Prop :=
  get_tlv message NodeTlvs.TYPE = None
  ∧ get_tlv message NodeTlvs.LATITUDE = None
  ∧ get_tlv message NodeTlvs.LONGITUDE = None
  ∧ get_tlv message NodeTlvs.ALTITUDE = None
  ∧ get_tlv message NodeTlvs.SERVICES = None.

(** Every exception that leaves [m] has a class in [P]. *)
Definition raises {A} (P : exn_class → Prop) (m : M A) : Prop :=
  ∀ w e w', m w = (Raise e, w') → P (exn_class_of e).

(** No error of a socket: neither IOError nor EOFError. *)
Definition no_socket_error (c : exn_class) : Prop :=
  c ≠ IOError ∧ c ≠ EOFError.

Definition no_socket_or_key_error (c : exn_class) : Prop :=
  c ≠ IOError ∧ c ≠ EOFError ∧ c ≠ KeyError.

(** The time slept during the calls [t], in milliseconds. *)
Definition slept (t : list Call) : Z :=
  foldr (λ c total, match c with Sleep ms => ms + total | _ => total end) 0 t.

Definition no_sleep (c : Call) : Prop :=
  match c with Sleep _ => False | _ => True end.

(** The end of [finish], from [if self.session:] on. *)
Definition finish_session : M unit :=
  session ← gets self_session;
  match session with
  | Some s =>
      effect (Invoke None "self.remove_session_handlers" []);;
      clients ← session_attr s Session.session_clients;
      match list_remove self clients with
      | None => raise ValueError "list.remove(x): x not in list"
      | Some clients =>
          session_assign s (Session.set_session_clients clients);;
          match clients with
          | [] =>
              active ← call (IsActive s);
              if active : bool then mret tt
              else
                log INFO "no session clients left and not active, initiating shutdown";;
                session_id ← session_attr s Session.id;
                effect (DeleteSession session_id);;
                modify (λ w, set_coreemu_sessions
                               (delete session_id (coreemu_sessions w)) w)
          | _ => mret tt
          end
      end
  | None => mret tt
  end;;
  effect (Invoke None "BaseRequestHandler.finish" []).

(** Every value [m] returns is in [Q]. *)
Definition returns {A} (Q : A → Prop) (m : M A) : Prop :=
  ∀ w a w', m w = (Ok a, w') → Q a.

Definition no_send (c : Call) : Prop :=
  match c with Sendall _ _ => False | _ => True end.

(** The replies of a CONFIG handler that has nothing to answer: the
    empty list, or [None]. *)
Definition no_reply (replies : option (list ConfigData.t)) : Prop :=
  replies = Some [] ∨ replies = None.

(** A message on the wire: its header, and its body in the chunks the
    socket delivers it in. *)
Definition frame : Type := bytes * list bytes.

Definition frame_chunks (f : frame) : list chunk := Chunk f.1 :: (Chunk <$> f.2).

(** The header has the length of a header, no chunk is empty, and the
    chunks make up the length the header announces. *)
Definition well_framed (f : frame) : Prop :=
  len f.1 = header_len
  ∧ Forall (λ b, b ≠ []) f.2
  ∧ len (concat f.2) = (unpack_header f.1).2.

(** The type of the message is a member of [MessageTypes]. *)
Definition known_type (f : frame) : Prop :=
  is_MessageTypes (unpack_header f.1).1.1 = true.

Definition frame_message (f : frame) : CoreMessage :=
  set_queuedtimes 0 (received_message f.1 (concat f.2)).

(** The replies that come before the first [None]. *)
Fixpoint replies_before_none (replies : list (option bytes)) : list bytes :=
  match replies with
  | Some reply :: replies => reply :: replies_before_none replies
  | _ => []
  end.

(** No reply is [None]. *)
Definition all_bytes (replies : list (option bytes)) : bool :=
  forallb (λ reply, match reply with Some _ => true | None => false end) replies.

End CoreHandler.

(** ** The CORE API as an instance

    The values of the CORE API (version 5) for the enumerations, its
    four-byte header (type, flags, 16-bit length), and simple stand-ins
    for the TLV codec.  They serve to run the handlers on concrete
    messages. *)

Definition byte_Z (b : Byte.byte) : Z := Z.of_N (Byte.to_N b).

Definition unpack_header_BBH (header : bytes) : Z * Z * Z :=
  match header with
  | [t; f; hi; lo] => (byte_Z t, byte_Z f, byte_Z hi * 256 + byte_Z lo)
  | _ => (0, 0, 0)
  end.

Definition digit_of (c : ascii) : option Z :=
  let n := Z.of_nat (nat_of_ascii c) in
  if (48 <=? n) && (n <=? 57) then Some (n - 48) else None.

Fixpoint parse_digits (acc : Z) (s : string) : option Z :=
  match s with
  | EmptyString => Some acc
  | String c rest =>
      match digit_of c with
      | Some d => parse_digits (acc * 10 + d) rest
      | None => None
      end
  end.

(** [int(s)] on an unsigned decimal numeral. *)
Definition decimal_int (s : string) : option Z :=
  match s with
  | EmptyString => None
  | _ => parse_digits 0 s
  end.

Definition pipe_list (x : option value) : option (list string) :=
  match x with
  | Some (VStr s) => Some (split "|"%char s)
  | _ => None
  end.

Definition key_value (s : string) : string * string :=
  match split "="%char s with
  | k :: v :: _ => (k, v)
  | _ => (s, EmptyString)
  end.

Definition MessageFlags_core (f : MessageFlags.t) : Z :=
  match f with
  | MessageFlags.NONE => 0 | MessageFlags.ADD => 1 | MessageFlags.DELETE => 2
  | MessageFlags.LOCAL => 8 | MessageFlags.STRING => 16
  | MessageFlags.TEXT => 32 | MessageFlags.TTY => 64
  end.

Definition MessageTypes_core (m : MessageTypes.t) : Z :=
  match m with
  | MessageTypes.NODE => 1 | MessageTypes.LINK => 2 | MessageTypes.EXECUTE => 3
  | MessageTypes.REGISTER => 4 | MessageTypes.CONFIG => 5 | MessageTypes.FILE => 6
  | MessageTypes.INTERFACE => 7 | MessageTypes.EVENT => 8
  | MessageTypes.SESSION => 9 | MessageTypes.EXCEPTION => 10
  end.

Definition EventTypes_core (e : EventTypes.t) : Z :=
  match e with
  | EventTypes.DEFINITION_STATE => 1 | EventTypes.CONFIGURATION_STATE => 2
  | EventTypes.INSTANTIATION_STATE => 3 | EventTypes.RUNTIME_STATE => 4
  | EventTypes.DATACOLLECT_STATE => 5 | EventTypes.SHUTDOWN_STATE => 6
  | EventTypes.START => 7 | EventTypes.STOP => 8 | EventTypes.PAUSE => 9
  | EventTypes.RESTART => 10 | EventTypes.FILE_OPEN => 11
  | EventTypes.FILE_SAVE => 12 | EventTypes.SCHEDULED => 13
  | EventTypes.RECONFIGURE => 14
  end.

Definition ConfigFlags_core (f : ConfigFlags.t) : Z :=
  match f with
  | ConfigFlags.NONE => 0 | ConfigFlags.REQUEST => 1
  | ConfigFlags.UPDATE => 2 | ConfigFlags.RESET => 3
  end.

Definition ConfigDataTypes_core (t : ConfigDataTypes.t) : Z :=
  match t with
  | ConfigDataTypes.STRING => 10 | ConfigDataTypes.BOOL => 11
  end.

Definition between (lo hi z : Z) : bool := (lo <=? z) && (z <=? hi).

Definition config_data_core (flags : Z) (node_id : option value) (type_flags : Z)
    (configurable : string) (c : config) : ConfigData.t :=
  {| ConfigData.message_type := Some flags; ConfigData.node := node_id;
     ConfigData.object := Some (VStr configurable);
     ConfigData.type := Some (VInt type_flags);
     ConfigData.data_types := None;
     ConfigData.data_values :=
       Some (VStr (join "|" (map (λ kv : string * string, kv.1 +:+ "=" +:+ kv.2) c)));
     ConfigData.captions := None; ConfigData.bitmap := None;
     ConfigData.possible_values := None; ConfigData.groups := None;
     ConfigData.session := None; ConfigData.interface_number := None;
     ConfigData.network_id := None; ConfigData.opaque := None |}.

(** A stand-in for the encoders: one byte for the kind of object, one
    for an integer argument. *)
Definition byte_of_Z (z : Z) : Byte.byte :=
  match Byte.of_N (Z.to_N (z mod 256)) with
  | Some b => b
  | None => Byte.x00
  end.

Definition tlv_bytes (tag : Z) (v : option value) : bytes :=
  match v with
  | Some (VInt z) => [byte_of_Z tag; byte_of_Z z]
  | _ => [byte_of_Z tag]
  end.

Definition NodeTlvs_tag (t : NodeTlvs.t) : Z :=
  match t with
  | NodeTlvs.NUMBER => 1 | NodeTlvs.EMULATION_ID => 35 | _ => 0
  end.

Definition ExecuteTlvs_tag (t : ExecuteTlvs.t) : Z :=
  match t with
  | ExecuteTlvs.NODE => 1 | ExecuteTlvs.NUMBER => 2 | ExecuteTlvs.TIME => 3
  | ExecuteTlvs.COMMAND => 4 | ExecuteTlvs.RESULT => 5 | ExecuteTlvs.STATUS => 6
  end.

Definition message_bytes (message_type flags : Z) (data : bytes) : bytes :=
  [byte_of_Z message_type; byte_of_Z flags; byte_of_Z (len data / 256);
   byte_of_Z (len data)] ++ data.

Definition config_bytes (c : ConfigData.t) : bytes :=
  message_bytes 5 0 (tlv_bytes 1 (ConfigData.node c) ++ tlv_bytes 3 (ConfigData.type c)).

Definition core_api : CoreApi := {|
  MessageFlags_value := MessageFlags_core;
  MessageTypes_value := MessageTypes_core;
  EventTypes_value := EventTypes_core;
  ConfigFlags_value := ConfigFlags_core;
  MessageTypes_other := λ _, false;
  EventTypes_other := λ z, (z =? 0) || (z =? 15);
  ConfigDataTypes_value := ConfigDataTypes_core;
  is_NodeTypes := between 0 15;
  NodeTypes_WIRELESS_LAN := 6;
  is_node := λ n t, Node.class n =? t;
  header_len := 4;
  unpack_header := unpack_header_BBH;
  CLASS_MAP_unpack := λ t _ _ _, if between 1 10 t then Some (λ _, None) else None;
  CoreNodeTlv_pack := λ t v, tlv_bytes (NodeTlvs_tag t) v;
  CoreNodeMessage_pack := message_bytes 1;
  CoreExecuteTlv_pack := λ t v, tlv_bytes (ExecuteTlvs_tag t) v;
  CoreExecMessage_pack := message_bytes 3;
  convert_config := config_bytes;
  ConfigShim_config_data := config_data_core;
  ConfigShim_str_to_dict := λ s, map key_value (split "|"%char s);
  str_to_list := pipe_list;
  ServiceShim_servicesfromopaque := λ _, [];
  ServiceShim_keys_len := 7;
  py_int := decimal_int;
  py_float := Some
|}.

(** An oracle for quiet collaborators: every socket write succeeds,
    the session has no node, every other answer is empty. *)
Definition quiet (history : list Call) (c : Call) : ans c :=
  match c with
  | Sendall _ _ => true
  | Getpeername => 0
  | CreateSession _ => 0%nat
  | IsActive _ => false
  | AddNode _ _ _ _ => None
  | DeleteNode _ _ => false
  | GetNode _ _ => NoSuchNode
  | SessionState _ => 0
  | SessionNodes _ => []
  | GetModelConfig _ _ _ _ => []
  | GetConfigs _ _ => []
  | ServiceListing => (None, None, None, None, None)
  | CmdOutput _ _ => (0, EmptyString)
  | SessionMessage => None
  | Ask _ _ _ => None
  | _ => tt
  end.

(** As [quiet], but the socket of the handler [broken] raises IOError
    on every write. *)
Definition broken_socket (broken : conn) (history : list Call) (c : Call) : ans c :=
  match c with
  | Sendall client _ => negb (Nat.eqb client broken)
  | c => quiet history c
  end.

(** As [quiet], but the session has the node [n] under the id [node_id]. *)
Definition with_node (node_id : Z) (n : Node.t) (history : list Call)
    (c : Call) : ans c :=
  match c with
  | GetNode _ (Some (VInt z)) => if z =? node_id then GotNode n else NoSuchNode
  | c => quiet history c
  end.

Definition sample_session (clients : list conn) : Session.t :=
  {| Session.id := 1; Session.name := None; Session.file_name := None;
     Session.master := false; Session.session_clients := clients;
     Session.options_name := "session"; Session.location_name := "location";
     Session.metadata_name := "metadata"; Session.broker_name := "broker";
     Session.services_name := "services";
     Session.mobility_name := "MobilityManager"; Session.emane_name := "emane";
     Session.mobility_models := {[ "basic_range" := "BasicRangeModel" ]};
     Session.emane_models := {[ "emane_rfpipe" := "EmaneRfPipeModel" ]} |}.

(** The handler 0, attached to session 1 together with the handlers
    in [clients]; [input] is what arrives on its socket. *)
Definition sample_world (clients : list conn) (input : list chunk) : World :=
  {| trace := []; heap := λ _, sample_session clients;
     coreemu_sessions := {[ 1 := 0%nat ]};
     self_master := false; self_session := Some 0%nat;
     node_status_request := ∅; message_queue := []; handler_threads := 1;
     rfile := input |}.

Definition sample_message (message_type flags : Z)
    (tlvs : list (Tlv * value)) : CoreMessage :=
  {| message_type := message_type; flags := flags;
     tlv_data := λ t, snd <$> List.find (λ kv, bool_decide (kv.1 = t)) tlvs;
     raw_message := []; queuedtimes := Some 0 |}.

(** ** Concrete messages and worlds *)

(** A NODE message with the flags ADD and DELETE. *)
Definition node_add_delete : CoreMessage := sample_message 1 3 [].

(** The peer sends two bytes of a header and closes. *)
Definition short_header_world : World :=
  sample_world [0%nat] [Chunk [Byte.x01; Byte.x00]].

(** A NODE header announcing a body of four bytes, two bytes of body,
    then the peer closes. *)
Definition short_body_world : World :=
  sample_world [0%nat]
    [Chunk [Byte.x01; Byte.x00; Byte.x00; Byte.x04]; Chunk [Byte.x61; Byte.x62]].

(** The same header with its four bytes of body, in two chunks. *)
Definition complete_body_world : World :=
  sample_world [0%nat]
    [Chunk [Byte.x01; Byte.x00; Byte.x00; Byte.x04]; Chunk [Byte.x61; Byte.x62];
     Chunk [Byte.x63; Byte.x64]].

(** A NODE message of two body bytes arrives at handler 0; handlers 1
    and 2 are attached to the same session. *)
Definition node_message_bytes : bytes :=
  [Byte.x01; Byte.x00; Byte.x00; Byte.x02; Byte.x61; Byte.x62].

Definition mirror_world : World :=
  sample_world [0%nat; 1%nat; 2%nat] [Chunk node_message_bytes].

(** A message of type 99, which no message class implements. *)
Definition unknown_type_world : World :=
  sample_world [0%nat; 1%nat; 2%nat]
    [Chunk [Byte.x63; Byte.x00; Byte.x00; Byte.x02; Byte.x61; Byte.x62]].


(** EXECUTE for node 5, without an execution number. *)
Definition execute_without_number : CoreMessage :=
  sample_message 3 0
    [(ExecuteTlv ExecuteTlvs.NODE, VInt 5); (ExecuteTlv ExecuteTlvs.COMMAND, VStr "ls")].

(** EXECUTE number 1 for node 5. *)
Definition execute_on_node : CoreMessage :=
  sample_message 3 0
    [(ExecuteTlv ExecuteTlvs.NODE, VInt 5); (ExecuteTlv ExecuteTlvs.NUMBER, VInt 1);
     (ExecuteTlv ExecuteTlvs.COMMAND, VStr "ls")].

(** EVENT DEFINITION_STATE for node 7. *)
Definition event_definition_node : CoreMessage :=
  sample_message 8 0
    [(EventTlv EventTlvs.TYPE, VInt 1); (EventTlv EventTlvs.NODE, VInt 7)].

(** EVENT INSTANTIATION_STATE for node 7. *)
Definition event_instantiation_node : CoreMessage :=
  sample_message 8 0
    [(EventTlv EventTlvs.TYPE, VInt 3); (EventTlv EventTlvs.NODE, VInt 7)].

Definition wlan_node : Node.t := {| Node.id := 7; Node.class := 6 |}.

(** SESSION with no flag: two ids, one name. *)
Definition session_two_ids_one_name : CoreMessage :=
  sample_message 9 0
    [(SessionTlv SessionTlvs.NUMBER, VStr "0|0"); (SessionTlv SessionTlvs.NAME, VStr "a")].

(** SESSION with no flag: the unknown id 7, then the current session. *)
Definition session_unknown_then_current : CoreMessage :=
  sample_message 9 0
    [(SessionTlv SessionTlvs.NUMBER, VStr "7|0"); (SessionTlv SessionTlvs.NAME, VStr "a|b")].


(** ** More oracles, messages and worlds *)

(** As [quiet], but [add_node] returns the node [n] and the session is
    in the state [state]. *)
Definition adding_node (n : Node.t) (state : Z) (history : list Call)
    (c : Call) : ans c :=
  match c with
  | AddNode _ _ _ _ => Some n
  | SessionState _ => state
  | c => quiet history c
  end.

(** As [quiet], but [delete_node] finds the node and deletes it. *)
Definition deleting_node (history : list Call) (c : Call) : ans c :=
  match c with
  | DeleteNode _ _ => true
  | c => quiet history c
  end.

(** As [quiet], but the session has the nodes [ids]. *)
Definition with_nodes (ids : list Z) (history : list Call) (c : Call) : ans c :=
  match c with
  | SessionNodes _ => ids
  | c => quiet history c
  end.

Definition router_node : Node.t := {| Node.id := 7; Node.class := 0 |}.

(** NODE with the flags ADD and STRING, for node 7. *)
Definition node_add_string : CoreMessage :=
  sample_message 1 17 [(NodeTlv NodeTlvs.NUMBER, VInt 7)].

(** NODE with the flags DELETE and STRING, for node 7. *)
Definition node_delete_string : CoreMessage :=
  sample_message 1 18 [(NodeTlv NodeTlvs.NUMBER, VInt 7)].

(** EVENT START for a service. *)
Definition event_start : CoreMessage :=
  sample_message 8 0
    [(EventTlv EventTlvs.TYPE, VInt 7); (EventTlv EventTlvs.NAME, VStr "service:zebra")].

(** EVENT INSTANTIATION_STATE for the session. *)
Definition event_instantiation : CoreMessage :=
  sample_message 8 0 [(EventTlv EventTlvs.TYPE, VInt 3)].

(** The nodes 2 and 9 wait for their emulation id. *)
Definition pending_world : World :=
  set_node_status_request {[ 2 := true; 9 := true ]} (sample_world [0%nat] []).

(** CONFIG UPDATE of a session option. *)
Definition config_update : CoreMessage :=
  sample_message 5 0
    [(ConfigTlv ConfigTlvs.OBJECT, VStr "session"); (ConfigTlv ConfigTlvs.TYPE, VInt 2);
     (ConfigTlv ConfigTlvs.VALUES, VStr "controlnet=172.16.0.0/24")].




(** The handlers of NODE, EXECUTE and SESSION messages of handler 0. *)
Definition sample_handlers (oracle : list Call → ∀ c : Call, ans c)
    : gmap Z (CoreMessage → M (list (option bytes))) :=
  {[ 1 := λ message,
            fmap Some <$> handle_node_message (api := core_api) oracle 0%nat message;
     3 := λ message,
            fmap Some <$> handle_execute_message (api := core_api) oracle message;
     9 := handle_session_message (api := core_api) oracle 0%nat ]}.

(** A broker that leaves every message to the handler. *)
Definition idle_broker (s : loc) (message : CoreMessage) : M bool := mret false.

(** A NODE message of two body bytes, then an EVENT message of one,
    the second delivered byte by byte. *)
Definition two_frames : list frame :=
  [([Byte.x01; Byte.x00; Byte.x00; Byte.x02], [[Byte.x61; Byte.x62]]);
   ([Byte.x08; Byte.x00; Byte.x00; Byte.x02], [[Byte.x63]; [Byte.x64]])].

Definition two_frames_world : World :=
  sample_world [] (concat (frame_chunks <$> two_frames)).


(** * Properties *)

Section Properties.
Context {api : CoreApi}.
Context (oracle : list Call → ∀ c : Call, ans c).
Context (self : conn).

(** ** The monad *)

Lemma bind_ok {A B} (m : M A) (f : A → M B) w a w1 :
  m w = (Ok a, w1) → (m ≫= f) w = f a w1.
Proof. intros H. unfold mbind, M_bind. by rewrite H. Qed.

Lemma bind_raise {A B} (m : M A) (f : A → M B) w e w1 :
  m w = (Raise e, w1) → (m ≫= f) w = (Raise e, w1).
Proof. intros H. unfold mbind, M_bind. by rewrite H. Qed.

Lemma bind_out_of_fuel {A B} (m : M A) (f : A → M B) w w1 :
  m w = (OutOfFuel, w1) → (m ≫= f) w = (OutOfFuel, w1).
Proof. intros H. unfold mbind, M_bind. by rewrite H. Qed.

Lemma has_flag_true message f :
  Z.land (flags message) (flag f) ≠ 0 → has_flag message f = true.
Proof. intros H. unfold has_flag. by apply negb_true_iff, Z.eqb_neq. Qed.

Lemma has_flag_false message f :
  Z.land (flags message) (flag f) = 0 → has_flag message f = false.
Proof. intros H. unfold has_flag. by rewrite H. Qed.

(** ** NODE messages *)

(** C2.  A NODE message with both ADD and DELETE set is answered with
    no reply; the handler only records a warning: it calls neither
    add_node, delete_node nor update_node, and the handler and the
    sessions are left as they were. *)
Theorem handle_node_message_add_and_delete message w :
  Z.land (flags message) (flag MessageFlags.ADD) ≠ 0 →
  Z.land (flags message) (flag MessageFlags.DELETE) ≠ 0 →
  handle_node_message oracle self message w
  = (Ok [],
     set_trace
       (trace w ++ [Log WARNING "ignoring invalid message: add and delete flag both set"])
       w).
Proof.
  intros Hadd Hdel. unfold handle_node_message.
  by rewrite (has_flag_true _ _ Hadd), (has_flag_true _ _ Hdel).
Qed.

(** C10.  [send_node_emulation_id] writes the emulation-id reply (a
    NODE message with the flags ADD and LOCAL) to the handler's socket
    exactly when the id is pending; it never raises, whether or not the
    write succeeds; afterwards the id is not pending, so that a second
    call for the same id writes nothing and changes nothing. *)
Theorem send_node_emulation_id_once node_id w :
  ∃ w' added,
    send_node_emulation_id oracle self node_id w = (Ok tt, w')
    ∧ trace w' = trace w ++ added
    ∧ sent added
      = (if decide (is_Some (node_status_request w !! node_id))
         then [(self, emulation_id_reply node_id)] else [])
    ∧ node_status_request w' = delete node_id (node_status_request w)
    ∧ node_status_request w' !! node_id = None
    ∧ send_node_emulation_id oracle self node_id w' = (Ok tt, w').
Proof.
  assert (Hagain : ∀ w', node_status_request w' !! node_id = None →
            send_node_emulation_id oracle self node_id w' = (Ok tt, w')).
  { intros w' Hnone. unfold send_node_emulation_id, gets, mbind, M_bind.
    destruct (decide _) as [[b Hb]|_]; [congruence | done]. }
  unfold send_node_emulation_id at 1, gets, mbind at 1, M_bind at 1.
  destruct (decide (is_Some (node_status_request w !! node_id))) as [Hin|Hout].
  - unfold try_except, sendall, sendall_on, call, log, modify, mbind, M_bind; simpl.
    fold (emulation_id_reply node_id).
    destruct (oracle (trace w) (Sendall self (emulation_id_reply node_id))); simpl;
      eexists _, _; (split; [reflexivity|]); simpl;
      rewrite lookup_delete_eq;
      (split; [by rewrite <- ?app_assoc|]); (split; [done|]); (split; [done|]);
      (split; [done|]); apply Hagain; simpl; apply lookup_delete_eq.
  - exists w, []. rewrite app_nil_r.
    assert (Hnone : node_status_request w !! node_id = None).
    { destruct (node_status_request w !! node_id) eqn:E; [|done].
      exfalso. apply Hout. by eexists. }
    repeat split; try done.
    + symmetry. by apply delete_id.
    + by apply Hagain.
Qed.

(** ** Running a handler step by step *)

(** One step of a handler whose result is found by evaluation. *)
Ltac run_step := erewrite bind_ok; [|reflexivity].

Ltac world_simpl :=
  cbn [trace heap coreemu_sessions self_master self_session node_status_request
       message_queue handler_threads rfile set_trace set_heap set_coreemu_sessions
       set_self_master set_self_session set_node_status_request set_message_queue
       set_rfile].

Lemma when_run b (m : M unit) w w1 :
  m w = (Ok tt, w1) → when b m w = (Ok tt, if b then w1 else w).
Proof. by destruct b. Qed.



(** ** Receiving a message *)

Lemma recv_raises bufsize w e w' :
  recv bufsize w = (Raise e, w') → exn_class_of e = IOError.
Proof.
  unfold recv. destruct (rfile w) as [|[b|] rest]; [done| |].
  - by destruct (len b <=? bufsize).
  - by intros [= <- _].
Qed.

Lemma recv_never_out_of_fuel bufsize w w' : recv bufsize w ≠ (OutOfFuel, w').
Proof.
  unfold recv. destruct (rfile w) as [|[b|] rest]; [done| |done].
  by destruct (len b <=? bufsize).
Qed.

(** [recv] returns at most [bufsize] bytes. *)
Lemma recv_length bufsize w b w' :
  0 ≤ bufsize → recv bufsize w = (Ok b, w') → len b ≤ bufsize.
Proof.
  intros Hpos. unfold recv. destruct (rfile w) as [|[c|] rest].
  - intros [= <- _]. unfold len. simpl. lia.
  - destruct (len c <=? bufsize) eqn:E; intros [= <- _].
    + by apply Z.leb_le.
    + unfold len. rewrite length_take. lia.
  - done.
Qed.

Lemma receive_body_raises fuel message_len data w e w' :
  receive_body fuel message_len data w = (Raise e, w') →
  exn_class_of e = IOError.
Proof.
  revert data w. induction fuel as [|fuel IH]; intros data w; simpl.
  - destruct (len data <? message_len); [done|]. by intros [=].
  - destruct (len data <? message_len); [|by intros [=]].
    unfold mbind, M_bind.
    destruct (recv (message_len - len data) w) as [[b|e0|] w1] eqn:Hrecv.
    + destruct (message_len <? len (data ++ b)).
      * unfold log, effect, raise. by intros [= <- _].
      * apply IH.
    + intros [= <- _]. by eapply recv_raises.
    + done.
Qed.

(** Once the peer has closed, the loop that reads the body receives the
    empty bytes object on every turn and makes no progress. *)
Lemma receive_body_at_eof fuel message_len data w :
  rfile w = [] → len data < message_len →
  receive_body fuel message_len data w = (OutOfFuel, w).
Proof.
  intros Heof Hshort. induction fuel as [|fuel IH]; simpl.
  - by rewrite (proj2 (Z.ltb_lt _ _) Hshort).
  - rewrite (proj2 (Z.ltb_lt _ _) Hshort).
    unfold mbind, M_bind, recv. rewrite Heof, app_nil_r.
    by rewrite (proj2 (Z.ltb_ge _ _)) by lia.
Qed.

(** The bytes of a list of chunks. *)
Lemma receive_body_short fuel message_len chunks : ∀ data w,
  rfile w = Chunk <$> chunks →
  len data + len (concat chunks) < message_len →
  ∃ w', receive_body fuel message_len data w = (OutOfFuel, w').
Proof.
  revert fuel. induction chunks as [|b chunks IH]; intros fuel data w Hfile Hshort.
  - exists w. apply receive_body_at_eof; [done|]. unfold len in *. simpl in *. lia.
  - assert (Hlen : len (concat (b :: chunks)) = len b + len (concat chunks)).
    { unfold len. simpl. rewrite length_app. lia. }
    rewrite Hlen in Hshort.
    assert (0 ≤ len (concat chunks)) by (unfold len; lia).
    assert (0 ≤ len b) by (unfold len; lia).
    destruct fuel as [|fuel]; simpl.
    + rewrite (proj2 (Z.ltb_lt _ _)) by lia. by eexists.
    + rewrite (proj2 (Z.ltb_lt _ _)) by lia.
      unfold mbind, M_bind, recv. rewrite Hfile. simpl.
      rewrite (proj2 (Z.leb_le _ _)) by lia.
      assert (Hdata : len (data ++ b) = len data + len b).
      { unfold len. rewrite length_app. lia. }
      rewrite (proj2 (Z.ltb_ge _ _)) by lia.
      apply IH; [done | lia].
Qed.

(** C4.  With a header of positive size: [receive_message] raises
    EOFError exactly when the read of the header returned no byte at
    all; when the read returned some bytes but fewer than a header, it
    raises IOError ("invalid message header size"), which is a
    different exception class; in both cases no message is returned. *)
Theorem receive_message_header fuel w :
  0 < header_len →
  (∀ e w', receive_message fuel w = (Raise e, w') →
           exn_class_of e = EOFError → recv header_len w = (Ok [], w'))
  ∧ (∀ w1, recv header_len w = (Ok [], w1) →
           receive_message fuel w
           = (Raise (Exn EOFError "client disconnected"), w1))
  ∧ (∀ header w1, recv header_len w = (Ok header, w1) →
           0 < len header < header_len →
           receive_message fuel w
           = (Raise (Exn IOError "invalid message header size"), w1)).
Proof.
  intros Hpos. repeat split.
  - intros e w'. unfold receive_message, try_except, mbind at 1, M_bind at 1.
    destruct (recv header_len w) as [[header|e0|] w1] eqn:Hrecv.
    + destruct (len header =? header_len) eqn:Hlen; simpl.
      * destruct (unpack_header header) as [[message_type message_flags] message_len].
        unfold mbind at 1, M_bind at 1.
        destruct (when _ _ w1) as [[[]|e1|] w2] eqn:Hwhen.
        -- unfold mbind at 1, M_bind at 1.
           destruct (receive_body _ _ _ _) as [[data|e2|] w3] eqn:Hbody.
           ++ destruct (CLASS_MAP_unpack _ _ _ _); [by intros [=]|].
              unfold log, effect, mbind, M_bind, mret, M_ret. by intros [=].
           ++ intros [= <- _] Hclass.
              apply receive_body_raises in Hbody. congruence.
           ++ done.
        -- unfold when, log, effect in Hwhen. by destruct (message_len =? 0).
        -- done.
      * destruct (len header =? 0) eqn:Hzero; unfold raise.
        -- intros [= <- <-] _. apply Z.eqb_eq in Hzero.
           destruct header; [done|]. unfold len in Hzero. simpl in Hzero. lia.
        -- by intros [= <- _].
    + rewrite (recv_raises _ _ _ _ Hrecv). simpl. unfold raise. by intros [= <- _].
    + done.
  - intros w1 Hrecv. unfold receive_message, try_except, mbind at 1, M_bind at 1.
    rewrite Hrecv. change (len []) with 0.
    rewrite (proj2 (Z.eqb_neq 0 header_len)) by lia. done.
  - intros header w1 Hrecv [Hnonzero Hshort].
    unfold receive_message, try_except, mbind at 1, M_bind at 1.
    rewrite Hrecv.
    rewrite (proj2 (Z.eqb_neq (len header) header_len)) by lia.
    rewrite (proj2 (Z.eqb_neq (len header) 0)) by lia. done.
Qed.

(** ** The receive loop *)

Lemma set_trace_set_trace t t' w : set_trace t (set_trace t' w) = set_trace t w.
Proof. done. Qed.

Lemma sent_app t t' : sent (t ++ t') = sent t ++ sent t'.
Proof. unfold sent. apply omap_app. Qed.

Lemma is_MessageTypes_member m : is_MessageTypes (MessageTypes_value m) = true.
Proof.
  unfold is_MessageTypes. apply orb_true_intro. left.
  apply existsb_exists. exists m. split; [destruct m; simpl; tauto | apply Z.eqb_refl].
Qed.

(** The loop that mirrors a message to the other clients, when every
    write succeeds: each client other than [self] is written the raw
    bytes once, in the order of [session_clients]. *)
Lemma mirror_to_others raw clients :
  (∀ history client data, oracle history (Sendall client data) = true) →
  ∀ w, ∃ added,
    for_each clients (λ client,
      if Nat.eqb client self then mret tt
      else log DEBUG "BROADCAST TO OTHER CLIENT: %s";;
           sendall_on oracle client raw) w
    = (Ok tt, set_trace (trace w ++ added) w)
    ∧ sent added = (λ client, (client, raw)) <$> filter (λ client, client ≠ self) clients.
Proof.
  intros Hok. induction clients as [|client clients IH]; intros w.
  - exists []. by rewrite app_nil_r; destruct w.
  - cbn [for_each]. destruct (Nat.eqb_spec client self) as [->|Hne].
    + destruct (IH w) as (added & Hrun & Hsent). exists added.
      rewrite filter_cons_False by tauto.
      split; [|done]. by rewrite (bind_ok _ _ w tt w).
    + rewrite filter_cons_True by done.
      set (w1 := set_trace
                  ((trace w ++ [Log DEBUG "BROADCAST TO OTHER CLIENT: %s"])
                   ++ [Sendall client raw]) w).
      destruct (IH w1) as (added & Hrun & Hsent).
      rewrite (bind_ok _ _ w tt w1).
      * rewrite Hrun.
        exists ([Log DEBUG "BROADCAST TO OTHER CLIENT: %s"; Sendall client raw] ++ added).
        split.
        -- subst w1. rewrite set_trace_set_trace. simpl. by rewrite <- !app_assoc.
        -- rewrite sent_app, Hsent. done.
      * unfold log, sendall_on, call, mbind, M_bind. simpl. by rewrite Hok.
Qed.

Lemma message_type_set_queuedtimes n message :
  message_type (set_queuedtimes n message) = message_type message.
Proof. done. Qed.

Lemma raw_message_set_queuedtimes n message :
  raw_message (set_queuedtimes n message) = raw_message message.
Proof. done. Qed.

Lemma queue_message_known message w :
  is_MessageTypes (message_type message) = true →
  queue_message message w
  = (Ok tt,
     set_message_queue (message_queue w ++ [message])
       (set_trace (trace w ++ [Log DEBUG "queueing msg (queuedtimes = %s): type %s"]) w)).
Proof.
  intros Hknown. unfold queue_message, MessageTypes_of, enum_of. by rewrite Hknown.
Qed.

Lemma when_sleep (b : bool) milliseconds w :
  ∃ slept,
    when b (sleep milliseconds) w = (Ok tt, set_trace (trace w ++ slept) w)
    ∧ sent slept = [].
Proof.
  destruct b.
  - by exists [Sleep milliseconds].
  - exists []. rewrite app_nil_r. by destruct w.
Qed.

(** The part of C5 that holds: a received message of a known type is
    queued with its counter at zero, and, when every socket write
    succeeds, its raw bytes are written to each other client of the
    session exactly when it is a NODE or LINK message, and never to the
    handler itself. *)
Lemma handle_iteration_mirrors fuel w message w1 s :
  receive_message fuel w = (Ok message, w1) →
  is_MessageTypes (message_type message) = true →
  self_session w1 = Some s →
  (∀ history client data, oracle history (Sendall client data) = true) →
  ∃ w' added,
    handle_iteration oracle self fuel w = (Ok Continue, w')
    ∧ message_queue w' = message_queue w1 ++ [set_queuedtimes 0 message]
    ∧ trace w' = trace w1 ++ added
    ∧ sent added
      = (if (message_type message =? MessageTypes_value MessageTypes.NODE)
            || (message_type message =? MessageTypes_value MessageTypes.LINK)
         then (λ client, (client, raw_message message))
                <$> filter (λ client, client ≠ self)
                      (Session.session_clients (heap w1 s))
         else [])
    ∧ (self, raw_message message) ∉ sent added.
Proof.
  intros Hrecv Hknown Hsession Hok.
  unfold handle_iteration.
  rewrite (bind_ok _ _ w (Some message) w1)
    by (unfold try_except, fmap, M_fmap; by rewrite Hrecv).
  cbv zeta.
  rewrite (bind_ok _ _ _ _ _ (queue_message_known (set_queuedtimes 0 message) w1 Hknown)).
  rewrite message_type_set_queuedtimes, raw_message_set_queuedtimes.
  set (w2 := set_message_queue _ _).
  destruct (when_sleep (message_type message =? MessageTypes_value MessageTypes.SESSION)
              125 w2) as (slept & Hrun & Hsent).
  rewrite (bind_ok _ _ _ _ _ Hrun).
  set (w3 := set_trace (trace w2 ++ slept) w2).
  destruct ((message_type message =? MessageTypes_value MessageTypes.NODE)
            || (message_type message =? MessageTypes_value MessageTypes.LINK)).
  - cbn [negb].
    rewrite (bind_ok _ _ w3 s w3) by (unfold the_session; cbn; by rewrite Hsession).
    rewrite (bind_ok _ _ w3 (Session.session_clients (heap w1 s)) w3) by done.
    destruct (mirror_to_others (raw_message message)
                (Session.session_clients (heap w1 s)) Hok w3)
      as (added & Hloop & Hsent').
    rewrite (bind_ok _ _ _ _ _ Hloop).
    exists (set_trace (trace w3 ++ added) w3),
      ([Log DEBUG "queueing msg (queuedtimes = %s): type %s"] ++ slept ++ added).
    split; [done|]. split; [done|].
    split; [cbn; by rewrite <- !app_assoc|].
    rewrite !sent_app, Hsent, Hsent'. split; [done|].
    intros Hin. apply list_elem_of_fmap in Hin as (client & [= <-] & Hin).
    by apply list_elem_of_filter in Hin as [Hne _].
  - cbn [negb].
    exists w3, ([Log DEBUG "queueing msg (queuedtimes = %s): type %s"] ++ slept).
    split; [done|]. split; [done|].
    split; [cbn; by rewrite <- !app_assoc|].
    rewrite sent_app, Hsent. split; [done|]. apply not_elem_of_nil.
Qed.

(** A message whose type is not a member of [MessageTypes] (the
    message [receive_message] builds for an unimplemented type) is not
    queued: the debug record of [queue_message] raises ValueError, which
    [handle] does not catch. *)
Lemma handle_iteration_unknown_type fuel w message w1 :
  receive_message fuel w = (Ok message, w1) →
  is_MessageTypes (message_type message) = false →
  handle_iteration oracle self fuel w
  = (Raise (Exn ValueError "is not a valid MessageTypes"), w1).
Proof.
  intros Hrecv Hunknown.
  unfold handle_iteration.
  rewrite (bind_ok _ _ w (Some message) w1)
    by (unfold try_except, fmap, M_fmap; by rewrite Hrecv).
  apply bind_raise.
  unfold queue_message, MessageTypes_of, enum_of. simpl. by rewrite Hunknown.
Qed.

(** ** EXECUTE messages *)

(** C7, as the code has it.  An EXECUTE message that carries a node id
    and an execution number and no scheduled time, and whose node id
    [session.get_node] does not know (it raises KeyError): the handler
    returns no reply and writes to no socket.  Without the LOCAL flag
    it sleeps 125 ms and puts the same message once more at the end of
    the queue; with the LOCAL flag the queue is left as it was. *)
Theorem handle_execute_message_unknown_node message w s node_num execute_num :
  message_type message = MessageTypes_value MessageTypes.EXECUTE →
  get_tlv message ExecuteTlvs.NODE = Some node_num →
  get_tlv message ExecuteTlvs.NUMBER = Some execute_num →
  get_tlv message ExecuteTlvs.TIME = None →
  self_session w = Some s →
  oracle (trace w) (GetNode s (Some node_num)) = NoSuchNode →
  handle_execute_message oracle message w
  = (Ok [],
     if has_flag message MessageFlags.LOCAL then
       set_trace
         (trace w ++ [GetNode s (Some node_num);
                      Log EXCEPTION_LEVEL "error getting object: %s"]) w
     else
       set_message_queue (message_queue w ++ [message])
         (set_trace
            (trace w ++ [GetNode s (Some node_num);
                         Log EXCEPTION_LEVEL "error getting object: %s";
                         Sleep 125;
                         Log DEBUG "queueing msg (queuedtimes = %s): type %s"]) w)).
Proof.
  intros Htype Hnode Hnumber Htime Hsession Hunknown.
  unfold handle_execute_message. rewrite Hnode, Hnumber, Htime. simpl.
  unfold try_except.
  rewrite (bind_ok _ _ w s w) by (unfold the_session; by rewrite Hsession).
  rewrite (bind_raise _ _ w (Exn KeyError "unknown node id")
             (set_trace (trace w ++ [GetNode s (Some node_num)]) w))
    by (unfold get_node, call, mbind, M_bind; simpl; by rewrite Hunknown).
  simpl.
  destruct (has_flag message MessageFlags.LOCAL); simpl.
  - unfold log, effect, mbind, M_bind, mret, M_ret. simpl.
    by rewrite <- !app_assoc.
  - unfold queue_message, MessageTypes_of, enum_of.
    rewrite Htype, is_MessageTypes_member.
    unfold log, sleep, effect, modify, mbind, M_bind, mret, M_ret. simpl.
    by rewrite <- !app_assoc.
Qed.

(** ** EVENT messages *)

(** C6, as the code has it.  An EVENT message with an event type up to
    SHUTDOWN_STATE and a node id: the handler asks the session for the
    node.  When the node is found, INSTANTIATION_STATE on a wireless
    LAN starts mobility for that node alone, and every other case is
    dropped with a warning; both return no reply.  When the session
    does not know the id, the handler raises KeyError.  In none of
    these cases is [set_state] called: the calls made are exactly the
    ones listed. *)
Theorem handle_event_message_node_scoped message w s event_type node_id :
  get_tlv message EventTlvs.TYPE = Some (VInt event_type) →
  is_EventTypes event_type = true →
  event_type ≤ EventTypes_value EventTypes.SHUTDOWN_STATE →
  get_tlv message EventTlvs.NODE = Some node_id →
  self_session w = Some s →
  let asked := trace w ++ [Log DEBUG "handling event %s at %s"] in
  let dropped :=
    (Ok [],
     set_trace
       (trace w ++ [Log DEBUG "handling event %s at %s";
                    GetNode s (Some node_id);
                    Log WARNING "dropping unhandled Event message with node number"])
       w) in
  handle_event_message oracle self message w
  = match oracle asked (GetNode s (Some node_id)) with
    | GotNode n =>
        if (event_type =? EventTypes_value EventTypes.INSTANTIATION_STATE)
           && is_node n NodeTypes_WIRELESS_LAN
        then (Ok [],
              set_trace
                (trace w ++ [Log DEBUG "handling event %s at %s";
                             GetNode s (Some node_id);
                             StartMobility s [Node.id n]]) w)
        else dropped
    | GotNone => dropped
    | NoSuchNode =>
        (Raise (Exn KeyError "Event message for unknown node %d"),
         set_trace
           (trace w ++ [Log DEBUG "handling event %s at %s";
                        GetNode s (Some node_id)]) w)
    end.
Proof.
  intros Htype Hmember Hphase Hnode Hsession asked dropped.
  assert (Hget : get_node oracle s (Some node_id) (set_trace asked w)
    = (match oracle asked (GetNode s (Some node_id)) with
       | NoSuchNode => Raise (Exn KeyError "unknown node id")
       | r => Ok r
       end, set_trace (asked ++ [GetNode s (Some node_id)]) w)).
  { unfold get_node, call, mbind, M_bind. cbn [trace set_trace].
    by destruct (oracle asked _). }
  unfold handle_event_message. rewrite Htype, Hnode. cbv zeta.
  cbn [EventData.event_type EventData.node is_none].
  unfold EventTypes_of, enum_of. rewrite Hmember.
  rewrite (bind_ok _ _ w event_type w) by done.
  rewrite (bind_ok _ _ w tt (set_trace asked w)) by done.
  rewrite (proj2 (Z.leb_le _ _) Hphase).
  assert (Hsess : the_session (set_trace asked w) = (Ok s, set_trace asked w))
    by (unfold the_session; cbn [self_session set_trace]; by rewrite Hsession).
  set (w1 := set_trace (asked ++ [GetNode s (Some node_id)]) w) in *.
  assert (Hdrop : ∀ (node : get_node_result) w2,
    w2 = (set_trace (trace w1 ++ [Log WARNING "dropping unhandled Event message with node number"]) w1) →
    (Ok ([] : list bytes), w2) = dropped).
  { intros _ w2 ->. subst dropped w1 asked. cbn [trace set_trace].
    by rewrite set_trace_set_trace, <- !app_assoc. }
  destruct (oracle asked (GetNode s (Some node_id))) as [n| |] eqn:Hanswer.
  - destruct ((event_type =? EventTypes_value EventTypes.INSTANTIATION_STATE)
              && is_node n NodeTypes_WIRELESS_LAN) eqn:Hwlan.
    + rewrite (bind_ok _ _ (set_trace asked w) true
                 (set_trace (trace w1 ++ [StartMobility s [Node.id n]]) w1)).
      * subst w1 asked. cbn [trace set_trace].
        by rewrite set_trace_set_trace, <- !app_assoc.
      * rewrite (bind_ok _ _ _ _ _ Hsess).
        rewrite (bind_ok _ _ _ (GotNode n) w1) by (unfold try_except; by rewrite Hget).
        cbv beta iota. by rewrite Hwlan.
    + rewrite (bind_ok _ _ (set_trace asked w) true
                 (set_trace (trace w1 ++ [Log WARNING "dropping unhandled Event message with node number"]) w1)).
      * by apply (Hdrop (GotNode n)).
      * rewrite (bind_ok _ _ _ _ _ Hsess).
        rewrite (bind_ok _ _ _ (GotNode n) w1) by (unfold try_except; by rewrite Hget).
        cbv beta iota. by rewrite Hwlan.
  - rewrite (bind_ok _ _ (set_trace asked w) true
               (set_trace (trace w1 ++ [Log WARNING "dropping unhandled Event message with node number"]) w1)).
    + by apply (Hdrop GotNone).
    + rewrite (bind_ok _ _ _ _ _ Hsess).
      by rewrite (bind_ok _ _ _ GotNone w1) by (unfold try_except; by rewrite Hget).
  - rewrite (bind_raise _ _ (set_trace asked w)
               (Exn KeyError "Event message for unknown node %d") w1).
    + subst w1 asked. by rewrite <- !app_assoc.
    + rewrite (bind_ok _ _ _ _ _ Hsess). apply bind_raise.
      unfold try_except. by rewrite Hget.
Qed.

(** ** CONFIG messages *)






(** [handle_config_emane], the handler of the EMANE subsystem itself,
    computes the same node id but keeps no configuration under it: a
    REQUEST reads the one configuration of the subsystem with
    [get_configs()], and the id only labels the reply. *)
Lemma handle_config_emane_request message_type config_data w s n (interface_id : option Z) :
  ConfigData.node config_data = Some (VInt n) →
  ConfigData.interface_number config_data = VInt <$> interface_id →
  self_session w = Some s →
  is_flag message_type ConfigFlags.REQUEST = true →
  is_flag message_type ConfigFlags.UPDATE = false →
  let node_id :=
    Some (VInt (match interface_id with Some i => n * 1000 + i | None => n end)) in
  let asked :=
    trace w ++ [Log DEBUG "received configure message for %s nodenum: %s";
                Log INFO "replying to configure request for %s model"] in
  handle_config_emane oracle message_type config_data w
  = (Ok (Some [ConfigShim_config_data 0 node_id (ConfigFlags_value ConfigFlags.NONE)
                 "emane.emane_config" (oracle asked (GetConfigs EmaneConfig s))]),
     set_trace (asked ++ [GetConfigs EmaneConfig s]) w).
Proof.
  intros Hnode Hinterface Hsession Hrequest Hupdate node_id asked.
  assert (Hid : interface_node_id (ConfigData.node config_data)
                  (ConfigData.interface_number config_data) w = (Ok node_id, w)).
  { rewrite Hnode, Hinterface. by destruct interface_id. }
  assert (Hsess : ∀ t, the_session (set_trace t w) = (Ok s, set_trace t w)).
  { intros t. unfold the_session. cbn [self_session set_trace]. by rewrite Hsession. }
  unfold handle_config_emane. cbv zeta.
  rewrite (bind_ok _ _ _ _ _ Hid).
  rewrite (bind_ok _ _ w tt
             (set_trace (trace w ++ [Log DEBUG "received configure message for %s nodenum: %s"]) w))
    by done.
  rewrite Hrequest, Hupdate.
  rewrite (bind_ok _ _ _ tt (set_trace asked w))
    by (unfold log, effect; cbn [trace set_trace]; subst asked;
        by rewrite set_trace_set_trace, <- app_assoc).
  rewrite (bind_ok _ _ _ _ _ (Hsess asked)).
  rewrite (bind_ok _ _ (set_trace asked w) (oracle asked (GetConfigs EmaneConfig s))
             (set_trace (asked ++ [GetConfigs EmaneConfig s]) w)) by done.
  rewrite (bind_ok _ _ _ _ _ (Hsess _)).
  rewrite (bind_ok _ _ (set_trace (asked ++ [GetConfigs EmaneConfig s]) w)
             (Session.master (heap w s)) (set_trace (asked ++ [GetConfigs EmaneConfig s]) w))
    by done.
  cbn [andb when].
  by rewrite (bind_ok _ _ (set_trace (asked ++ [GetConfigs EmaneConfig s]) w) tt
                (set_trace (asked ++ [GetConfigs EmaneConfig s]) w)).
Qed.

(** ** SESSION messages *)

Lemma session_modified_self_session names files thumb user index session_id w :
  self_session (session_modified names files thumb user index session_id w)
  = self_session w.
Proof.
  unfold session_modified.
  destruct (listed_session w session_id); [|done].
  cbv zeta. destruct (names ≫= _), (files ≫= _), (truthy thumb), (truthy user); done.
Qed.

Lemma session_modified_coreemu_sessions names files thumb user index session_id w :
  coreemu_sessions (session_modified names files thumb user index session_id w)
  = coreemu_sessions w.
Proof.
  unfold session_modified.
  destruct (listed_session w session_id); [|done].
  cbv zeta. destruct (names ≫= _), (files ≫= _), (truthy thumb), (truthy user); done.
Qed.

Lemma session_modified_listed_session names files thumb user index session_id w z :
  listed_session (session_modified names files thumb user index session_id w) z
  = listed_session w z.
Proof.
  unfold listed_session.
  by rewrite session_modified_self_session, session_modified_coreemu_sessions.
Qed.

(** One turn of the loop of the branch [message.flags == 0]. *)
Lemma session_modify_run names files thumb user index session_id z w :
  py_int session_id = Some z →
  (is_Some (listed_session w z) → covers names index ∧ covers files index) →
  session_modify names files thumb user index session_id w
  = (Ok tt, session_modified names files thumb user index z w).
Proof.
  intros Hint Hcovers.
  unfold session_modify, int_of. rewrite Hint.
  rewrite (bind_ok _ _ w z w) by done.
  rewrite (bind_ok _ _ w (listed_session w z) w)
    by (unfold listed_session; by destruct (z =? 0)).
  unfold session_modified.
  destruct (listed_session w z) as [session|]; [|done].
  destruct Hcovers as [Hnames Hfiles]; [by eexists|].
  cbv zeta.
  set (w1 := set_trace (trace w ++ [Log INFO "request to modify to session: %s"]) w).
  rewrite (bind_ok _ _ w tt w1) by done.
  assert (Hname : ∃ w2,
    match names with
    | Some names =>
        v ← subscript names index;
        session_assign session (Session.set_name (Some (VStr v)))
    | None => mret tt
    end w1 = (Ok tt, w2)
    ∧ w2 = match names ≫= (.!! index) with
           | Some v =>
               set_heap (heap_update session (Session.set_name (Some (VStr v))) (heap w1)) w1
           | None => w1
           end).
  { destruct names as [l|]; [|by exists w1].
    destruct Hnames as [v Hv]. eexists. split; [|by cbn; rewrite Hv].
    unfold subscript. rewrite Hv. done. }
  destruct Hname as (w2 & Hrun2 & <-).
  rewrite (bind_ok _ _ _ _ _ Hrun2).
  assert (Hfile : ∃ w3,
    match files with
    | Some files =>
        v ← subscript files index;
        session_assign session (Session.set_file_name (Some (VStr v)))
    | None => mret tt
    end w2 = (Ok tt, w3)
    ∧ w3 = match files ≫= (.!! index) with
           | Some v =>
               set_heap (heap_update session (Session.set_file_name (Some (VStr v))) (heap w2)) w2
           | None => w2
           end).
  { destruct files as [l|]; [|by exists w2].
    destruct Hfiles as [v Hv]. eexists. split; [|by cbn; rewrite Hv].
    unfold subscript. rewrite Hv. done. }
  destruct Hfile as (w3 & Hrun3 & <-).
  rewrite (bind_ok _ _ _ _ _ Hrun3).
  destruct (truthy thumb), (truthy user); done.
Qed.

Lemma sessions_modify_run names files thumb user session_ids : ∀ start ids w,
  Forall2 (λ session_id z, py_int session_id = Some z) session_ids ids →
  (∀ i z, ids !! i = Some z → is_Some (listed_session w z) →
          covers names (start + i) ∧ covers files (start + i)) →
  for_enumerate start session_ids (session_modify names files thumb user) w
  = (Ok tt, sessions_modified names files thumb user start ids w).
Proof.
  induction session_ids as [|session_id session_ids IH];
    intros start ids w Hints Hcovers.
  - by apply Forall2_nil_inv_l in Hints as ->.
  - apply Forall2_cons_inv_l in Hints as (z & ids' & Hint & Hints & ->).
    cbn [for_enumerate sessions_modified].
    rewrite (bind_ok _ _ w tt (session_modified names files thumb user start z w)).
    + apply IH; [done|]. intros i z' Hz' Hlisted.
      rewrite session_modified_listed_session in Hlisted.
      replace (S start + i)%nat with (start + S i)%nat by lia.
      by apply (Hcovers (S i) z').
    + apply session_modify_run; [done|]. intros Hlisted.
      replace start with (start + 0)%nat at 1 2 by lia.
      by apply (Hcovers 0%nat z).
Qed.

(** C9, as the code has it.  A SESSION message with no flag set that
    lists session ids (it carries the NUMBER TLV), whose listed ids
    are all integers and whose name and file lists, when present, have
    an entry at the position of every listed id that stands for a
    session: the handler returns no reply, and has handled
    the listed ids in order as [session_modified] says: the id 0 stands
    for the current session of the handling connection; an id that
    stands for no session leaves a warning, and the ids after it are
    handled all the same. *)
Theorem handle_session_message_modify message w session_ids ids :
  flags message = 0 →
  str_to_list (get_tlv message SessionTlvs.NUMBER) = Some session_ids →
  Forall2 (λ session_id z, py_int session_id = Some z) session_ids ids →
  let names := str_to_list (get_tlv message SessionTlvs.NAME) in
  let files := str_to_list (get_tlv message SessionTlvs.FILE) in
  (∀ i z, ids !! i = Some z → is_Some (listed_session w z) →
          covers names i ∧ covers files i) →
  handle_session_message oracle self message w
  = (Ok [],
     sessions_modified names files
       (get_tlv message SessionTlvs.THUMB) (get_tlv message SessionTlvs.USER)
       0 ids
       (set_trace (trace w ++ [Log DEBUG "SESSION message flags=0x%x sessions=%s"]) w)).
Proof.
  intros Hflags Hlist Hints names files Hcovers.
  unfold handle_session_message. cbv zeta. rewrite Hflags, Hlist.
  set (w0 := set_trace _ w).
  rewrite (bind_ok _ _ w tt w0) by done.
  cbn [Z.eqb].
  rewrite (bind_ok _ _ w0 session_ids w0) by done.
  erewrite bind_ok; [done|].
  by apply sessions_modify_run.
Qed.

(** ** More on receiving *)

(** The loop never holds more bytes than the announced length when it
    tests for it. *)
Lemma receive_body_raises_recv fuel message_len : ∀ data w e w',
  receive_body fuel message_len data w = (Raise e, w') →
  e = Exn IOError "recv".
Proof.
  induction fuel as [|fuel IH]; intros data w e w'; cbn [receive_body].
  - by destruct (len data <? message_len).
  - destruct (len data <? message_len) eqn:Hshort; [|done].
    apply Z.ltb_lt in Hshort. intros Hrun.
    unfold mbind, M_bind in Hrun.
    destruct (recv (message_len - len data) w) as [[received|e0|] w1] eqn:Hrecv.
    + assert (Hlen : len (data ++ received) = len data + len received)
        by (unfold len; rewrite length_app; lia).
      apply recv_length in Hrecv; [|lia].
      rewrite (proj2 (Z.ltb_ge _ _)) in Hrun by lia.
      by apply IH in Hrun.
    + injection Hrun as <- _. unfold recv in Hrecv.
      destruct (rfile w) as [|[b|] rest]; [done| |by injection Hrecv as <- _].
      by destruct (len b <=? message_len - len data).
    + done.
Qed.

(** X1.  [receive_message] never raises the error "received message
    length does not match received data": the test [len(data) >
    message_len] cannot succeed, since each read asks for no more than
    the bytes still missing. *)
Theorem receive_message_never_reports_length_mismatch fuel w e w' :
  receive_message fuel w = (Raise e, w') →
  exn_message e
  ≠ "received message length does not match received data (%s != %s)".
Proof.
  unfold receive_message, try_except, mbind at 1, M_bind at 1.
  destruct (recv header_len w) as [[header|e0|] w1] eqn:Hrecv.
  - destruct (len header =? header_len); cbn [negb].
    + destruct (unpack_header header) as [[message_type message_flags] message_len].
      unfold mbind at 1, M_bind at 1.
      destruct (when _ _ w1) as [[[]|e1|] w2] eqn:Hwhen.
      * unfold mbind at 1, M_bind at 1.
        destruct (receive_body _ _ _ _) as [[data|e2|] w3] eqn:Hbody.
        -- destruct (CLASS_MAP_unpack _ _ _ _); [by intros [=]|].
           unfold log, effect, mbind, M_bind, mret, M_ret. by intros [=].
        -- intros [= <- _]. by rewrite (receive_body_raises_recv _ _ _ _ _ _ Hbody).
        -- done.
      * unfold when, log, effect in Hwhen. by destruct (message_len =? 0).
      * done.
    + destruct (len header =? 0); unfold raise; by intros [= <- _].
  - destruct (existsb _ _); unfold raise; intros [= <- _]; [done|].
    unfold recv in Hrecv.
    destruct (rfile w) as [|[b|] rest]; [done| |by injection Hrecv as <- _].
    by destruct (len b <=? header_len).
  - done.
Qed.

(** The loop puts the chunks of a body together, given a turn for each
    chunk, and leaves what follows on the socket. *)
Lemma receive_body_complete message_len chunks rest : ∀ fuel data w,
  Forall (λ b, b ≠ []) chunks →
  rfile w = (Chunk <$> chunks) ++ rest →
  len data + len (concat chunks) = message_len →
  (length chunks ≤ fuel)%nat →
  receive_body fuel message_len data w
  = (Ok (data ++ concat chunks), set_rfile rest w).
Proof.
  induction chunks as [|b chunks IH]; intros fuel data w Hchunks Hfile Hlen Hfuel.
  - cbn [concat] in *. rewrite app_nil_r.
    assert (Hdone : (len data <? message_len) = false).
    { apply Z.ltb_ge. change (len (@nil Byte.byte)) with 0 in Hlen. lia. }
    destruct fuel; cbn [receive_body]; rewrite Hdone;
      cbn in Hfile; rewrite <- Hfile; by destruct w.
  - assert (Hcons : len (concat (b :: chunks)) = len b + len (concat chunks))
      by (unfold len; cbn [concat]; rewrite length_app; lia).
    apply Forall_cons in Hchunks as [Hb Hchunks].
    assert (0 < len b) by (destruct b; [done | unfold len; cbn; lia]).
    assert (0 ≤ len (concat chunks)) by (unfold len; lia).
    assert (Hdata : len (data ++ b) = len data + len b)
      by (unfold len; rewrite length_app; lia).
    destruct (decide (len data < message_len)) as [Hshort|Hfull].
    + destruct fuel as [|fuel]; [cbn in Hfuel; lia|].
      cbn [receive_body]. rewrite (proj2 (Z.ltb_lt _ _) Hshort).
      rewrite (bind_ok _ _ w b (set_rfile ((Chunk <$> chunks) ++ rest) w)).
      * cbv zeta. rewrite (proj2 (Z.ltb_ge _ _)) by lia.
        rewrite (IH fuel (data ++ b) (set_rfile ((Chunk <$> chunks) ++ rest) w));
          [|done|done|lia|cbn in Hfuel; lia].
        cbn [concat]. by rewrite app_assoc.
      * unfold recv. rewrite Hfile. cbn [fmap list_fmap app].
        rewrite (proj2 (Z.leb_le _ _)) by lia. done.
    + lia.
Qed.

(** X2.  A message that arrives as its header followed by the chunks
    of its body, however the body is cut into chunks, is put together
    again: given a turn of the loop for each chunk, [receive_message]
    returns the message with the type and flags of the header and the
    raw bytes header ++ body, and what follows the body is left on the
    socket for the next message. *)
Theorem receive_message_complete fuel w header chunks rest :
  rfile w = Chunk header :: (Chunk <$> chunks) ++ rest →
  len header = header_len →
  Forall (λ b, b ≠ []) chunks →
  len (concat chunks) = (unpack_header header).2 →
  (length chunks ≤ fuel)%nat →
  ∃ w',
    receive_message fuel w = (Ok (received_message header (concat chunks)), w')
    ∧ rfile w' = rest
    ∧ message_queue w' = message_queue w
    ∧ sent (trace w') = sent (trace w).
Proof.
  intros Hfile Hheader Hchunks Hlen Hfuel.
  unfold receive_message, received_message.
  set (w1 := set_rfile ((Chunk <$> chunks) ++ rest) w).
  rewrite (bind_ok _ _ w header w1).
  2:{ unfold try_except, recv. rewrite Hfile.
      by rewrite (proj2 (Z.leb_le _ _)) by lia. }
  rewrite (proj2 (Z.eqb_eq _ _) Hheader). cbn [negb].
  destruct (unpack_header header) as [[message_type message_flags] message_len].
  cbn [snd] in Hlen.
  assert (Hwhen : ∃ w2,
    when (message_len =? 0) (log WARNING "received message with no data") w1
    = (Ok tt, w2)
    ∧ rfile w2 = (Chunk <$> chunks) ++ rest ∧ message_queue w2 = message_queue w
    ∧ sent (trace w2) = sent (trace w)).
  { destruct (message_len =? 0).
    - eexists. split; [done|]. cbn. split; [done|]. split; [done|].
      by rewrite sent_app, app_nil_r.
    - by exists w1. }
  destruct Hwhen as (w2 & Hwhen & Hfile2 & Hqueue & Hsent).
  rewrite (bind_ok _ _ _ _ _ Hwhen).
  rewrite (bind_ok _ _ w2 (concat chunks) (set_rfile rest w2))
    by (by apply (receive_body_complete message_len chunks rest fuel [] w2)).
  destruct (CLASS_MAP_unpack _ _ _ _).
  - eexists. split; [done|]. by cbn.
  - eexists. split; [done|]. cbn. split; [done|]. split; [done|].
    by rewrite sent_app, Hsent, app_nil_r.
Qed.

(** [receive_message] raises nothing but EOFError and IOError. *)
Lemma receive_message_raises fuel w e w' :
  receive_message fuel w = (Raise e, w') →
  exn_class_of e = EOFError ∨ exn_class_of e = IOError.
Proof.
  unfold receive_message, try_except, mbind at 1, M_bind at 1.
  destruct (recv header_len w) as [[header|e0|] w1] eqn:Hrecv.
  - destruct (len header =? header_len); cbn [negb].
    + destruct (unpack_header header) as [[message_type message_flags] message_len].
      unfold mbind at 1, M_bind at 1.
      destruct (when _ _ w1) as [[[]|e1|] w2] eqn:Hwhen.
      * unfold mbind at 1, M_bind at 1.
        destruct (receive_body _ _ _ _) as [[data|e2|] w3] eqn:Hbody.
        -- destruct (CLASS_MAP_unpack _ _ _ _); [by intros [=]|].
           unfold log, effect, mbind, M_bind, mret, M_ret. by intros [=].
        -- intros [= <- _]. right. by eapply receive_body_raises.
        -- done.
      * unfold when, log, effect in Hwhen. by destruct (message_len =? 0).
      * done.
    + destruct (len header =? 0); unfold raise; intros [= <- _]; [by left | by right].
  - rewrite (recv_raises _ _ _ _ Hrecv). cbn. unfold raise. intros [= <- _]. by right.
  - done.
Qed.

(** X3.  Whatever makes [receive_message] fail, the receive loop of
    [handle] ends its turn with [break] and without an exception: the
    failure is logged (a clean disconnect as information, anything else
    as an exception) and nothing is queued or written to a socket. *)
Theorem handle_iteration_breaks_on_failure fuel w e w1 :
  receive_message fuel w = (Raise e, w1) →
  handle_iteration oracle self fuel w
  = (Ok Break,
     set_trace
       (trace w1 ++
        [match exn_class_of e with
         | EOFError => Log INFO "client disconnected"
         | _ => Log EXCEPTION_LEVEL "error receiving message"
         end]) w1).
Proof.
  intros Hrecv. unfold handle_iteration.
  rewrite (bind_ok _ _ w None
             (set_trace
                (trace w1 ++
                 [match exn_class_of e with
                  | EOFError => Log INFO "client disconnected"
                  | _ => Log EXCEPTION_LEVEL "error receiving message"
                  end]) w1)); [done|].
  unfold try_except, fmap, M_fmap. rewrite Hrecv.
  by destruct (receive_message_raises _ _ _ _ Hrecv) as [-> | ->].
Qed.

(** ** What the handlers never call *)

Section Emits.
Context {A : Type} (P : Call → Prop).

Lemma emits_ret (a : A) : emits P (mret a).
Proof. intros w r w' [= <- <-]. exists []. by rewrite app_nil_r. Qed.

Lemma emits_raise c msg : emits P (raise c msg : M A).
Proof. intros w r w' [= <- <-]. exists []. by rewrite app_nil_r. Qed.

Lemma emits_out_of_fuel : emits P (out_of_fuel : M A).
Proof. intros w r w' [= <- <-]. exists []. by rewrite app_nil_r. Qed.

Lemma emits_gets (f : World → A) : emits P (gets f).
Proof. intros w r w' [= <- <-]. exists []. by rewrite app_nil_r. Qed.

Lemma emits_bind {B} (m : M B) (f : B → M A) :
  emits P m → (∀ b, emits P (f b)) → emits P (m ≫= f).
Proof.
  intros Hm Hf w r w'. unfold mbind, M_bind.
  destruct (m w) as [[b|e|] w1] eqn:Hrun.
  - intros Hrest. destruct (Hm _ _ _ Hrun) as (first & Hfirst & HP).
    destruct (Hf b _ _ _ Hrest) as (rest & Hrest' & HP').
    exists (first ++ rest). split; [by rewrite Hrest', Hfirst, app_assoc|].
    by apply Forall_app.
  - intros [= <- <-]. eauto.
  - intros [= <- <-]. eauto.
Qed.

Lemma emits_try_except (m : M A) classes (h : exn → M A) :
  emits P m → (∀ e, emits P (h e)) → emits P (try_except m classes h).
Proof.
  intros Hm Hh w r w'. unfold try_except.
  destruct (m w) as [[a|e|] w1] eqn:Hrun.
  - intros [= <- <-]. eauto.
  - destruct (Hm _ _ _ Hrun) as (first & Hfirst & HP).
    destruct (existsb _ _).
    + intros Hrest. destruct (Hh e _ _ _ Hrest) as (rest & Hrest' & HP').
      exists (first ++ rest). split; [by rewrite Hrest', Hfirst, app_assoc|].
      by apply Forall_app.
    + intros [= <- <-]. eauto.
  - intros [= <- <-]. eauto.
Qed.

Lemma emits_fmap {B} (g : B → A) (m : M B) : emits P m → emits P (g <$> m).
Proof.
  intros Hm w r w'. unfold fmap, M_fmap.
  destruct (m w) as [[b|e|] w1] eqn:Hrun; intros [= <- <-]; eauto.
Qed.

End Emits.

Section EmitsUnit.
Context (P : Call → Prop).

Lemma emits_effect c : P c → emits P (effect c).
Proof. intros Hc w r w' [= <- <-]. exists [c]. split; [done|]. by constructor. Qed.

Lemma emits_log lvl fmt : P (Log lvl fmt) → emits P (log lvl fmt).
Proof. apply emits_effect. Qed.

Lemma emits_sleep ms : P (Sleep ms) → emits P (sleep ms).
Proof. apply emits_effect. Qed.

Lemma emits_call c : P c → emits P (call oracle c).
Proof. intros Hc w r w' [= <- <-]. exists [c]. split; [done|]. by constructor. Qed.

Lemma emits_modify f : (∀ w, trace (f w) = trace w) → emits P (modify f).
Proof. intros Hf w r w' [= <- <-]. exists []. by rewrite app_nil_r, Hf. Qed.

Lemma emits_when b m : emits P m → emits P (when b m).
Proof. destruct b; [done|]. intros _. apply emits_ret. Qed.

Lemma emits_for_each {X} (l : list X) body :
  (∀ x, emits P (body x)) → emits P (for_each l body).
Proof.
  intros Hbody. induction l as [|x l IH]; cbn [for_each].
  - apply emits_ret.
  - apply emits_bind; [apply Hbody | by intros _].
Qed.

Lemma emits_for_enumerate {X} (l : list X) body : ∀ start,
  (∀ i x, emits P (body i x)) → emits P (for_enumerate start l body).
Proof.
  induction l as [|x l IH]; intros start Hbody; cbn [for_enumerate].
  - apply emits_ret.
  - apply emits_bind; [apply Hbody | intros _; by apply IH].
Qed.

Lemma emits_the_session : emits P the_session.
Proof.
  intros w r w'. unfold the_session.
  destruct (self_session w); intros [= <- <-]; exists []; by rewrite app_nil_r.
Qed.

Lemma emits_session_attr {X} l (f : Session.t → X) : emits P (session_attr l f).
Proof. apply emits_gets. Qed.

Lemma emits_session_assign l f : emits P (session_assign l f).
Proof. by apply emits_modify. Qed.

Lemma emits_sendall_on client data :
  P (Sendall client data) → emits P (sendall_on oracle client data).
Proof.
  intros Hc. unfold sendall_on.
  apply (emits_bind P (call oracle (Sendall client data))); [by apply emits_call|].
  intros []; [apply emits_ret | apply emits_raise].
Qed.

End EmitsUnit.

Create HintDb emits discriminated.

#[local] Hint Resolve emits_ret emits_raise emits_out_of_fuel emits_gets
  emits_the_session emits_session_attr emits_session_assign : emits.
#[local] Hint Extern 1 (emits _ (effect _)) => apply emits_effect; exact I : emits.
#[local] Hint Extern 1 (emits _ (log _ _)) => apply emits_log; exact I : emits.
#[local] Hint Extern 1 (emits _ (sleep _)) => apply emits_sleep; exact I : emits.
#[local] Hint Extern 1 (emits _ (call _ ?c)) => apply (emits_call _ c); exact I : emits.
#[local] Hint Extern 1 (emits _ (modify _)) => apply emits_modify; done : emits.
#[local] Hint Extern 1 (emits _ (sendall_on _ _ _)) =>
  apply emits_sendall_on; reflexivity : emits.
#[local] Hint Extern 1 (emits _ (sendall _ _ _)) =>
  apply emits_sendall_on; reflexivity : emits.

(** Break a handler down into its calls. *)
Ltac emits_step :=
  first
    [ solve [auto 1 with emits]
    | match goal with |- emits _ (_ <$> _) => apply emits_fmap end
    | match goal with |- emits _ (_ ≫= _) => apply emits_bind; [|intros ?] end
    | apply emits_when
    | apply emits_for_each; intros ?
    | apply emits_for_enumerate; intros ? ?
    | apply emits_try_except; [|intros ?]
    | match goal with
      | |- emits _ (if ?b then _ else _) => destruct b
      | |- emits _ (match ?x with _ => _ end) => destruct x
      end
    | progress cbv zeta ].

Ltac emits_all := repeat emits_step.

Lemma emits_enum_of P is_member what v : emits P (enum_of is_member what v).
Proof. unfold enum_of. emits_all. Qed.

Lemma emits_optional_float P x : emits P (optional_float x).
Proof. unfold optional_float. emits_all. Qed.

Lemma emits_as_str P x : emits P (as_str x).
Proof. unfold as_str. emits_all. Qed.

Lemma emits_subscript P {X} (l : list X) i : emits P (subscript l i).
Proof. unfold subscript. emits_all. Qed.

Lemma emits_int_of P s : emits P (int_of s).
Proof. unfold int_of. emits_all. Qed.

Lemma emits_float_of P s : emits P (float_of s).
Proof. unfold float_of. emits_all. Qed.

Lemma emits_iterable P {X} (l : option (list X)) : emits P (iterable l).
Proof. unfold iterable. emits_all. Qed.

Lemma emits_interface_node_id P node_id interface_id :
  emits P (interface_node_id node_id interface_id).
Proof. unfold interface_node_id. emits_all. Qed.

#[local] Hint Resolve emits_enum_of emits_optional_float emits_as_str emits_subscript
  emits_int_of emits_float_of emits_iterable emits_interface_node_id : emits.
#[local] Hint Extern 1 (emits _ (MessageTypes_of _)) => apply emits_enum_of : emits.
#[local] Hint Extern 1 (emits _ (EventTypes_of _)) => apply emits_enum_of : emits.
#[local] Hint Extern 1 (emits _ (ConfigFlags_of _)) => apply emits_enum_of : emits.
#[local] Hint Extern 1 (emits _ (NodeTypes_of _)) => apply emits_enum_of : emits.

Lemma emits_mapM P {X Y} (f : X → M Y) (l : list X) :
  (∀ x, emits P (f x)) → emits P (mapM f l).
Proof.
  intros Hf. induction l as [|x l IH]; cbn [mapM].
  - apply emits_ret.
  - emits_all.
Qed.

Lemma emits_queue_message message :
  emits (own_socket_no_state self) (queue_message message).
Proof. unfold queue_message. emits_all. Qed.

Lemma emits_get_node s node_id :
  emits (own_socket_no_state self) (get_node oracle s node_id).
Proof. unfold get_node. emits_all. Qed.

Lemma emits_send_node_emulation_id node_id :
  emits (own_socket_no_state self) (send_node_emulation_id oracle self node_id).
Proof. unfold send_node_emulation_id. emits_all. Qed.

#[local] Hint Resolve emits_queue_message emits_get_node
  emits_send_node_emulation_id : emits.

Lemma emits_node_method node method args :
  emits (own_socket_no_state self) (node_method node method args).
Proof. unfold node_method. emits_all. Qed.

#[local] Hint Resolve emits_node_method : emits.

Lemma emits_handle_node_message message :
  emits (own_socket_no_state self) (handle_node_message oracle self message).
Proof. unfold handle_node_message. emits_all. Qed.

Lemma emits_handle_execute_message message :
  emits (own_socket_no_state self) (handle_execute_message oracle message).
Proof. unfold handle_execute_message. emits_all. Qed.

Lemma emits_set_configs_from c s data_values :
  emits (own_socket_no_state self) (set_configs_from c s data_values).
Proof. unfold set_configs_from. emits_all. Qed.

#[local] Hint Resolve emits_set_configs_from : emits.

Lemma emits_handle_config_all message_type config_data :
  emits (own_socket_no_state self) (handle_config_all message_type config_data).
Proof. unfold handle_config_all. emits_all. Qed.

Lemma emits_handle_config_session message_type config_data :
  emits (own_socket_no_state self) (handle_config_session oracle message_type config_data).
Proof. unfold handle_config_session. emits_all. Qed.

Lemma emits_handle_config_location message_type config_data :
  emits (own_socket_no_state self) (handle_config_location message_type config_data).
Proof.
  unfold handle_config_location. emits_all.
  apply emits_mapM. intros. apply emits_float_of.
Qed.

Lemma emits_handle_config_metadata message_type config_data :
  emits (own_socket_no_state self) (handle_config_metadata oracle message_type config_data).
Proof. unfold handle_config_metadata. emits_all. Qed.

Lemma emits_handle_config_broker message_type config_data :
  emits (own_socket_no_state self) (handle_config_broker message_type config_data).
Proof. unfold handle_config_broker. emits_all. Qed.

Lemma emits_handle_config_services message_type config_data :
  emits (own_socket_no_state self) (handle_config_services oracle message_type config_data).
Proof. unfold handle_config_services. emits_all. Qed.

Lemma emits_handle_config_mobility message_type config_data :
  emits (own_socket_no_state self) (handle_config_mobility message_type config_data).
Proof. unfold handle_config_mobility. emits_all. Qed.

Lemma emits_handle_config_models m message_type config_data :
  emits (own_socket_no_state self) (handle_config_models oracle m message_type config_data).
Proof. unfold handle_config_models. emits_all. Qed.

Lemma emits_handle_config_emane message_type config_data :
  emits (own_socket_no_state self) (handle_config_emane oracle message_type config_data).
Proof. unfold handle_config_emane. emits_all. Qed.

#[local] Hint Resolve emits_handle_config_all emits_handle_config_session
  emits_handle_config_location emits_handle_config_metadata
  emits_handle_config_broker emits_handle_config_services
  emits_handle_config_mobility emits_handle_config_models
  emits_handle_config_emane : emits.

Lemma emits_config_dispatch message_type config_data :
  emits (own_socket_no_state self) (config_dispatch oracle message_type config_data).
Proof.
  unfold config_dispatch, handle_config_mobility_models, handle_config_emane_models.
  emits_all.
Qed.

Lemma emits_handle_broadcast_config config_data :
  emits (own_socket_no_state self) (handle_broadcast_config oracle self config_data).
Proof. unfold handle_broadcast_config, sendall. emits_all. Qed.

#[local] Hint Resolve emits_config_dispatch emits_handle_broadcast_config : emits.

Lemma emits_handle_config_message message :
  emits (own_socket_no_state self) (handle_config_message oracle self message).
Proof. unfold handle_config_message. emits_all. Qed.

Lemma emits_session_modify names files thumb user index session_id :
  emits (own_socket_no_state self)
    (session_modify names files thumb user index session_id).
Proof. unfold session_modify. emits_all. Qed.

Lemma emits_session_join_or_delete message user session_id :
  emits (own_socket_no_state self) (session_join_or_delete oracle self message user session_id).
Proof. unfold session_join_or_delete. emits_all. Qed.

#[local] Hint Resolve emits_session_modify emits_session_join_or_delete : emits.

Lemma emits_handle_session_message message :
  emits (own_socket_no_state self) (handle_session_message oracle self message).
Proof. unfold handle_session_message. emits_all. Qed.

(** ** More on NODE messages *)

Lemma emits_weaken {A} (P Q : Call → Prop) (m : M A) :
  (∀ c, P c → Q c) → emits P m → emits Q m.
Proof.
  intros HPQ Hm w r w' Hrun. destruct (Hm _ _ _ Hrun) as (added & Htrace & HP).
  exists added. split; [done|]. by eapply Forall_impl.
Qed.

Lemma own_socket_no_state_no_set_state c :
  own_socket_no_state self c → no_set_state c.
Proof. by destruct c. Qed.

(** X4.  The code of the handlers of NODE, EXECUTE, CONFIG and SESSION
    messages never calls [session.set_state], whatever the message and
    whatever the collaborators answer; and every socket write that the
    handlers of NODE and EXECUTE messages make is on the connection of
    the handler itself.
    (The handlers of CONFIG and SESSION messages can reach the sockets
    of the other handlers of the session, through
    [session.broadcast_file] and [self.send_objects]; nothing is said
    of their writes here.) *)
Theorem handlers_leave_state_and_peers_alone message :
  emits (own_socket_no_state self) (handle_node_message oracle self message)
  ∧ emits (own_socket_no_state self) (handle_execute_message oracle message)
  ∧ emits no_set_state (handle_config_message oracle self message)
  ∧ emits no_set_state (handle_session_message oracle self message).
Proof.
  split; [|split; [|split]].
  - apply emits_handle_node_message.
  - apply emits_handle_execute_message.
  - eapply emits_weaken; [apply own_socket_no_state_no_set_state|].
    apply emits_handle_config_message.
  - eapply emits_weaken; [apply own_socket_no_state_no_set_state|].
    apply emits_handle_session_message.
Qed.

(** What [send_node_emulation_id] does, in full. *)
Lemma send_node_emulation_id_run node_id w :
  send_node_emulation_id oracle self node_id w
  = (Ok tt,
     if decide (is_Some (node_status_request w !! node_id)) then
       set_node_status_request (delete node_id (node_status_request w))
         (set_trace
            (trace w ++
             Sendall self (emulation_id_reply node_id)
             :: (if oracle (trace w) (Sendall self (emulation_id_reply node_id))
                 then []
                 else [Log EXCEPTION_LEVEL "error sending node emulation id message: %s"]))
            w)
     else w).
Proof.
  unfold send_node_emulation_id.
  rewrite (bind_ok _ _ w (node_status_request w) w) by done.
  destruct (decide _); [|done].
  fold (emulation_id_reply node_id).
  unfold try_except, sendall, sendall_on, call, modify, mbind, M_bind.
  cbn [trace set_trace].
  destruct (oracle (trace w) (Sendall self (emulation_id_reply node_id))); [done|].
  unfold raise, log, effect. cbn. by rewrite <- app_assoc.
Qed.

(** The part of [handle_node_message] before the flags are looked at
    has no effect on a plain message. *)
Lemma handle_node_message_plain message w s :
  plain_node_message message →
  self_session w = Some s →
  (has_flag message MessageFlags.ADD && has_flag message MessageFlags.DELETE) = false →
  handle_node_message oracle self message w
  = (if has_flag message MessageFlags.ADD then
       node ← call oracle (AddNode s None (get_tlv message NodeTlvs.NUMBER)
                             (plain_node_options message));
       match node with
       | Some node =>
           when (has_flag message MessageFlags.STRING)
             (modify (λ w, set_node_status_request
                             (<[Node.id node := true]> (node_status_request w)) w));;
           state ← call oracle (SessionState s);
           when (state =? EventTypes_value EventTypes.RUNTIME_STATE)
             (send_node_emulation_id oracle self (Node.id node))
       | None => mret tt
       end;;
       mret []
     else if has_flag message MessageFlags.DELETE then
       result ← call oracle (DeleteNode s (get_tlv message NodeTlvs.NUMBER));
       if (result : bool) && has_flag message MessageFlags.STRING then
         mret [CoreNodeMessage_pack
                 (Z.lor (flag MessageFlags.DELETE) (flag MessageFlags.LOCAL))
                 (CoreNodeTlv_pack NodeTlvs.NUMBER (get_tlv message NodeTlvs.NUMBER))]
       else mret []
     else
       effect (UpdateNode s (get_tlv message NodeTlvs.NUMBER)
                 (plain_node_options message));;
       mret []) w.
Proof.
  intros (Htype & Hlat & Hlon & Halt & Hservices) Hsession Hboth.
  unfold handle_node_message. rewrite Hboth, Htype, Hlat, Hlon, Halt, Hservices.
  cbn [optional_float truthy].
  rewrite !(bind_ok _ _ w None w) by done.
  cbv zeta. fold (plain_node_options message).
  by rewrite (bind_ok _ _ w s w) by (unfold the_session; by rewrite Hsession).
Qed.

(** X5.  A node added by a NODE message with the ADD and STRING flags:
    while the session is not in the RUNTIME state nothing is written to
    the client and the id of the new node is recorded as waiting for
    its emulation id; when the session is in the RUNTIME state the
    emulation-id reply is written to the handler's socket at once and
    the id is not left waiting.  In both cases the handler returns no
    reply of its own. *)
Theorem handle_node_message_add_status message w s n :
  plain_node_message message →
  self_session w = Some s →
  has_flag message MessageFlags.ADD = true →
  has_flag message MessageFlags.DELETE = false →
  has_flag message MessageFlags.STRING = true →
  oracle (trace w) (AddNode s None (get_tlv message NodeTlvs.NUMBER)
                      (plain_node_options message)) = Some n →
  let add := AddNode s None (get_tlv message NodeTlvs.NUMBER)
               (plain_node_options message) in
  let state := oracle (trace w ++ [add]) (SessionState s) in
  ∃ w', handle_node_message oracle self message w = (Ok [], w')
    ∧ if state =? EventTypes_value EventTypes.RUNTIME_STATE then
        sent (trace w') = sent (trace w) ++ [(self, emulation_id_reply (Node.id n))]
        ∧ node_status_request w' = delete (Node.id n) (node_status_request w)
      else
        sent (trace w') = sent (trace w)
        ∧ node_status_request w' = <[Node.id n := true]> (node_status_request w).
Proof.
  intros Hplain Hsession Hadd Hdelete Hstring Hnode add state.
  rewrite (handle_node_message_plain message w s Hplain Hsession)
    by (by rewrite Hadd, Hdelete).
  rewrite Hadd, Hstring.
  set (w1 := set_trace (trace w ++ [add]) w).
  set (w2 := set_node_status_request (<[Node.id n := true]> (node_status_request w1)) w1).
  set (w3 := set_trace (trace w2 ++ [SessionState s]) w2).
  destruct (state =? EventTypes_value EventTypes.RUNTIME_STATE) eqn:Hstate.
  - eexists. split.
    + rewrite (bind_ok _ _ w (Some n) w1) by (unfold call; by rewrite Hnode).
      cbv beta iota. erewrite bind_ok; [reflexivity|].
      unfold when at 1. rewrite (bind_ok _ _ w1 tt w2) by done.
      rewrite (bind_ok _ _ w2 state w3) by done.
      rewrite Hstate. unfold when. apply send_node_emulation_id_run.
    + rewrite decide_True by (subst w3 w2; cbn; rewrite lookup_insert_eq; by eexists).
      subst w3 w2 w1 add. cbn. split.
      * rewrite !sent_app. cbn.
        destruct (oracle _ (Sendall _ _)); cbn; by rewrite ?app_nil_r.
      * by rewrite delete_insert_eq.
  - exists w3. split.
    + rewrite (bind_ok _ _ w (Some n) w1) by (unfold call; by rewrite Hnode).
      cbv beta iota. erewrite bind_ok; [reflexivity|].
      unfold when at 1. rewrite (bind_ok _ _ w1 tt w2) by done.
      rewrite (bind_ok _ _ w2 state w3) by done.
      by rewrite Hstate.
    + subst w3 w2 w1 add. cbn. split; [|done].
      rewrite !sent_app. cbn. by rewrite !app_nil_r.
Qed.

(** X6.  A NODE message with the DELETE flag and without ADD that
    carries no node type, no geographic position (latitude, longitude,
    altitude) and no services, handled by a handler that has a
    session: the handler asks the session to delete the node and does
    nothing else; it answers with one NODE message, flags
    DELETE|LOCAL, carrying the node number, exactly when the session
    did delete a node and the STRING flag was set, and with nothing
    otherwise.  (A node type, a position or services in the message
    are converted first, and a value that cannot be converted raises
    before [delete_node] is called.) *)
Theorem handle_node_message_delete message w s :
  plain_node_message message →
  self_session w = Some s →
  has_flag message MessageFlags.ADD = false →
  has_flag message MessageFlags.DELETE = true →
  let delete_node := DeleteNode s (get_tlv message NodeTlvs.NUMBER) in
  handle_node_message oracle self message w
  = (Ok (if oracle (trace w) delete_node && has_flag message MessageFlags.STRING
         then [CoreNodeMessage_pack
                 (Z.lor (flag MessageFlags.DELETE) (flag MessageFlags.LOCAL))
                 (CoreNodeTlv_pack NodeTlvs.NUMBER (get_tlv message NodeTlvs.NUMBER))]
         else []),
     set_trace (trace w ++ [delete_node]) w).
Proof.
  intros Hplain Hsession Hadd Hdelete delete_node.
  rewrite (handle_node_message_plain message w s Hplain Hsession)
    by (by rewrite Hadd).
  rewrite Hadd, Hdelete.
  rewrite (bind_ok _ _ w (oracle (trace w) delete_node)
             (set_trace (trace w ++ [delete_node]) w)) by done.
  by destruct (_ && _).
Qed.

(** ** More on EVENT and EXECUTE messages *)

Lemma emits_bind_ret {A B} P (a : A) (f : A → M B) :
  emits P (f a) → emits P (mret a ≫= f).
Proof. intros Hf w r w'. rewrite (bind_ok _ _ w a w) by done. apply Hf. Qed.

Lemma emits_bind_raise {A B} P c msg (f : A → M B) :
  emits P (raise c msg ≫= f).
Proof.
  intros w r w'. rewrite (bind_raise _ _ w (Exn c msg) w) by done.
  apply emits_raise.
Qed.

(** X8.  While an EVENT message whose event type lies above
    SHUTDOWN_STATE (the events START, STOP, PAUSE, RESTART, FILE_OPEN,
    FILE_SAVE, SCHEDULED, RECONFIGURE of the CORE API) is handled, the
    handler never calls [session.set_state], with or without a node id
    in the message: the state of the session is only set for the
    event types up to SHUTDOWN_STATE. *)
Theorem handle_event_message_above_shutdown message t :
  get_tlv message EventTlvs.TYPE = Some (VInt t) →
  EventTypes_value EventTypes.SHUTDOWN_STATE < t →
  emits no_set_state (handle_event_message oracle self message).
Proof.
  intros Htype Ht.
  eapply emits_weaken; [apply own_socket_no_state_no_set_state|].
  unfold handle_event_message. cbv zeta.
  cbn [EventData.event_type EventData.node EventData.name EventData.time
       EventData.data EventData.session].
  rewrite Htype. cbn [is_none]. unfold EventTypes_of, enum_of.
  destruct (is_EventTypes t); [|apply emits_bind_raise].
  apply emits_bind_ret.
  replace (t <=? EventTypes_value EventTypes.SHUTDOWN_STATE) with false
    by (symmetry; apply Z.leb_gt; lia).
  emits_all.
Qed.

Lemma filter_pending_delete (x : Z) (pending : gmap Z bool) (ids : list Z) :
  x ∉ ids →
  filter (λ id, is_Some (delete x pending !! id)) ids
  = filter (λ id, is_Some (pending !! id)) ids.
Proof.
  induction ids as [|y ids IH]; [done|]. intros Hx.
  apply not_elem_of_cons in Hx as [Hxy Hx'].
  rewrite !filter_cons, IH by done.
  rewrite lookup_delete_ne by done. done.
Qed.

(** The loop over the nodes of the session at the end of the
    INSTANTIATION event. *)
Lemma for_each_send_node_emulation_id ids :
  NoDup ids →
  ∀ w, ∃ w',
    for_each ids (send_node_emulation_id oracle self) w = (Ok tt, w')
    ∧ sent (trace w')
      = sent (trace w)
        ++ ((λ id, (self, emulation_id_reply id))
              <$> filter (λ id, is_Some (node_status_request w !! id)) ids)
    ∧ ∀ id, node_status_request w' !! id
            = if decide (id ∈ ids) then None else node_status_request w !! id.
Proof.
  induction 1 as [|x ids Hx Hids IH]; intros w.
  - exists w. cbn. rewrite app_nil_r. split; [done|]. split; [done|]. intros id.
    rewrite decide_False; [done | apply not_elem_of_nil].
  - cbn [for_each].
    rewrite (bind_ok _ _ w tt _ (send_node_emulation_id_run x w)).
    rewrite filter_cons.
    destruct (decide (is_Some (node_status_request w !! x))) as [Hpending|Hpending].
    + match goal with |- ∃ _, for_each _ _ ?w1 = _ ∧ _ => destruct (IH w1) as (w' & Hrun & Hsent & Hrest) end.
      exists w'. split; [done|]. split.
      * rewrite Hsent. cbn [trace set_trace set_node_status_request node_status_request].
        rewrite filter_pending_delete by done.
        rewrite sent_app. cbn.
        destruct (oracle _ (Sendall _ _)); cbn; by rewrite <- app_assoc.
      * intros id. rewrite Hrest. cbn.
        destruct (decide (id = x)) as [->|Hne].
        -- rewrite (decide_True (P := x ∈ x :: ids)) by (apply elem_of_cons; by left).
           destruct (decide _); [done | apply lookup_delete_eq].
        -- rewrite lookup_delete_ne by done.
           destruct (decide (id ∈ ids)).
           ++ by rewrite decide_True by (apply elem_of_cons; by right).
           ++ rewrite decide_False; [done | by intros [?|?]%elem_of_cons].
    + destruct (IH w) as (w' & Hrun & Hsent & Hrest).
      exists w'. split; [done|]. split; [done|].
      intros id. rewrite Hrest.
      destruct (decide (id = x)) as [->|Hne].
      * rewrite (decide_True (P := x ∈ x :: ids)) by (apply elem_of_cons; by left).
        destruct (decide _); [done|].
        by apply eq_None_not_Some.
      * destruct (decide (id ∈ ids)).
        -- by rewrite decide_True by (apply elem_of_cons; by right).
        -- rewrite decide_False; [done | by intros [?|?]%elem_of_cons].
Qed.

Lemma is_EventTypes_member m : is_EventTypes (EventTypes_value m) = true.
Proof.
  unfold is_EventTypes. apply orb_true_intro. left.
  apply existsb_exists. exists m. split; [destruct m; simpl; tauto | apply Z.eqb_refl].
Qed.

(** X9.  An EVENT message INSTANTIATION_STATE without a node id, for a
    session whose nodes are [ids]: the session is instantiated, and
    then the emulation-id reply is written to the handler's socket for
    exactly the nodes of the session that were waiting for it, in the
    order of the session's nodes, once each; afterwards none of the
    session's nodes is left waiting, and the nodes that are not in the
    session keep waiting.  The handler returns no reply of its own. *)
Theorem handle_event_message_instantiation message w s ids :
  get_tlv message EventTlvs.TYPE
  = Some (VInt (EventTypes_value EventTypes.INSTANTIATION_STATE)) →
  get_tlv message EventTlvs.NODE = None →
  EventTypes_value EventTypes.INSTANTIATION_STATE
  ≠ EventTypes_value EventTypes.DEFINITION_STATE →
  self_session w = Some s →
  (∀ t, oracle t (SessionNodes s) = ids) →
  NoDup ids →
  ∃ w', handle_event_message oracle self message w = (Ok [], w')
    ∧ sent (trace w')
      = sent (trace w)
        ++ ((λ id, (self, emulation_id_reply id))
              <$> filter (λ id, is_Some (node_status_request w !! id)) ids)
    ∧ (∀ id, node_status_request w' !! id
             = if decide (id ∈ ids) then None else node_status_request w !! id)
    ∧ Invoke (Some s) "instantiate" [] ∈ trace w'.
Proof.
  intros Htype Hnode Hdefinition Hsession Hids Hnodup.
  unfold handle_event_message. cbv zeta.
  cbn [EventData.event_type EventData.node EventData.name EventData.time
       EventData.data EventData.session].
  rewrite Htype, Hnode. cbn [is_none]. unfold EventTypes_of, enum_of.
  rewrite is_EventTypes_member.
  set (t := EventTypes_value EventTypes.INSTANTIATION_STATE) in *.
  rewrite (bind_ok _ _ w t w) by done.
  set (w1 := set_trace (trace w ++ [Log DEBUG "handling event %s at %s"]) w).
  rewrite (bind_ok _ _ w tt w1) by done.
  (* the state is set when INSTANTIATION_STATE is a phase of the session *)
  set (w2 := if t <=? EventTypes_value EventTypes.SHUTDOWN_STATE
             then set_trace (trace w1 ++ [SetState s t]) w1 else w1).
  rewrite (bind_ok _ _ w1 false w2); cycle 1.
  { subst w2. destruct (t <=? _); [|done].
    rewrite (bind_ok _ _ w1 s w1)
      by (unfold the_session; subst w1; cbn; by rewrite Hsession).
    by rewrite (bind_ok _ _ w1 tt (set_trace (trace w1 ++ [SetState s t]) w1)). }
  assert (self_session w2 = Some s
                ∧ node_status_request w2 = node_status_request w
                ∧ sent (trace w2) = sent (trace w)) as (Hsession2 & Hpending2 & Hsent2).
  { subst w2 w1. destruct (t <=? _); cbn; rewrite ?sent_app; cbn;
      by rewrite ?app_nil_r. }
  clearbody w2. clear w1.
  replace (t =? EventTypes_value EventTypes.DEFINITION_STATE) with false
    by (symmetry; by apply Z.eqb_neq).
  rewrite Z.eqb_refl. cbv iota.
  rewrite (bind_ok _ _ w2 (handler_threads w2) w2) by done.
  set (w3 := if 1 <? handler_threads w2
             then set_trace (trace w2 ++ [Sleep 2000]) w2 else w2).
  rewrite (bind_ok _ _ w2 tt w3) by (subst w3; by destruct (1 <? _)).
  assert (self_session w3 = Some s
                ∧ node_status_request w3 = node_status_request w
                ∧ sent (trace w3) = sent (trace w)) as (Hsession3 & Hpending3 & Hsent3).
  { subst w3. destruct (1 <? _); cbn; rewrite ?sent_app; cbn;
      by rewrite ?app_nil_r. }
  clearbody w3.
  rewrite (bind_ok _ _ w3 s w3) by (unfold the_session; by rewrite Hsession3).
  set (w4 := set_trace (trace w3 ++ [Invoke (Some s) "instantiate" []]) w3).
  rewrite (bind_ok _ _ w3 tt w4) by done.
  set (w5 := set_trace (trace w4 ++ [SessionNodes s]) w4).
  rewrite (bind_ok _ _ w4 ids w5) by (unfold call; by rewrite Hids).
  destruct (for_each_send_node_emulation_id ids Hnodup w5)
    as (w' & Hrun & Hsent & Hrest).
  exists w'. split; [by rewrite (bind_ok _ _ w5 tt w') by done|].
  split; [|split].
  - rewrite Hsent. subst w5 w4. cbn. rewrite !sent_app. cbn.
    by rewrite !app_nil_r, Hsent3, Hpending3.
  - intros id. rewrite Hrest. subst w5 w4. cbn. by rewrite Hpending3.
  - destruct (emits_for_each (λ _, True) ids
                (send_node_emulation_id oracle self)
                (λ id, emits_weaken _ _ _ (λ _ _, I)
                         (emits_send_node_emulation_id id))
                _ _ _ Hrun) as (added & -> & _).
    subst w5 w4. cbn. rewrite !elem_of_app. left. left. right.
    apply elem_of_cons. by left.
Qed.

(** ** Which exceptions leave the handlers *)

Section Raises.
Context {A : Type} (P : exn_class → Prop).

Lemma raises_ret (a : A) : raises P (mret a).
Proof. by intros w e w'. Qed.

Lemma raises_raise c msg : P c → raises P (raise c msg : M A).
Proof. by intros Hc w e w' [= <- <-]. Qed.

Lemma raises_out_of_fuel : raises P (out_of_fuel : M A).
Proof. by intros w e w'. Qed.

Lemma raises_gets (f : World → A) : raises P (gets f).
Proof. by intros w e w'. Qed.

Lemma raises_call c : raises P (call oracle c).
Proof. by intros w e w'. Qed.

Lemma raises_bind {B} (m : M B) (f : B → M A) :
  raises P m → (∀ b, raises P (f b)) → raises P (m ≫= f).
Proof.
  intros Hm Hf w e w'. unfold mbind, M_bind.
  destruct (m w) as [[b|e0|] w1] eqn:Hrun.
  - apply Hf.
  - intros [= <- <-]. by eapply Hm.
  - done.
Qed.

Lemma raises_fmap {B} (g : B → A) (m : M B) : raises P m → raises P (g <$> m).
Proof.
  intros Hm w e w'. unfold fmap, M_fmap.
  destruct (m w) as [[b|e0|] w1] eqn:Hrun; [done| |done].
  intros [= <- <-]. by eapply Hm.
Qed.

(** What [m] raises outside of [classes] and what the handler raises. *)
Lemma raises_try_except (m : M A) classes (h : exn → M A) :
  raises (λ c, existsb (exn_class_eqb c) classes = false → P c) m →
  (∀ e, raises P (h e)) →
  raises P (try_except m classes h).
Proof.
  intros Hm Hh w e w'. unfold try_except.
  destruct (m w) as [[a|e0|] w1] eqn:Hrun; [done| |done].
  destruct (existsb _ _) eqn:Hcaught.
  - apply Hh.
  - intros [= <- <-]. by eapply Hm.
Qed.

End Raises.

Section RaisesUnit.
Context (P : exn_class → Prop).

Lemma raises_effect c : raises P (effect c).
Proof. by intros w e w'. Qed.

Lemma raises_log lvl fmt : raises P (log lvl fmt).
Proof. by intros w e w'. Qed.

Lemma raises_sleep ms : raises P (sleep ms).
Proof. by intros w e w'. Qed.

Lemma raises_modify f : raises P (modify f).
Proof. by intros w e w'. Qed.

Lemma raises_session_attr {X} l (f : Session.t → X) : raises P (session_attr l f).
Proof. by intros w e w'. Qed.

Lemma raises_session_assign l f : raises P (session_assign l f).
Proof. by intros w e w'. Qed.

Lemma raises_the_session : P AttributeError → raises P the_session.
Proof.
  intros HP w e w'. unfold the_session.
  destruct (self_session w); [done|]. by intros [= <- <-].
Qed.

Lemma raises_when b m : raises P m → raises P (when b m).
Proof. destruct b; [done|]. intros _. apply raises_ret. Qed.

Lemma raises_for_each {X} (l : list X) body :
  (∀ x, raises P (body x)) → raises P (for_each l body).
Proof.
  intros Hbody. induction l as [|x l IH]; cbn [for_each].
  - apply raises_ret.
  - apply raises_bind; [apply Hbody | by intros _].
Qed.

Lemma raises_for_enumerate {X} (l : list X) body : ∀ start,
  (∀ i x, raises P (body i x)) → raises P (for_enumerate start l body).
Proof.
  induction l as [|x l IH]; intros start Hbody; cbn [for_enumerate].
  - apply raises_ret.
  - apply raises_bind; [apply Hbody | intros _; by apply IH].
Qed.

Lemma raises_mapM {X Y} (f : X → M Y) (l : list X) :
  (∀ x, raises P (f x)) → raises P (mapM f l).
Proof.
  intros Hf. induction l as [|x l IH]; cbn [mapM].
  - apply raises_ret.
  - apply raises_bind; [apply Hf|]. intros y.
    apply raises_bind; [apply IH|]. intros ys. apply raises_ret.
Qed.

Lemma raises_sendall_on client data :
  P IOError → raises P (sendall_on oracle client data).
Proof.
  intros HP. unfold sendall_on.
  apply raises_bind; [apply (raises_call _ (Sendall client data))|].
  intros []; [apply raises_ret | by apply raises_raise].
Qed.

End RaisesUnit.

Create HintDb raises discriminated.

#[local] Hint Resolve raises_ret raises_out_of_fuel raises_gets
  raises_effect raises_log raises_sleep raises_modify raises_session_attr
  raises_session_assign : raises.

#[local] Hint Extern 1 (raises _ (call _ ?c)) => apply (raises_call _ c) : raises.

(** The class of a [raise] is in the set at hand. *)
Ltac raises_leaf :=
  cbn [existsb exn_class_eqb orb]; unfold no_socket_or_key_error, no_socket_error;
  repeat (let H := fresh in intros H; try discriminate H);
  repeat split; discriminate.

#[local] Hint Extern 1 (raises _ (raise _ _)) =>
  apply raises_raise; raises_leaf : raises.
#[local] Hint Extern 1 (raises _ the_session) =>
  apply raises_the_session; raises_leaf : raises.

(** Break a handler down into its [raise]s. *)
Ltac raises_step :=
  first
    [ solve [auto 1 with raises]
    | match goal with |- raises _ (_ <$> _) => apply raises_fmap end
    | match goal with |- raises _ (_ ≫= _) => apply raises_bind; [|intros ?] end
    | apply raises_when
    | apply raises_for_each; intros ?
    | apply raises_for_enumerate; intros ? ?
    | apply raises_mapM; intros ?
    | apply raises_try_except; [|intros ?]
    | match goal with
      | |- raises _ (if ?b then _ else _) => destruct b
      | |- raises _ (match ?x with _ => _ end) => destruct x
      end
    | progress cbv zeta
    | progress unfold enum_of, MessageTypes_of, EventTypes_of, ConfigFlags_of,
        NodeTypes_of, optional_float, as_str, subscript, int_of, float_of,
        iterable, interface_node_id, get_node, node_method, queue_message,
        set_configs_from ].

Ltac raises_all := repeat raises_step.

(** A failed write of the emulation id is logged, not raised. *)
Lemma raises_send_node_emulation_id P node_id :
  raises P (send_node_emulation_id oracle self node_id).
Proof.
  unfold send_node_emulation_id. raises_all.
  unfold sendall. apply raises_sendall_on. by cbn.
Qed.

#[local] Hint Resolve raises_send_node_emulation_id : raises.

Lemma raises_handle_broadcast_config P config_data :
  raises P (handle_broadcast_config oracle self config_data).
Proof.
  unfold handle_broadcast_config. raises_all.
  unfold sendall. apply raises_sendall_on. by cbn.
Qed.

#[local] Hint Resolve raises_handle_broadcast_config : raises.

Lemma raises_handle_node_message message :
  raises no_socket_or_key_error (handle_node_message oracle self message).
Proof. unfold handle_node_message. raises_all. Qed.

Lemma raises_handle_execute_message message :
  raises no_socket_or_key_error (handle_execute_message oracle message).
Proof. unfold handle_execute_message. raises_all. Qed.

Lemma raises_handle_event_message message :
  raises no_socket_error (handle_event_message oracle self message).
Proof. unfold handle_event_message. raises_all. Qed.

Lemma raises_config_dispatch message_type config_data :
  raises no_socket_error (config_dispatch oracle message_type config_data).
Proof.
  unfold config_dispatch, handle_config_mobility_models, handle_config_emane_models,
    handle_config_all, handle_config_session, handle_config_location,
    handle_config_metadata, handle_config_broker, handle_config_services,
    handle_config_mobility, handle_config_models, handle_config_emane.
  raises_all.
Qed.

#[local] Hint Resolve raises_config_dispatch : raises.

Lemma raises_handle_config_message message :
  raises no_socket_error (handle_config_message oracle self message).
Proof. unfold handle_config_message. raises_all. Qed.

Lemma raises_handle_session_message message :
  raises no_socket_error (handle_session_message oracle self message).
Proof.
  unfold handle_session_message, session_modify, session_join_or_delete.
  raises_all.
Qed.

Lemma raises_weaken {A} (P Q : exn_class → Prop) (m : M A) :
  (∀ c, P c → Q c) → raises P m → raises Q m.
Proof. intros HPQ Hm w e w' Hrun. apply HPQ. by eapply Hm. Qed.

Lemma no_socket_or_key_error_no_socket_error c :
  no_socket_or_key_error c → no_socket_error c.
Proof. intros (? & ? & ?). by split. Qed.

(** X10.  No error of a socket leaves the handlers of NODE, EXECUTE,
    CONFIG, EVENT and SESSION messages: whatever the message and
    whatever becomes of the writes to the client, the exception a
    handler ends with, if any, is neither IOError nor EOFError.  A
    failed write of a reply is logged where it happens. *)
Theorem handlers_raise_no_socket_error message :
  raises no_socket_error (handle_node_message oracle self message)
  ∧ raises no_socket_error (handle_execute_message oracle message)
  ∧ raises no_socket_error (handle_config_message oracle self message)
  ∧ raises no_socket_error (handle_event_message oracle self message)
  ∧ raises no_socket_error (handle_session_message oracle self message).
Proof.
  split; [|split; [|split; [|split]]].
  - eapply raises_weaken; [apply no_socket_or_key_error_no_socket_error|].
    apply raises_handle_node_message.
  - eapply raises_weaken; [apply no_socket_or_key_error_no_socket_error|].
    apply raises_handle_execute_message.
  - apply raises_handle_config_message.
  - apply raises_handle_event_message.
  - apply raises_handle_session_message.
Qed.

(** X11.  [handle_execute_message] never ends with KeyError: the
    KeyError of [session.get_node] for a node the session does not
    know is caught inside the handler, and nothing else in it raises
    one, not even the requeuing of the message. *)
Theorem handle_execute_message_no_key_error message :
  raises (λ c, c ≠ KeyError) (handle_execute_message oracle message).
Proof.
  eapply raises_weaken; [|apply raises_handle_execute_message].
  by intros c (_ & _ & ?).
Qed.

(** ** [dispatch_replies] and [handle_message] *)

(** One turn of the loop of [dispatch_replies]. *)
Lemma dispatch_reply_run reply w :
  ∃ added,
    (let '(message_type, message_flags, message_length) := unpack_header reply in
     let reply_message :=
       CLASS_MAP_unpack message_type message_flags
         (take (Z.to_nat header_len) reply) (drop (Z.to_nat header_len) reply) in
     log DEBUG "dispatch reply: %s";;
     try_except (sendall oracle self reply) [IOError]
       (λ _, log EXCEPTION_LEVEL "error dispatching reply")) w
    = (Ok tt, set_trace (trace w ++ added) w)
    ∧ sent added = [(self, reply)].
Proof.
  destruct (unpack_header reply) as [[message_type message_flags] message_length].
  cbv zeta.
  rewrite (bind_ok _ _ w tt (set_trace (trace w ++ [Log DEBUG "dispatch reply: %s"]) w))
    by done.
  unfold try_except, sendall, sendall_on, call, mbind, M_bind.
  cbn [trace set_trace].
  destruct (oracle _ (Sendall self reply)).
  - exists [Log DEBUG "dispatch reply: %s"; Sendall self reply].
    split; [|done]. cbn. by rewrite <- !app_assoc.
  - exists [Log DEBUG "dispatch reply: %s"; Sendall self reply;
            Log EXCEPTION_LEVEL "error dispatching reply"].
    split; [|done]. unfold raise, log, effect. cbn. by rewrite <- !app_assoc.
Qed.

Lemma dispatch_replies_run replies message w :
  ∃ added,
    dispatch_replies oracle self replies message w
    = (if all_bytes replies then Ok tt
       else Raise (Exn TypeError "'NoneType' object is not subscriptable"),
       set_trace (trace w ++ added) w)
    ∧ sent added = (λ reply, (self, reply)) <$> replies_before_none replies.
Proof.
  unfold dispatch_replies.
  rewrite (bind_ok _ _ w tt
             (set_trace (trace w ++ [Log DEBUG "dispatching replies: %s"]) w))
    by done.
  match goal with |- context [for_each replies ?b] => set (body := b) end.
  assert (Hbody : ∀ reply w, ∃ added,
             body (Some reply) w = (Ok tt, set_trace (trace w ++ added) w)
             ∧ sent added = [(self, reply)])
    by (intros; apply dispatch_reply_run).
  assert (Hnone : ∀ w, body None w
                       = (Raise (Exn TypeError "'NoneType' object is not subscriptable"), w))
    by done.
  clearbody body.
  cut (∀ w, ∃ added,
         for_each replies body w
         = (if all_bytes replies then Ok tt
            else Raise (Exn TypeError "'NoneType' object is not subscriptable"),
            set_trace (trace w ++ added) w)
         ∧ sent added = (λ reply, (self, reply)) <$> replies_before_none replies).
  { intros Hloop.
    destruct (Hloop (set_trace (trace w ++ [Log DEBUG "dispatching replies: %s"]) w))
      as (added & Hrun & Hsent).
    exists (Log DEBUG "dispatching replies: %s" :: added). split; [|done].
    etransitivity; [exact Hrun|].
    rewrite set_trace_set_trace. cbn [trace set_trace]. by rewrite <- app_assoc. }
  clear w. induction replies as [|[reply|] replies IH]; intros w.
  - exists []. rewrite app_nil_r. by destruct w.
  - cbn [for_each all_bytes forallb replies_before_none andb].
    destruct (Hbody reply w) as (first & Hfirst & Hsent).
    rewrite (bind_ok _ _ _ _ _ Hfirst).
    destruct (IH (set_trace (trace w ++ first) w)) as (rest & Hrest & Hsent').
    rewrite Hrest. exists (first ++ rest). split.
    + rewrite set_trace_set_trace. cbn [trace set_trace]. by rewrite app_assoc.
    + by rewrite sent_app, Hsent, Hsent'.
  - cbn [for_each all_bytes forallb replies_before_none andb].
    rewrite (bind_raise _ _ _ _ _ (Hnone w)).
    exists []. rewrite app_nil_r. by destruct w.
Qed.


(** X13.  What [handle_message] does with a message that the broker
    leaves to the handler and whose type has a handler in
    [message_handlers].  When the handler returns its replies, they
    are written to the socket of the handler itself, in order, up to
    the first reply that is [None] (where [dispatch_replies] raises,
    which is logged), and nothing else is written after the handler
    has returned.  When the handler raises, whatever the exception,
    nothing is written any more and the exception is logged.  In both
    cases [handle_message] returns normally. *)
Theorem handle_message_dispatches message_handlers broker_handle_message
    message (message_handler : CoreMessage → M (list (option bytes))) w w1 :
  (session ← gets self_session;
   match session with
   | Some s => broker_handle_message s message
   | None => mret false
   end) w = (Ok false, w1) →
  message_handlers !! message_type message = Some message_handler →
  let w2 := set_trace (trace w1 ++ [Log DEBUG "%s handling message: %s"]) w1 in
  match message_handler message w2 with
  | (Ok replies, w3) =>
      ∃ w', handle_message oracle self message_handlers broker_handle_message message w
            = (Ok tt, w')
        ∧ sent (trace w')
          = sent (trace w3) ++ ((λ reply, (self, reply)) <$> replies_before_none replies)
        ∧ set_trace (trace w3) w' = w3
  | (Raise e, w3) =>
      handle_message oracle self message_handlers broker_handle_message message w
      = (Ok tt,
         set_trace (trace w3
                    ++ [Log EXCEPTION_LEVEL "%s: exception while handling message: %s"])
           w3)
  | (OutOfFuel, w3) =>
      handle_message oracle self message_handlers broker_handle_message message w
      = (OutOfFuel, w3)
  end.
Proof.
  intros Hbroker Hhandler w2.
  assert (Hrun : handle_message oracle self message_handlers broker_handle_message
                   message w
                 = try_except_all
                     (replies ← message_handler message;
                      dispatch_replies oracle self replies message)
                     (λ _, log EXCEPTION_LEVEL "%s: exception while handling message: %s")
                     w2).
  { unfold handle_message.
    rewrite (bind_ok _ _ w (self_session w) w) in Hbroker by done.
    rewrite (bind_ok _ _ w (self_session w) w) by done.
    rewrite (bind_ok _ _ w false w1) by done.
    rewrite (bind_ok _ _ w1 tt w2) by done.
    by rewrite Hhandler. }
  rewrite Hrun. unfold try_except_all.
  destruct (message_handler message w2) as [[replies|e|] w3] eqn:Hhandled.
  - rewrite (bind_ok _ _ w2 replies w3) by done.
    destruct (dispatch_replies_run replies message w3) as (added & -> & Hsent).
    destruct (all_bytes replies).
    + eexists. split; [done|]. split.
      * cbn. by rewrite sent_app, Hsent.
      * rewrite set_trace_set_trace. by destruct w3.
    + eexists. split; [done|]. split.
      * cbn. by rewrite !sent_app, Hsent, app_nil_r.
      * cbn. by destruct w3.
  - by rewrite (bind_raise _ _ w2 e w3) by done.
  - by rewrite (bind_out_of_fuel _ _ w2 w3) by done.
Qed.

(** X14.  [handle_message] hands a message to no handler, and writes
    nothing to the client, when the broker of the session has taken
    it, or when [message_handlers] has no handler for its type: the
    only thing it does after the broker has answered is to log. *)
Theorem handle_message_drops message_handlers broker_handle_message
    message w handled w1 :
  (session ← gets self_session;
   match session with
   | Some s => broker_handle_message s message
   | None => mret false
   end) w = (Ok handled, w1) →
  handled = true ∨ message_handlers !! message_type message = None →
  ∃ added,
    handle_message oracle self message_handlers broker_handle_message message w
    = (Ok tt, set_trace (trace w1 ++ added) w1)
    ∧ Forall (λ c, ∃ lvl fmt, c = Log lvl fmt) added.
Proof.
  intros Hbroker Hdrop. unfold handle_message.
  rewrite (bind_ok _ _ w (self_session w) w) in Hbroker by done.
  rewrite (bind_ok _ _ w (self_session w) w) by done.
  rewrite (bind_ok _ _ w handled w1) by done.
  destruct handled.
  - eexists [_]. split; [done|]. repeat constructor. by eexists _, _.
  - destruct Hdrop as [|Hnone]; [done|].
    rewrite (bind_ok _ _ w1 tt
               (set_trace (trace w1 ++ [Log DEBUG "%s handling message: %s"]) w1))
      by done.
    rewrite Hnone. eexists [_; _]. split.
    + unfold log, effect. cbn. by rewrite <- app_assoc.
    + repeat constructor; by eexists _, _.
Qed.

(** ** [finish] *)

Lemma slept_app t t' : slept (t ++ t') = slept t + slept t'.
Proof.
  induction t as [|c t IH]; [done|].
  change (slept ((c :: t) ++ t'))
    with (match c with Sleep ms => ms + slept (t ++ t') | _ => slept (t ++ t') end).
  change (slept (c :: t))
    with (match c with Sleep ms => ms + slept t | _ => slept t end).
  rewrite IH. destruct c; lia.
Qed.

Lemma slept_no_sleep added : Forall no_sleep added → slept added = 0.
Proof. induction 1 as [|c added Hc _ IH]; [done|]. by destruct c. Qed.

(** The loop that waits for the queue ends within ten turns, having
    slept one second a turn. *)
Lemma wait_for_queue_bounded turns : ∀ wait w,
  0 ≤ wait < 10 →
  10 - wait ≤ Z.of_nat turns →
  ∃ added,
    wait_for_queue oracle turns wait w = (Ok tt, set_trace (trace w ++ added) w)
    ∧ 0 ≤ slept added ≤ 1000 * (10 - wait).
Proof.
  induction turns as [|turns IH]; intros wait w Hwait Hturns; [lia|].
  cbn [wait_for_queue].
  set (poll := Ask None "message_queue.empty" []).
  set (w1 := set_trace (trace w ++ [poll]) w).
  rewrite (bind_ok _ _ w (oracle (trace w) poll) w1) by done.
  destruct (truthy _).
  - exists [poll]. split; [done|]. subst poll. cbn. lia.
  - set (waiting := Log DEBUG "waiting for message queue to empty: %s seconds").
    set (w2 := set_trace (trace w1 ++ [waiting]) w1).
    rewrite (bind_ok _ _ w1 tt w2) by done.
    set (w3 := set_trace (trace w2 ++ [Sleep 1000]) w2).
    rewrite (bind_ok _ _ w2 tt w3) by done.
    cbv zeta. destruct (wait + 1 =? 10) eqn:Hlast.
    + exists [poll; waiting; Sleep 1000;
              Log WARNING "queue failed to be empty, finishing request handler"].
      split; [|subst poll waiting; cbn; lia].
      subst w3 w2 w1. unfold log, effect. cbn. by rewrite <- !app_assoc.
    + apply Z.eqb_neq in Hlast.
      destruct (IH (wait + 1) w3) as (added & -> & Hslept); [lia..|].
      exists ([poll; waiting; Sleep 1000] ++ added). split.
      * subst w3 w2 w1. cbn. by rewrite <- !app_assoc.
      * rewrite slept_app. subst poll waiting. cbn. lia.
Qed.

(** The loop that joins the handler threads. *)
Lemma join_threads_run threads : ∀ w,
  ∃ added,
    for_each threads (λ thread : Z,
      log INFO "waiting for thread: %s";;
      effect (Invoke None "thread.join" [AZ thread; AZ 10]);;
      alive ← call oracle (Ask None "thread.isAlive" [AZ thread]);
      when (truthy alive)
        (log WARNING "joining %s failed: still alive after %s sec")) w
    = (Ok tt, set_trace (trace w ++ added) w)
    ∧ Forall no_sleep added.
Proof.
  induction threads as [|thread threads IH]; intros w.
  - exists []. rewrite app_nil_r. by destruct w.
  - cbn [for_each].
    set (c1 := Log INFO "waiting for thread: %s").
    set (c2 := Invoke None "thread.join" [AZ thread; AZ 10]).
    set (c3 := Ask None "thread.isAlive" [AZ thread]).
    set (w1 := set_trace (trace w ++ [c1]) w).
    set (w2 := set_trace (trace w1 ++ [c2]) w1).
    set (w3 := set_trace (trace w2 ++ [c3]) w2).
    assert (∃ first,
              (log INFO "waiting for thread: %s";;
               effect c2;;
               alive ← call oracle c3;
               when (truthy alive)
                 (log WARNING "joining %s failed: still alive after %s sec")) w
              = (Ok tt, set_trace (trace w ++ first) w)
              ∧ Forall no_sleep first) as (first & Hfirst & Hquiet).
    { rewrite (bind_ok _ _ w tt w1) by done.
      rewrite (bind_ok _ _ w1 tt w2) by done.
      rewrite (bind_ok _ _ w2 (oracle (trace w2) c3) w3) by done.
      destruct (truthy _).
      - exists [c1; c2; c3; Log WARNING "joining %s failed: still alive after %s sec"].
        split; [|by repeat constructor].
        subst w3 w2 w1. unfold when, log, effect. cbn. by rewrite <- !app_assoc.
      - exists [c1; c2; c3]. split; [|by repeat constructor].
        subst w3 w2 w1. cbn. by rewrite <- !app_assoc. }
    rewrite (bind_ok _ _ _ _ _ Hfirst).
    destruct (IH (set_trace (trace w ++ first) w)) as (rest & -> & Hquiet').
    exists (first ++ rest). split.
    + rewrite set_trace_set_trace. cbn [trace set_trace]. by rewrite app_assoc.
    + by apply Forall_app.
Qed.

(** [finish] up to the test of [self.session]. *)
Lemma finish_waits turns w :
  (10 ≤ turns)%nat →
  ∃ added,
    finish oracle self turns w
    = finish_session oracle self (set_trace (trace w ++ added) w)
    ∧ 0 ≤ slept added ≤ 10000.
Proof.
  intros Hturns. unfold finish.
  set (c1 := Log DEBUG "finishing request handler").
  set (c2 := Log DEBUG "remaining message queue size: %s").
  set (w1 := set_trace (trace w ++ [c1; c2]) w).
  rewrite (bind_ok _ _ w tt (set_trace (trace w ++ [c1]) w)) by done.
  rewrite (bind_ok _ _ _ tt w1)
    by (subst w1; unfold log, effect; cbn; by rewrite <- app_assoc).
  destruct (wait_for_queue_bounded turns 0 w1) as (waited & Hwait & Hslept); [lia..|].
  rewrite (bind_ok _ _ _ _ _ Hwait).
  set (c3 := Log INFO "client disconnected: notifying threads").
  set (c4 := Invoke None "self.done = True" []).
  set (w2 := set_trace (trace w1 ++ waited ++ [c3; c4]) w1).
  rewrite (bind_ok _ _ _ tt (set_trace (trace w1 ++ waited ++ [c3]) w1))
    by (unfold log, effect; cbn; by rewrite <- !app_assoc).
  rewrite (bind_ok _ _ _ tt w2)
    by (subst w2; unfold log, effect; cbn; by rewrite <- !app_assoc).
  rewrite (bind_ok _ _ w2 (handler_threads w2) w2) by done.
  destruct (join_threads_run (seqZ 0 (handler_threads w2)) w2)
    as (joined & Hjoin & Hquiet).
  rewrite (bind_ok _ _ _ _ _ Hjoin).
  set (c5 := Log INFO "connection closed: %s").
  rewrite (bind_ok _ _ _ tt (set_trace (trace w2 ++ joined ++ [c5]) w2))
    by (unfold log, effect; cbn; by rewrite <- !app_assoc).
  exists ([c1; c2] ++ waited ++ [c3; c4] ++ joined ++ [c5]). split.
  - subst w2 w1. unfold finish_session. cbn [trace set_trace].
    rewrite !set_trace_set_trace. by rewrite <- !app_assoc.
  - rewrite !slept_app, (slept_no_sleep joined) by done. subst c1 c2 c3 c4 c5. cbn. lia.
Qed.

Lemma emits_finish_session : emits no_sleep (finish_session oracle self).
Proof. unfold finish_session. emits_all. Qed.

(** What the end of [finish] does to the session of the handler. *)
Lemma finish_session_run w s rest active :
  self_session w = Some s →
  list_remove self (Session.session_clients (heap w s)) = Some rest →
  (∀ t, oracle t (IsActive s) = active) →
  ∃ w', finish_session oracle self w = (Ok tt, w')
    ∧ self_session w' = Some s
    ∧ heap w' = heap_update s (Session.set_session_clients rest) (heap w)
    ∧ coreemu_sessions w'
      = if bool_decide (rest = []) && negb active
        then delete (Session.id (heap w s)) (coreemu_sessions w)
        else coreemu_sessions w.
Proof.
  intros Hsession Hremove Hactive. unfold finish_session.
  rewrite (bind_ok _ _ w (Some s) w) by (unfold gets; by rewrite Hsession).
  set (c1 := Invoke None "self.remove_session_handlers" []).
  set (w1 := set_trace (trace w ++ [c1]) w).
  set (w2 := set_heap (heap_update s (Session.set_session_clients rest) (heap w1)) w1).
  assert (Hid : Session.id (heap w2 s) = Session.id (heap w s)).
  { subst w2 w1. cbn. unfold heap_update. by rewrite Nat.eqb_refl. }
  assert (Hstart : ∀ k : unit → M unit,
            (effect c1;;
             clients ← session_attr s Session.session_clients;
             match list_remove self clients with
             | None => raise ValueError "list.remove(x): x not in list"
             | Some clients =>
                 session_assign s (Session.set_session_clients clients);;
                 match clients with
                 | [] =>
                     active ← call oracle (IsActive s);
                     if active : bool then mret tt
                     else
                       log INFO "no session clients left and not active, initiating shutdown";;
                       session_id ← session_attr s Session.id;
                       effect (DeleteSession session_id);;
                       modify (λ w, set_coreemu_sessions
                                      (delete session_id (coreemu_sessions w)) w)
                 | _ => mret tt
                 end
             end) w
            = match rest with
              | [] =>
                  (active ← call oracle (IsActive s);
                   if active : bool then mret tt
                   else
                     log INFO "no session clients left and not active, initiating shutdown";;
                     session_id ← session_attr s Session.id;
                     effect (DeleteSession session_id);;
                     modify (λ w, set_coreemu_sessions
                                    (delete session_id (coreemu_sessions w)) w)) w2
              | _ => (Ok tt, w2)
              end).
  { intros _.
    rewrite (bind_ok _ _ w tt w1) by done.
    rewrite (bind_ok _ _ w1 (Session.session_clients (heap w s)) w1) by done.
    rewrite Hremove.
    rewrite (bind_ok _ _ w1 tt w2) by done.
    by destruct rest. }
  specialize (Hstart (λ _, mret tt)).
  set (w3 := set_trace (trace w2 ++ [IsActive s]) w2).
  destruct rest as [|client rest]; [destruct active|].
  - eexists. split.
    + erewrite bind_ok; [reflexivity|]. rewrite Hstart.
      by rewrite (bind_ok _ _ w2 true w3) by (unfold call; by rewrite Hactive).
    + done.
  - eexists. split.
    + erewrite bind_ok; [reflexivity|]. rewrite Hstart.
      rewrite (bind_ok _ _ w2 false w3) by (unfold call; by rewrite Hactive).
      rewrite (bind_ok _ _ w3 tt _) by reflexivity.
      rewrite (bind_ok _ _ _ (Session.id (heap w s)) _)
        by (unfold session_attr, gets; subst w3; cbn [heap set_trace]; by rewrite Hid).
      by rewrite (bind_ok _ _ _ tt _) by reflexivity.
    + done.
  - eexists. split.
    + erewrite bind_ok; [reflexivity|]. by rewrite Hstart.
    + done.
Qed.

(** X15.  [finish] does not wait for the message queue for ever: it
    ends, with or without an exception, and has then slept for ten
    seconds at most, however long the handler threads leave messages
    in the queue.  (The sleeps are those of [time.sleep]; the timed
    joins of the handler threads are calls of their own.) *)
Theorem finish_waits_ten_seconds_at_most turns w :
  (10 ≤ turns)%nat →
  ∃ r w', finish oracle self turns w = (r, w')
    ∧ r ≠ OutOfFuel
    ∧ slept (trace w) ≤ slept (trace w') ≤ slept (trace w) + 10000.
Proof.
  intros Hturns.
  destruct (finish_waits turns w Hturns) as (added & -> & Hslept).
  destruct (finish_session oracle self (set_trace (trace w ++ added) w))
    as [r w'] eqn:Hrun.
  exists r, w'. split; [done|]. split.
  - intros ->. revert Hrun. unfold finish_session.
    unfold mbind, M_bind, gets, session_attr, session_assign, modify, effect,
      log, call, raise, gets, mret, M_ret.
    cbn [self_session set_trace].
    destruct (self_session w) as [s|]; [|done].
    cbn [heap set_trace].
    destruct (list_remove self _) as [[|client rest]|]; [|done..].
    cbn [trace set_heap set_trace].
    by destruct (oracle _ (IsActive s)).
  - destruct (emits_finish_session _ _ _ Hrun) as (rest & -> & Hquiet).
    cbn [trace set_trace].
    rewrite !slept_app, (slept_no_sleep rest) by done. lia.
Qed.

(** X16.  When the handler has a session and is among the clients of
    its broker, [finish] ends normally and takes the handler off the
    list of clients, once; the session is deleted from the emulator
    exactly when no client is left and the session is not active.
    The handler keeps pointing to the session. *)
Theorem finish_leaves_session turns w s rest active :
  (10 ≤ turns)%nat →
  self_session w = Some s →
  list_remove self (Session.session_clients (heap w s)) = Some rest →
  (∀ t, oracle t (IsActive s) = active) →
  ∃ w', finish oracle self turns w = (Ok tt, w')
    ∧ self_session w' = Some s
    ∧ Session.session_clients (heap w' s) = rest
    ∧ (∀ s', s' ≠ s → heap w' s' = heap w s')
    ∧ coreemu_sessions w'
      = if bool_decide (rest = []) && negb active
        then delete (Session.id (heap w s)) (coreemu_sessions w)
        else coreemu_sessions w.
Proof.
  intros Hturns Hsession Hremove Hactive.
  destruct (finish_waits turns w Hturns) as (added & -> & _).
  destruct (finish_session_run (set_trace (trace w ++ added) w) s rest active)
    as (w' & Hrun & Hsession' & Hheap & Hsessions); [done..|].
  exists w'. split; [done|]. split; [done|]. rewrite Hheap. cbn [heap set_trace].
  split; [|split; [|done]].
  - unfold heap_update. by rewrite Nat.eqb_refl.
  - intros s' Hs'. unfold heap_update.
    by rewrite (proj2 (Nat.eqb_neq s' s)).
Qed.

(** ** Which CONFIG messages are answered *)

Section Returns.
Context {A : Type} (Q : A → Prop).

Lemma returns_ret (a : A) : Q a → returns Q (mret a).
Proof. by intros Ha w a' w' [= <- <-]. Qed.

Lemma returns_raise c msg : returns Q (raise c msg : M A).
Proof. by intros w a w'. Qed.

Lemma returns_bind {B} (m : M B) (f : B → M A) :
  (∀ b, returns Q (f b)) → returns Q (m ≫= f).
Proof.
  intros Hf w a w'. unfold mbind, M_bind.
  destruct (m w) as [[b|e|] w1]; [apply Hf|done..].
Qed.

End Returns.

Ltac returns_step :=
  first
    [ apply returns_raise
    | apply returns_ret; solve [by left | by right]
    | match goal with |- returns _ (_ ≫= _) => apply returns_bind; intros ? end
    | match goal with
      | |- returns _ (if ?b then _ else _) => destruct b
      | |- returns _ (match ?x with _ => _ end) => destruct x
      end
    | progress cbv zeta ].

Lemma emits_bind_returns {A B} P (Q : A → Prop) (m : M A) (f : A → M B) :
  emits P m → returns Q m → (∀ a, Q a → emits P (f a)) → emits P (m ≫= f).
Proof.
  intros Hm HQ Hf w r w'. unfold mbind, M_bind.
  destruct (m w) as [[a|e|] w1] eqn:Hrun.
  - intros Hrest. destruct (Hm _ _ _ Hrun) as (first & Hfirst & HP).
    destruct (Hf a (HQ _ _ _ Hrun) _ _ _ Hrest) as (rest & Hrest' & HP').
    exists (first ++ rest). split; [by rewrite Hrest', Hfirst, app_assoc|].
    by apply Forall_app.
  - intros [= <- <-]. eauto.
  - intros [= <- <-]. eauto.
Qed.

(** No CONFIG handler writes to a socket itself. *)
Lemma emits_no_send_config_dispatch message_type config_data :
  emits no_send (config_dispatch oracle message_type config_data).
Proof.
  unfold config_dispatch, handle_config_mobility_models, handle_config_emane_models,
    handle_config_all, handle_config_session, handle_config_location,
    handle_config_metadata, handle_config_broker, handle_config_services,
    handle_config_mobility, handle_config_models, handle_config_emane,
    set_configs_from, get_node.
  emits_all.
  apply emits_mapM. intros. apply emits_float_of.
Qed.

(** A CONFIG handler has replies for a REQUEST only. *)
Lemma returns_config_dispatch message_type config_data :
  is_flag message_type ConfigFlags.REQUEST = false →
  returns no_reply (config_dispatch oracle message_type config_data).
Proof.
  intros Hrequest.
  unfold config_dispatch, handle_config_mobility_models, handle_config_emane_models,
    handle_config_all, handle_config_session, handle_config_location,
    handle_config_metadata, handle_config_broker, handle_config_services,
    handle_config_mobility, handle_config_models, handle_config_emane.
  rewrite !Hrequest.
  repeat returns_step.
Qed.

(** X18.  Only a CONFIG message of type REQUEST is answered: while a
    CONFIG message of any other type is handled, whatever object it
    configures and whether or not it is handled with success, nothing
    is written to any socket. *)
Theorem handle_config_message_answers_requests_only message t :
  get_tlv message ConfigTlvs.TYPE = Some (VInt t) →
  t ≠ ConfigFlags_value ConfigFlags.REQUEST →
  emits no_send (handle_config_message oracle self message).
Proof.
  intros Htype Ht. unfold handle_config_message. cbv zeta.
  apply emits_bind; [by apply emits_log|]. intros _.
  unfold config_data_of. cbn [ConfigData.type]. rewrite Htype.
  unfold ConfigFlags_of, enum_of.
  destruct (is_ConfigFlags t); [|apply emits_bind_raise].
  apply emits_bind_ret.
  apply (emits_bind_returns _ no_reply).
  - apply emits_no_send_config_dispatch.
  - apply returns_config_dispatch. unfold is_flag. by apply Z.eqb_neq.
  - intros replies [->| ->]; [|apply emits_raise].
    cbn [for_each]. apply emits_bind; [apply emits_ret|]. intros _. apply emits_ret.
Qed.

(** ** The receive loop of [handle], message after message *)

Lemma receive_message_frame fuel w header chunks rest :
  rfile w = Chunk header :: (Chunk <$> chunks) ++ rest →
  len header = header_len →
  Forall (λ b, b ≠ []) chunks →
  len (concat chunks) = (unpack_header header).2 →
  (length chunks ≤ fuel)%nat →
  ∃ added,
    receive_message fuel w
    = (Ok (received_message header (concat chunks)),
       set_rfile rest (set_trace (trace w ++ added) w))
    ∧ sent added = [].
Proof.
  intros Hfile Hheader Hchunks Hlen Hfuel.
  unfold receive_message, received_message.
  set (w1 := set_rfile ((Chunk <$> chunks) ++ rest) w).
  rewrite (bind_ok _ _ w header w1).
  2:{ unfold try_except, recv. rewrite Hfile.
      by rewrite (proj2 (Z.leb_le _ _)) by lia. }
  rewrite (proj2 (Z.eqb_eq _ _) Hheader). cbn [negb].
  destruct (unpack_header header) as [[message_type message_flags] message_len].
  cbn [snd] in Hlen.
  set (warned := if message_len =? 0
                 then [Log WARNING "received message with no data"] else []).
  set (w2 := set_trace (trace w1 ++ warned) w1).
  rewrite (bind_ok _ _ w1 tt w2).
  2:{ subst w2 warned. destruct (message_len =? 0); [done|].
      cbn. rewrite app_nil_r. by destruct w. }
  rewrite (bind_ok _ _ w2 (concat chunks) (set_rfile rest w2))
    by (by apply (receive_body_complete message_len chunks rest fuel [] w2)).
  destruct (CLASS_MAP_unpack _ _ _ _).
  - exists warned. split; [done|]. subst warned. by destruct (message_len =? 0).
  - exists (warned ++ [Log EXCEPTION_LEVEL "unimplemented core message type: %s"]).
    split.
    + rewrite (bind_ok _ _ _ tt _) by reflexivity.
      cbn. by rewrite <- app_assoc.
    + rewrite sent_app. subst warned. by destruct (message_len =? 0).
Qed.

(** One turn of the loop on a complete message of a known type. *)
Lemma handle_iteration_frame fuel w f rest s :
  rfile w = frame_chunks f ++ rest →
  well_framed f →
  known_type f →
  (length f.2 ≤ fuel)%nat →
  self_session w = Some s →
  (∀ history client data, oracle history (Sendall client data) = true) →
  ∃ added,
    handle_iteration oracle self fuel w
    = (Ok Continue,
       set_message_queue (message_queue w ++ [frame_message f])
         (set_rfile rest (set_trace (trace w ++ added) w))).
Proof.
  intros Hfile (Hheader & Hchunks & Hlen) Hknown Hfuel Hsession Hok.
  destruct f as [header chunks]. cbn [fst snd] in *.
  destruct (receive_message_frame fuel w header chunks rest)
    as (received & Hrecv & _); [done..|].
  unfold handle_iteration, frame_message. cbn [fst snd].
  set (message := received_message header (concat chunks)) in *.
  set (w1 := set_rfile rest (set_trace (trace w ++ received) w)) in *.
  rewrite (bind_ok _ _ w (Some message) w1)
    by (unfold try_except, fmap, M_fmap; by rewrite Hrecv).
  cbv zeta.
  assert (Hknown' : is_MessageTypes (message_type (set_queuedtimes 0 message)) = true).
  { subst message. unfold received_message, known_type in *. cbn [fst] in Hknown.
    by destruct (unpack_header header) as [[message_type message_flags] message_len]. }
  rewrite (bind_ok _ _ _ _ _ (queue_message_known (set_queuedtimes 0 message) w1 Hknown')).
  rewrite message_type_set_queuedtimes, raw_message_set_queuedtimes.
  set (w2 := set_message_queue _ _).
  destruct (when_sleep (message_type message =? MessageTypes_value MessageTypes.SESSION)
              125 w2) as (slept & Hrun & _).
  rewrite (bind_ok _ _ _ _ _ Hrun).
  set (w3 := set_trace (trace w2 ++ slept) w2).
  destruct ((message_type message =? MessageTypes_value MessageTypes.NODE)
            || (message_type message =? MessageTypes_value MessageTypes.LINK)).
  - cbn [negb].
    rewrite (bind_ok _ _ w3 s w3) by (unfold the_session; cbn; by rewrite Hsession).
    rewrite (bind_ok _ _ w3 (Session.session_clients (heap w s)) w3) by done.
    destruct (mirror_to_others (raw_message message)
                (Session.session_clients (heap w s)) Hok w3)
      as (added & Hloop & _).
    rewrite (bind_ok _ _ _ _ _ Hloop).
    exists (received
            ++ [Log DEBUG "queueing msg (queuedtimes = %s): type %s"] ++ slept ++ added).
    subst w3 w2 w1. cbn. by rewrite <- !app_assoc.
  - cbn [negb].
    exists (received ++ [Log DEBUG "queueing msg (queuedtimes = %s): type %s"] ++ slept).
    subst w3 w2 w1. cbn. by rewrite <- !app_assoc.
Qed.

(** The turn of the loop in which the client has closed the connection. *)
Lemma handle_iteration_eof fuel w :
  rfile w = [] →
  0 < header_len →
  handle_iteration oracle self fuel w
  = (Ok Break, set_trace (trace w ++ [Log INFO "client disconnected"]) w).
Proof.
  intros Hfile Hlen. unfold handle_iteration.
  rewrite (bind_ok _ _ w None
             (set_trace (trace w ++ [Log INFO "client disconnected"]) w)); [done|].
  unfold try_except, fmap, M_fmap, receive_message.
  rewrite (bind_ok _ _ w [] w) by (unfold try_except, recv; by rewrite Hfile).
  change (len (@nil Byte.byte)) with 0.
  rewrite (proj2 (Z.eqb_neq 0 header_len)) by lia. done.
Qed.

(** The loop on a client that sends complete messages and then closes
    the connection. *)
Lemma handle_loop_frames frames : ∀ turns fuel w s,
  Forall well_framed frames →
  Forall known_type frames →
  Forall (λ f : frame, (length f.2 ≤ fuel)%nat) frames →
  rfile w = concat (frame_chunks <$> frames) →
  0 < header_len →
  self_session w = Some s →
  (∀ history client data, oracle history (Sendall client data) = true) →
  (length frames < turns)%nat →
  ∃ added,
    handle_loop oracle self turns fuel w
    = (Ok tt,
       set_message_queue (message_queue w ++ (frame_message <$> frames))
         (set_rfile [] (set_trace (trace w ++ added) w))).
Proof.
  induction frames as [|f frames IH];
    intros turns fuel w s Hframed Hknown Hfuel Hfile Hlen Hsession Hok Hturns.
  - destruct turns as [|turns]; [cbn in Hturns; lia|]. cbn [handle_loop].
    rewrite (bind_ok _ _ _ _ _ (handle_iteration_eof fuel w Hfile Hlen)).
    eexists. cbn [fmap list_fmap]. rewrite app_nil_r.
    destruct w. cbn in *. by subst.
  - destruct turns as [|turns]; [cbn in Hturns; lia|]. cbn [handle_loop].
    apply Forall_cons in Hframed as [Hf Hframed].
    apply Forall_cons in Hknown as [Hk Hknown].
    apply Forall_cons in Hfuel as [Hfu Hfuel].
    destruct (handle_iteration_frame fuel w f (concat (frame_chunks <$> frames)) s)
      as (added & Hrun); [done..|].
    rewrite (bind_ok _ _ _ _ _ Hrun).
    match goal with |- ∃ _, handle_loop _ _ _ _ ?w1 = _ =>
      destruct (IH turns fuel w1 s) as (rest & ->);
        [done|done|done|done|done|done|done|cbn in Hturns; lia|] end.
    exists (added ++ rest). cbn. by rewrite <- !app_assoc.
Qed.

(** X19.  [handle] on a client that sends complete messages of known
    types and then closes the connection, each message arriving as its
    header in one piece (one [recv] returns the [header_len] bytes of
    the header) followed by its body in any number of non-empty
    chunks: every message is put on the queue of the handler threads,
    in the order of arrival and with its counter [queuedtimes] at
    zero; nothing else is queued, the whole stream is read, and
    [handle] returns without an exception at the disconnect.  (A
    header that arrives in two pieces ends the loop with an IOError
    that is logged.  The writes that mirror NODE and LINK messages to
    the other clients are assumed to succeed.) *)
Theorem handle_queues_in_order frames turns fuel w :
  Forall well_framed frames →
  Forall known_type frames →
  Forall (λ f : frame, (length f.2 ≤ fuel)%nat) frames →
  rfile w = concat (frame_chunks <$> frames) →
  0 < header_len →
  (∀ history client data, oracle history (Sendall client data) = true) →
  (length frames < turns)%nat →
  ∃ w', handle oracle self turns fuel w = (Ok tt, w')
    ∧ message_queue w' = message_queue w ++ (frame_message <$> frames)
    ∧ rfile w' = [].
Proof.
  intros Hframed Hknown Hfuel Hfile Hlen Hok Hturns.
  unfold handle.
  run_step. world_simpl.
  run_step. world_simpl.
  run_step. world_simpl. run_step. world_simpl. run_step. world_simpl.
  unfold when at 1.
  destruct (self_master w).
  all: run_step; world_simpl; run_step; world_simpl; try (run_step; world_simpl);
    run_step; world_simpl.
  all: match goal with |- ∃ _, handle_loop _ _ _ _ ?w1 = _ ∧ _ =>
         destruct (handle_loop_frames frames turns fuel w1
                     (oracle (trace w ++ [Getpeername])
                        (CreateSession (Some (oracle (trace w) Getpeername)))))
           as (added & ->); try done end.
  all: eexists; split; [reflexivity|]; world_simpl; done.
Qed.

(** ** Joining a session *)



End Properties.

(** * The properties on concrete messages *)

Lemma handle_node_message_add_and_delete_witness :
  handle_node_message (api := core_api) quiet 0%nat node_add_delete
    (sample_world [0%nat] [])
  = (Ok [],
     set_trace [Log WARNING "ignoring invalid message: add and delete flag both set"]
       (sample_world [0%nat] [])).
Proof.
  apply (handle_node_message_add_and_delete (api := core_api) quiet 0%nat
           node_add_delete (sample_world [0%nat] [])); by vm_compute.
Defined.

Lemma receive_message_header_witness :
  receive_message (api := core_api) 5 short_header_world
  = (Raise (Exn IOError "invalid message header size"), sample_world [0%nat] []).
Proof.
  assert (Hpos : 0 < header_len (CoreApi := core_api)) by (by vm_compute).
  destruct (receive_message_header (api := core_api) 5 short_header_world Hpos)
    as (_ & _ & Hshort).
  apply (Hshort [Byte.x01; Byte.x00]); by vm_compute.
Defined.



(** ** CONFIG replies reach the requesting connection only *)



(** ** EXECUTE *)

Lemma handle_execute_message_unknown_node_witness :
  handle_execute_message (api := core_api) quiet execute_on_node (sample_world [0%nat] [])
  = (Ok [],
     set_message_queue [execute_on_node]
       (set_trace
          [GetNode 0%nat (Some (VInt 5));
           Log EXCEPTION_LEVEL "error getting object: %s";
           Sleep 125;
           Log DEBUG "queueing msg (queuedtimes = %s): type %s"]
          (sample_world [0%nat] []))).
Proof.
  apply (handle_execute_message_unknown_node (api := core_api) quiet execute_on_node
           (sample_world [0%nat] []) 0%nat (VInt 5) (VInt 1)); by vm_compute.
Defined.

(** C7 fails as stated.  An EXECUTE message for node 5 without a
    scheduled time; the session has no node 5 and the LOCAL flag is not set.  The message
    carries no execution number: the handler raises ValueError instead
    of returning, and the message is not put back on the queue. *)
Lemma handle_execute_message_without_number :
  let w := sample_world [0%nat] [] in
  get_tlv execute_without_number ExecuteTlvs.TIME = None
  ∧ has_flag (api := core_api) execute_without_number MessageFlags.LOCAL = false
  ∧ (∀ history, quiet history (GetNode 0%nat (Some (VInt 5))) = NoSuchNode)
  ∧ handle_execute_message (api := core_api) quiet execute_without_number w
    = (Raise (Exn ValueError "Execute Message is missing execution number."), w)
  ∧ fst (handle_execute_message (api := core_api) quiet execute_without_number w) ≠ Ok [].
Proof. by vm_compute. Qed.

(** ** EVENT *)

Lemma handle_event_message_node_scoped_witness :
  handle_event_message (api := core_api) (with_node 7 wlan_node) 0%nat
    event_instantiation_node (sample_world [0%nat] [])
  = (Ok [],
     set_trace
       [Log DEBUG "handling event %s at %s"; GetNode 0%nat (Some (VInt 7));
        StartMobility 0%nat [7]]
       (sample_world [0%nat] [])).
Proof.
  apply (handle_event_message_node_scoped (api := core_api) (with_node 7 wlan_node)
           0%nat event_instantiation_node (sample_world [0%nat] []) 0%nat 3 (VInt 7));
    by vm_compute.
Defined.

(** C6 fails as stated.  An EVENT message with the phase
    DEFINITION_STATE (1, below SHUTDOWN_STATE, 6) and the node id 7, in a session that has no node
    7: the handler does not drop the message with a warning, it raises
    KeyError. *)
Lemma handle_event_message_unknown_node :
  let w := sample_world [0%nat] [] in
  get_tlv event_definition_node EventTlvs.TYPE = Some (VInt 1)
  ∧ 1 ≤ EventTypes_value (CoreApi := core_api) EventTypes.SHUTDOWN_STATE
  ∧ get_tlv event_definition_node EventTlvs.NODE = Some (VInt 7)
  ∧ handle_event_message (api := core_api) quiet 0%nat event_definition_node w
    = (Raise (Exn KeyError "Event message for unknown node %d"),
       set_trace [Log DEBUG "handling event %s at %s"; GetNode 0%nat (Some (VInt 7))] w)
  ∧ fst (handle_event_message (api := core_api) quiet 0%nat event_definition_node w)
    ≠ Ok [].
Proof. by vm_compute. Qed.

(** ** SESSION *)

Lemma handle_session_message_modify_witness :
  handle_session_message (api := core_api) quiet 0%nat session_unknown_then_current
    (sample_world [0%nat] [])
  = (Ok [],
     sessions_modified (Some ["a"; "b"]) None None None 0 [7; 0]
       (set_trace [Log DEBUG "SESSION message flags=0x%x sessions=%s"]
          (sample_world [0%nat] []))).
Proof.
  apply (handle_session_message_modify (api := core_api) quiet 0%nat
           session_unknown_then_current (sample_world [0%nat] []) ["7"; "0"] [7; 0]).
  - done.
  - done.
  - repeat constructor.
  - intros [|[|i]] z Hz _; vm_compute in Hz; try done;
      (split; [by eexists | done]).
Defined.

(** C9 fails as stated.  A SESSION message with no flag set that
    lists the id 0 twice and one name: the second listed id is not handled and no reply list is
    returned, the handler raises IndexError. *)
Lemma handle_session_message_short_names :
  let w := sample_world [0%nat] [] in
  flags session_two_ids_one_name = 0
  ∧ str_to_list (CoreApi := core_api) (get_tlv session_two_ids_one_name SessionTlvs.NUMBER)
    = Some ["0"; "0"]
  ∧ fst (handle_session_message (api := core_api) quiet 0%nat session_two_ids_one_name w)
    = Raise (Exn IndexError "list index out of range")
  ∧ fst (handle_session_message (api := core_api) quiet 0%nat session_two_ids_one_name w)
    ≠ Ok [].
Proof. by vm_compute. Qed.

(** ** Receiving *)

(** With the whole body delivered, [receive_message] returns the
    message once the loop has had two turns. *)
Example receive_message_complete_body :
  ∃ message,
    fst (receive_message (api := core_api) 2 complete_body_world) = Ok message
    ∧ raw_message message
      = [Byte.x01; Byte.x00; Byte.x00; Byte.x04; Byte.x61; Byte.x62; Byte.x63; Byte.x64]
    ∧ message_type message = 1.
Proof. eexists. by vm_compute. Qed.

(** C3, on the code.  The header announces a body of four bytes, two
    arrive, and the peer closes the connection.  However many turns
    the loop that reads the body is given, [receive_message] neither
    returns a message nor raises: every further [recv] returns the
    empty bytes object, which the loop does not test for. *)
Theorem receive_message_short_body_never_ends fuel :
  fst (receive_message (api := core_api) fuel short_body_world) = OutOfFuel.
Proof.
  set (w1 := sample_world [0%nat] [Chunk [Byte.x61; Byte.x62]]).
  destruct (receive_body_short fuel 4 [[Byte.x61; Byte.x62]] [] w1)
    as [w' Hbody]; [done | by vm_compute |].
  unfold receive_message.
  rewrite (bind_ok _ _ short_body_world
             [Byte.x01; Byte.x00; Byte.x00; Byte.x04] w1) by done.
  change (negb (len [Byte.x01; Byte.x00; Byte.x00; Byte.x04]
                =? header_len (CoreApi := core_api))) with false.
  cbv iota.
  change (unpack_header (CoreApi := core_api) [Byte.x01; Byte.x00; Byte.x00; Byte.x04])
    with (1, 0, 4).
  cbv iota beta.
  rewrite (bind_ok _ _ w1 tt w1) by done.
  by rewrite (bind_out_of_fuel _ _ _ _ Hbody).
Qed.

(** ** The receive loop *)

(** C5, on the code.  Handlers 1 and 2 are attached to the session of
    handler 0, which receives a NODE message.

    When the socket of handler 1 raises IOError on the write, the
    exception leaves the loop: handler 2, which is attached and whose
    socket works, is not written the message, and the receive loop of
    handler 0 ends with the exception.

    A message whose type is no member of MessageTypes (99) is stamped
    but not queued: [queue_message] raises ValueError when it formats
    its debug record, and the receive loop ends with the exception. *)
Theorem handle_iteration_leaves_clients_out :
  let broken := handle_iteration (api := core_api) (broken_socket 1) 0%nat 5 mirror_world in
  let unknown := handle_iteration (api := core_api) quiet 0%nat 5 unknown_type_world in
  Session.session_clients (heap mirror_world 0%nat) = [0%nat; 1%nat; 2%nat]
  ∧ (∀ history data, broken_socket 1 history (Sendall 2%nat data) = true)
  ∧ fst broken = Raise (Exn IOError "sendall")
  ∧ sent (trace (snd broken)) = [(1%nat, node_message_bytes)]
  ∧ fst unknown = Raise (Exn ValueError "is not a valid MessageTypes")
  ∧ message_queue (snd unknown) = [].
Proof. by vm_compute. Qed.

(** With working sockets the same NODE message reaches handlers 1 and
    2, and not handler 0. *)
Example handle_iteration_mirrors_node_message :
  let run := handle_iteration (api := core_api) quiet 0%nat 5 mirror_world in
  fst run = Ok Continue
  ∧ sent (trace (snd run)) = [(1%nat, node_message_bytes); (2%nat, node_message_bytes)]
  ∧ (queuedtimes <$> message_queue (snd run)) = [Some 0].
Proof. by vm_compute. Qed.

(** ** The further properties on concrete messages *)

Lemma receive_message_never_reports_length_mismatch_witness :
  receive_message (api := core_api) 5 short_header_world
  = (Raise (Exn IOError "invalid message header size"), sample_world [0%nat] [])
  ∧ exn_message (Exn IOError "invalid message header size")
    ≠ "received message length does not match received data (%s != %s)".
Proof.
  assert (Hrun : receive_message (api := core_api) 5 short_header_world
                 = (Raise (Exn IOError "invalid message header size"),
                    sample_world [0%nat] [])) by (by vm_compute).
  split; [exact Hrun|].
  exact (receive_message_never_reports_length_mismatch (api := core_api) 5
           short_header_world _ _ Hrun).
Defined.

Lemma receive_message_complete_witness :
  ∃ w',
    receive_message (api := core_api) 5 complete_body_world
    = (Ok (received_message (api := core_api) [Byte.x01; Byte.x00; Byte.x00; Byte.x04]
             (concat [[Byte.x61; Byte.x62]; [Byte.x63; Byte.x64]])), w')
    ∧ rfile w' = []
    ∧ message_queue w' = message_queue complete_body_world
    ∧ sent (trace w') = sent (trace complete_body_world).
Proof.
  apply (receive_message_complete (api := core_api) 5 complete_body_world
           [Byte.x01; Byte.x00; Byte.x00; Byte.x04]
           [[Byte.x61; Byte.x62]; [Byte.x63; Byte.x64]] []).
  - done.
  - done.
  - by repeat constructor.
  - done.
  - cbn. lia.
Defined.

Lemma handle_iteration_breaks_on_failure_witness :
  handle_iteration (api := core_api) quiet 0%nat 5 short_header_world
  = (Ok Break,
     set_trace [Log EXCEPTION_LEVEL "error receiving message"] (sample_world [0%nat] [])).
Proof.
  apply (handle_iteration_breaks_on_failure (api := core_api) quiet 0%nat 5
           short_header_world (Exn IOError "invalid message header size")
           (sample_world [0%nat] [])).
  by vm_compute.
Defined.

Lemma handle_node_message_add_status_witness :
  ∃ w', handle_node_message (api := core_api) (adding_node router_node 4) 0%nat
          node_add_string (sample_world [0%nat] [])
        = (Ok [], w')
    ∧ sent (trace w') = [(0%nat, emulation_id_reply (api := core_api) 7)]
    ∧ node_status_request w' = delete 7 ∅.
Proof.
  apply (handle_node_message_add_status (api := core_api) (adding_node router_node 4)
           0%nat node_add_string (sample_world [0%nat] []) 0%nat router_node);
    by vm_compute.
Defined.

Lemma handle_node_message_delete_witness :
  handle_node_message (api := core_api) deleting_node 0%nat node_delete_string
    (sample_world [0%nat] [])
  = (Ok [CoreNodeMessage_pack (CoreApi := core_api) 10
           (CoreNodeTlv_pack (CoreApi := core_api) NodeTlvs.NUMBER (Some (VInt 7)))],
     set_trace [DeleteNode 0%nat (Some (VInt 7))] (sample_world [0%nat] [])).
Proof.
  apply (handle_node_message_delete (api := core_api) deleting_node 0%nat
           node_delete_string (sample_world [0%nat] []) 0%nat); by vm_compute.
Defined.

Lemma handle_event_message_above_shutdown_witness :
  emits no_set_state (handle_event_message (api := core_api) quiet 0%nat event_start).
Proof.
  apply (handle_event_message_above_shutdown (api := core_api) quiet 0%nat
           event_start 7); by vm_compute.
Defined.

Lemma handle_event_message_instantiation_witness :
  ∃ w', handle_event_message (api := core_api) (with_nodes [1; 2; 3]) 0%nat
          event_instantiation pending_world
        = (Ok [], w')
    ∧ sent (trace w')
      = sent (trace pending_world)
        ++ ((λ id, (0%nat, emulation_id_reply (api := core_api) id))
              <$> filter (λ id, is_Some (node_status_request pending_world !! id))
                    [1; 2; 3])
    ∧ (∀ id, node_status_request w' !! id
             = if decide (id ∈ [1; 2; 3]) then None
               else node_status_request pending_world !! id)
    ∧ Invoke (Some 0%nat) "instantiate" [] ∈ trace w'.
Proof.
  apply (handle_event_message_instantiation (api := core_api) (with_nodes [1; 2; 3])
           0%nat event_instantiation pending_world 0%nat [1; 2; 3]).
  - done.
  - done.
  - done.
  - done.
  - done.
  - apply (bool_decide_unpack _). by vm_compute.
Defined.

Lemma handle_message_dispatches_witness :
  ∃ w', handle_message (api := core_api) deleting_node 0%nat
          (sample_handlers deleting_node) idle_broker node_delete_string
          (sample_world [0%nat] [])
        = (Ok tt, w')
    ∧ sent (trace w')
      = [(0%nat,
          CoreNodeMessage_pack (CoreApi := core_api) 10
            (CoreNodeTlv_pack (CoreApi := core_api) NodeTlvs.NUMBER (Some (VInt 7))))].
Proof.
  destruct (handle_message_dispatches (api := core_api) deleting_node 0%nat
              (sample_handlers deleting_node) idle_broker node_delete_string
              (λ message,
                 fmap Some <$> handle_node_message (api := core_api) deleting_node
                                 0%nat message)
              (sample_world [0%nat] []) (sample_world [0%nat] []))
    as (w' & Hrun & Hsent & Hrest); [done | done |].
  exists w'. split; [exact Hrun | exact Hsent].
Defined.

Lemma handle_message_drops_witness :
  ∃ added,
    handle_message (api := core_api) quiet 0%nat (sample_handlers quiet)
      idle_broker event_start (sample_world [0%nat] [])
    = (Ok tt, set_trace (trace (sample_world [0%nat] []) ++ added) (sample_world [0%nat] []))
    ∧ Forall (λ c, ∃ lvl fmt, c = Log lvl fmt) added.
Proof.
  apply (handle_message_drops (api := core_api) quiet 0%nat (sample_handlers quiet)
           idle_broker event_start (sample_world [0%nat] []) false
           (sample_world [0%nat] [])).
  - done.
  - right. done.
Defined.

Lemma finish_waits_ten_seconds_at_most_witness :
  ∃ r w', finish quiet 0%nat 10 (sample_world [0%nat] [] ) = (r, w')
    ∧ r ≠ OutOfFuel
    ∧ slept (trace (sample_world [0%nat] [])) ≤ slept (trace w')
      ≤ slept (trace (sample_world [0%nat] [])) + 10000.
Proof.
  apply (finish_waits_ten_seconds_at_most quiet 0%nat 10 (sample_world [0%nat] [])). lia.
Defined.

Lemma finish_leaves_session_witness :
  ∃ w', finish quiet 0%nat 10 (sample_world [0%nat; 1%nat] []) = (Ok tt, w')
    ∧ self_session w' = Some 0%nat
    ∧ Session.session_clients (heap w' 0%nat) = [1%nat]
    ∧ (∀ s', s' ≠ 0%nat → heap w' s' = heap (sample_world [0%nat; 1%nat] []) s')
    ∧ coreemu_sessions w' = coreemu_sessions (sample_world [0%nat; 1%nat] []).
Proof.
  apply (finish_leaves_session quiet 0%nat 10 (sample_world [0%nat; 1%nat] [])
           0%nat [1%nat] false).
  - lia.
  - done.
  - done.
  - done.
Defined.


Lemma handle_config_message_answers_requests_only_witness :
  emits no_send (handle_config_message (api := core_api) quiet 0%nat config_update).
Proof.
  apply (handle_config_message_answers_requests_only (api := core_api) quiet 0%nat
           config_update 2); done.
Defined.

Lemma handle_queues_in_order_witness :
  ∃ w', handle (api := core_api) quiet 0%nat 3 5 two_frames_world = (Ok tt, w')
    ∧ message_queue w' = frame_message (api := core_api) <$> two_frames
    ∧ rfile w' = [].
Proof.
  apply (handle_queues_in_order (api := core_api) quiet 0%nat two_frames 3 5
           two_frames_world).
  - repeat constructor; done.
  - by repeat constructor.
  - repeat constructor; cbn; lia.
  - done.
  - done.
  - done.
  - cbn. lia.
Defined.
